(* ===== verification/_CoqProject ===== *)
-Q . S2P
Prelude.v
JsString.v
Regex.v
EmailRegex.v
ClassList.v
Timers.v
Dom.v
World.v
ContactForm.v
Theme.v
Scroll.v
MobileMenu.v
Nav.v
Typewriter.v
PageLoad.v
Reveal.v
Console.v
Anchors.v
EventLoop.v
PageInvariant.v
System.v
