(* ===== verification/Prelude.v ===== *)
(** * A verification library for the portfolio site script [src/js/main.js]

    The program is a single browser script that wires independent
    behaviours to one page through the DOM, the window's scroll offset,
    [localStorage], [IntersectionObserver]s and [setTimeout].  The
    library models the script as a state-passing program over an
    explicit [world] and proves what each handler does.

    ** Parts of the program and how they interact

    Every component reacts to one kind of event and shares only the DOM
    (and, for the form, the timer queue):
    - navigation highlighting (lines 1-10) and page transitions (389-398);
    - sticky header and parallax on [scroll] (12-26, 340-348);
    - mobile menu toggle and its reset on link clicks (28-59);
    - dark-mode theme, loaded from and saved to [localStorage] (61-103);
    - typewriter effect of the hero title, a chain of timers (105-128);
    - reveal-on-scroll and skill-bar observers (130-165, 359-387);
    - smooth scrolling of same-page anchors (167-182);
    - contact form validation and simulated submission (184-338);
    - the page-load fade in (350-357);
    - the console easter egg (400-402), whose order relative to
      [animateSkillBars] depends on [document.readyState] (383-387).

    ** Files (in dependency order, as listed in _CoqProject)

    - [Prelude] (this file): JS string values as lists of UTF-16 code
      units, literals [js "..."], the JS exception type and the
      handler monad [JS]: a state monad in which a thrown exception
      keeps the mutations made before it (as a JS event handler does),
      its laws and the [js] rewrite database.
    - [JsString]: [String.prototype.trim] with the ECMAScript
      WhiteSpace/LineTerminator set, [startsWith], [includes], the
      [||] default of [getAttribute]; trim is idempotent, strips
      exactly the border blanks and keeps an infix.
    - [Regex]: the regular expressions the script uses (classes,
      concatenation, one-or-more), their language as an inductive
      relation, and a matcher by Brzozowski derivatives proved sound
      and complete ([matches_correct]); [EmailRegex] below uses it.
    - [EmailRegex]: the regex [/^[^\s@]+@[^\s@]+\.[^\s@]+$/] of lines
      204 and 280 and its characterisation as a split of the address.
    - [ClassList]: the DOMTokenList of [classList]: [add], [remove],
      [toggle], [contains] on an ordered list without duplicates; the
      interface [TokenSet] states what the components rely on and the
      list implementation discharges it.

    - [Timers]: the [setTimeout] queue: a timer is due at
      [now + max 0 delay] and fires in order of due time, then of
      scheduling; [fire] takes the earliest and advances the clock,
      [drain] runs the queue to empty.  The queue invariant (distinct
      ids below the counter, no timer in the past) is preserved.
    - [Dom]: the document as a [gmap] from nodes to element records
      with a document order and parent pointers; the selectors the
      script uses, [getElementById], [querySelector(All)], [closest],
      [parentElement]; the mutations [classList], [className], [style],
      [textContent], [value], [createElement], [appendChild], [remove],
      [reset];
      and the CSSOM serialisation that reads a hex colour back as
      [rgb(r, g, b)].  Frame lemmas say what each mutation leaves.
    - [World]: the page state ([w_doc], [localStorage], the timer
      queue, the scroll offsets, the observed sets, the global
      constants of lines 1-184 as [globals], the console output) and
      the [task] type of
      every timer callback of the script.  [doc_only] and [doc_total]
      are the footprints of handlers that only touch the document.
    - [ContactForm]: lines 184-338: the submit handler [submit],
      [validateField] as [validate_field], the blur and input
      listeners [on_blur] and [on_input], [showFieldError],
      [showFormMessage] and the [FormSent] and [HideMessage] timer
      callbacks.  Theorems: a valid submission shows the sending notice
      and schedules the send exactly once, an invalid one never
      schedules it, blur validation follows each field's rule, typing
      into a field marked by an error revalidates it, and the send
      callback never cancels a pending hide timer, which hides whatever
      message is shown when it fires.  Reading a field that is missing
      or is not a form control throws, as [.value.trim()] does.
    - [Theme]: lines 61-103: [theme_load] (the stored preference at
      load) and [theme_click]; the class, the icon and the stored value
      agree after either, a reload restores the theme a click chose,
      and two clicks restore the page.
    - [Scroll]: lines 12-26 and 340-348: the sticky header threshold
      ([on_scroll_header], which throws when the page has no header)
      and the parallax transform, whose [`${scrolled * 0.5}`] string
      ([half_str]) reads back as half the offset.
    - [MobileMenu]: lines 28-59: the toggle and the three burger spans,
      and the reset on a nav link click; the spans agree with the open
      state after every click, and a page without [nav] throws.
    - [Nav]: lines 1-10: [current_page] (the last path segment or
      [index.html]) and the [active] class of the nav links.
    - [Typewriter]: lines 105-128: the first character at once and one
      timer per further character ([type_step]).
    - [PageLoad]: lines 350-357 and 389-398: the load fade-in and the
      dimming of the body on a click on a link whose [href] is set and
      starts with none of [#], [mailto:] and [http].
    - [Reveal]: lines 130-165 and 359-387: the [.reveal]/[.skill-item]
      observer, which reveals once and unobserves, and the skill-bar
      observers, which together set a bar's width twice, by timers due
      200 and 300 ms after the item enters the viewport.
    - [Anchors]: lines 167-182: the smooth-scroll listener, with
      [querySelector] of the [href] read as an id selector or a
      [SyntaxError] (for [#2024-talks] and for hash-routing links such
      as [#/about]).
    - [Console]: lines 400-402: the two [console.log] calls append
      their arguments to the console output.
    - [EventLoop]: the browser's loop: a timer turn fires the earliest
      timer ([tick]) and runs its callback ([run_task]), [wait] lets
      time pass, and [dispatch] runs the listeners of a user event, one
      definition per [addEventListener] of the script, in registration
      order, a click bubbling from the target to the root; an
      exception ends only its listener ([isolate]).  The typewriter
      types its whole text ([typewriter_completes]).
    - [PageInvariant]: Hoare triples of the handler monad ([hoare],
      [keeps]) and the class [PageInv], the interface an invariant of
      the page offers the handlers: it survives document mutations
      that keep class lists duplicate-free and every [setTimeout] but
      the typewriter's with a delay up to [max_delay], the 5000 ms of
      the auto-hide timer.  Every handler and every event's dispatch
      keeps every such invariant, proved once for the class; the
      instances are [page_inv] (well-formed timer queue, fixed clock,
      duplicate-free class lists), [typing_at_most] (a bound on the
      pending typewriter timers) and [due_within] (every pending timer
      is due within [max_delay]).  Timer turns and waits only move the
      clock forward.
    - [System]: the page as a transition system ([step], [reachable],
      executable traces [run_trace]) and the script's start
      ([init_globals] reads the top-level [const]s, [script] runs the
      top-level statements, [start] both).  Theorems: on every page
      reachable from the start at most one typewriter timer is pending
      ([typewriter_single_timer]) and every pending timer is due within
      5000 ms ([timers_due_within]), both through the invariants of
      [PageInvariant]; after any sequence of scroll events the
      header's class depends on the last offset only
      ([scroll_sequence]).  The example [thanks_hidden_early] replays
      the auto-hide bug of the contact form from the start of the
      page: two submissions three seconds apart, the second thank-you
      hidden after two seconds.

    ** Fuel and bounds

    [Dom.ancestors] walks parent pointers with fuel [length d_order],
    the number of nodes in the document: the ancestors of a node in a
    tree are distinct nodes of the document, so the walk reaches the
    root before the fuel runs out (the sample documents of the
    witnesses are checked by evaluation).  [Timers.drain n] fires at
    most [n] timers; [drain_terminates] shows that [n] at least the
    number of pending timers empties a queue whose callbacks set no
    new timer.  [EventLoop.run_timers n] runs at most [n] timer turns;
    the typewriter at position [i] of [text] finishes within
    [length text - i + 1] turns ([typewriter_completes]), the last
    turn being the one that finds nothing left to type.  Loops of the
    script over node lists ([forEach]) are structural recursion on
    the list ([for_each], [for_each_i]).

    ** What is not modelled

    CSS rendering and transitions, [scrollIntoView] (layout), and the
    browser's layout in general: which elements intersect the viewport
    (the observer options of lines 131-134 only decide that) is an
    input event, not computed.  [querySelector] of an anchor [href] is
    modelled for [#] followed by CSS name characters (an id selector or
    a [SyntaxError]) and for fragments with a character no selector
    admits (a [SyntaxError]); hrefs with selector syntax (compound,
    complex or escaped selectors) are taken not to match: reading
    them would need the CSS selector grammar, beyond the selectors the
    script itself writes, so [Anchors] stays partly modelled.
    The script is taken to run once the whole body is parsed (it is
    loaded at the end of the page), so its top-level [const]s read the
    complete document; [DOMContentLoaded] is taken to fire right after
    the script, on that same document, before any timer or user event.
    Assigning [textContent] replaces the element's text but does not
    remove child elements, which agrees with the DOM on an element with
    no child element: the script's own error divs, and the form message
    and hero title, which are assumed to hold text only (the page's
    HTML is not part of the repository).  The blur and input listeners are attached to the [input]s
    and [textarea]s of line 251 only, so [validate_field] reads their
    [value] as a string.  Numbers
    are modelled where the code computes with them: the scroll offset
    as an integer number of pixels, delays as integer milliseconds. *)

From stdpp Require Export base list gmap strings.
From Stdlib Require Export ZArith.
From Stdlib Require Import String Ascii.

(** ** JavaScript string values *)

(** A JS string is a sequence of UTF-16 code units. *)
Abbreviation jsstr := (list Z).

(** The literal of the source [s], an ASCII string, as code units. *)
Definition js (s : string) : jsstr :=
  map (fun a => Z.of_nat (nat_of_ascii a)) (list_ascii_of_string s).

(** [a || "d"] on a string: the empty string is falsy. *)
Definition or_default (v : option jsstr) (d : jsstr) : jsstr :=
  match v with
  | Some ((_ :: _) as s) => s
  | _ => d
  end.

(** ** Exceptions and the handler monad *)

(** What a handler of the script can throw: reading a property of
    [null] is a [TypeError]; [querySelector] of a string that is not a
    selector throws a [SyntaxError] [DOMException]. *)
Inductive exn :=
  | TypeError (what : string)
  | SyntaxError (what : string).

#[export] Instance exn_eq_dec : EqDecision exn.
Proof. solve_decision. Defined.

(** A handler runs on a state [S] and either returns or throws; the
    state it has mutated before throwing is kept. *)
Definition JS (S A : Type) : Type := S -> S * (exn + A).

Section Monad.
Context {S : Type}.

Definition ret {A} (a : A) : JS S A := fun s => (s, inr a).

Definition bind {A B} (m : JS S A) (k : A -> JS S B) : JS S B :=
  fun s => match m s with
           | (s', inl e) => (s', inl e)
           | (s', inr a) => k a s'
           end.

Definition throw {A} (e : exn) : JS S A := fun s => (s, inl e).

Definition get : JS S S := fun s => (s, inr s).

Definition modify (f : S -> S) : JS S unit := fun s => (f s, inr tt).

(** [forEach]: run the body on each element in order, stopping at the
    first exception. *)
Fixpoint for_each {A} (l : list A) (f : A -> JS S unit) : JS S unit :=
  match l with
  | [] => ret tt
  | x :: l' => bind (f x) (fun _ => for_each l' f)
  end.

(** [forEach((x, index) => ...)]: the body also gets the index. *)
Definition for_each_i {A} (l : list A) (f : nat -> A -> JS S unit) : JS S unit :=
  for_each (zip (seq 0 (Datatypes.length l)) l) (fun p => f p.1 p.2).

(** The value of an [x == null] check before a property read. *)
Definition deref {A} (o : option A) (what : string) : JS S A :=
  match o with
  | Some a => ret a
  | None => throw (TypeError what)
  end.

(** The state reached by a run, exception or not. *)
Definition exec {A} (m : JS S A) (s : S) : S := fst (m s).

End Monad.

Declare Scope js_scope.
Delimit Scope js_scope with js.
Notation "x <- m ;; k" := (bind m (fun x => k))
  (at level 100, m at next level, k at level 200, right associativity) : js_scope.
Notation "m ;; k" := (bind m (fun _ => k))
  (at level 100, k at level 200, right associativity) : js_scope.
Open Scope js_scope.

(** ** Monad laws and run equations *)

Create HintDb js discriminated.
Create Rewrite HintDb js_run.

Section MonadLaws.
Context {S : Type}.

Lemma bind_ret_l {A B} (a : A) (k : A -> JS S B) : bind (ret a) k = k a.
Proof. reflexivity. Qed.

Lemma bind_ret_r {A} (m : JS S A) s : bind m ret s = m s.
Proof. unfold bind, ret. by destruct (m s) as [? []]. Qed.

Lemma bind_assoc {A B C} (m : JS S A) (k : A -> JS S B) (h : B -> JS S C) s :
  bind (bind m k) h s = bind m (fun a => bind (k a) h) s.
Proof. unfold bind. by destruct (m s) as [? []]. Qed.

Lemma deref_some {A} (a : A) what : deref (S:=S) (Some a) what = ret a.
Proof. reflexivity. Qed.

Lemma bind_throw {A B} e (k : A -> JS S B) : bind (throw e) k = throw e.
Proof. reflexivity. Qed.

Lemma run_bind_ok {A B} (m : JS S A) (k : A -> JS S B) s s' a :
  m s = (s', inr a) -> bind m k s = k a s'.
Proof. unfold bind. by intros ->. Qed.

Lemma run_bind_err {A B} (m : JS S A) (k : A -> JS S B) s s' e :
  m s = (s', inl e) -> bind m k s = (s', inl e).
Proof. unfold bind. by intros ->. Qed.

(** A program that ends with [return b] returns [b] when it returns. *)
Lemma bind_const_ret {A B} (m : JS S A) (b : B) s s' r :
  bind m (fun _ => ret b) s = (s', inr r) -> r = b.
Proof. unfold bind. destruct (m s) as [? [?|?]]; by intros [= <- <-]. Qed.

Lemma for_each_app {A} (l1 l2 : list A) (f : A -> JS S unit) s :
  for_each (l1 ++ l2) f s = bind (for_each l1 f) (fun _ => for_each l2 f) s.
Proof.
  revert s; induction l1 as [|x l1 IH]; intros s; simpl; [done|].
  rewrite bind_assoc. unfold bind. destruct (f x s) as [s' [e|u]]; [done|].
  apply IH.
Qed.

(** A body that never throws gives a [forEach] that never throws, and
    its final state is the fold of the body's state changes. *)
Lemma for_each_total {A} (l : list A) (f : A -> JS S unit) (g : A -> S -> S) s :
  (forall x s, f x s = (g x s, inr tt)) ->
  for_each l f s = (foldl (fun s x => g x s) s l, inr tt).
Proof.
  intros Hf. revert s; induction l as [|x l IH]; intros s; simpl; [done|].
  unfold bind. rewrite Hf. apply IH.
Qed.
End MonadLaws.

#[export] Hint Rewrite @bind_ret_l @bind_throw @deref_some : js_run.

(** ** Literals *)

Lemma js_app s1 s2 : js (s1 ++ s2)%string = js s1 ++ js s2.
Proof.
  unfold js. induction s1 as [|a s1 IH]; simpl; [done|]. by rewrite IH.
Qed.

Lemma js_cons a s : js (String a s) = Z.of_nat (nat_of_ascii a) :: js s.
Proof. reflexivity. Qed.

Lemma length_js s : Datatypes.length (js s) = String.length s.
Proof. unfold js. rewrite length_map. induction s; simpl; auto. Qed.

Lemma js_inj s1 s2 : js s1 = js s2 -> s1 = s2.
Proof.
  unfold js. revert s2; induction s1 as [|a s1 IH]; intros [|b s2]; simpl;
    intros H; try discriminate; [done|].
  injection H as Hab Hs. f_equal; [|by apply IH].
  apply Nat2Z.inj in Hab.
  by rewrite <- (ascii_nat_embedding a), <- (ascii_nat_embedding b), Hab.
Qed.

(** Two distinct literals of the source are distinct values. *)
Ltac lit_neq := let H := fresh in intro H; vm_compute in H; discriminate H.

Lemma or_default_nonempty v d : d <> [] -> or_default v d <> [].
Proof. intros H. destruct v as [[|a l]|]; simpl; [done| |done]. intros E. discriminate E. Qed.

Lemma or_default_some s d : s <> [] -> or_default (Some s) d = s.
Proof. intros H. destruct s; [by destruct H | done]. Qed.

(** A fold of steps that all keep [h] keeps [h]. *)
Lemma foldl_preserve {A B C} (h : B -> C) (g : B -> A -> B) l b :
  (forall b a, h (g b a) = h b) -> h (foldl g b l) = h b.
Proof. intros Hg. revert b. induction l as [|a l IH]; intros b; simpl; [done|]. by rewrite IH. Qed.

Lemma foldl_invariant {A B} (P : B -> Prop) (g : B -> A -> B) l b :
  (forall b a, P b -> P (g b a)) -> P b -> P (foldl g b l).
Proof. intros Hg. revert b. induction l as [|a l IH]; intros b Hb; simpl; [done|]. by apply IH, Hg. Qed.

(** The pairs [forEach] passes with the index. *)
Lemma zip_seq_elem {A} (l : list A) k x : l !! k = Some x -> (k, x) ∈ zip (seq 0 (Datatypes.length l)) l.
Proof.
  intros Hk. apply (list_elem_of_lookup_2 _ k). rewrite lookup_zip_with, Hk.
  rewrite lookup_seq_lt by (by eapply lookup_lt_Some). done.
Qed.

Lemma zip_seq_snd {A} (l : list A) : (zip (seq 0 (Datatypes.length l)) l).*2 = l.
Proof. apply snd_zip. by rewrite length_seq. Qed.

(** A filter that keeps every element, or none. *)
Lemma filter_all_true {A} (P : A -> Prop) `{forall x, Decision (P x)} (l : list A) :
  (forall x, x ∈ l -> P x) -> filter P l = l.
Proof.
  induction l as [|x l IH]; intros Hl; [done|].
  rewrite list.filter_cons_True by (apply Hl; left). f_equal. apply IH. intros y Hy. apply Hl. by right.
Qed.

Lemma filter_all_false {A} (P : A -> Prop) `{forall x, Decision (P x)} (l : list A) :
  (forall x, x ∈ l -> ~ P x) -> filter P l = [].
Proof.
  induction l as [|x l IH]; intros Hl; [done|].
  rewrite list.filter_cons_False by (apply Hl; left). apply IH. intros y Hy. apply Hl. by right.
Qed.

(** A value is equal to itself, decided. *)
Lemma bool_decide_refl {A} `{EqDecision A} (x : A) : bool_decide (x = x) = true.
Proof. by apply bool_decide_eq_true_2. Qed.
#[export] Hint Rewrite @bool_decide_refl : js_run.
