(* ===== verification/JsString.v ===== *)
(** * String operations of the script on UTF-16 code units

    [String.prototype.trim] (lines 193-196, 266), [startsWith]
    (line 393), [includes] (line 332) and [charAt] (line 114), with
    the ECMAScript WhiteSpace and LineTerminator code points that both
    [trim] and the regex class [\s] use.  The main result is the
    characterisation [trim_unique]: [trim s] is the one infix of [s]
    that has blank borders around it and no blank at its ends. *)

From S2P Require Import Prelude.

(** ** Blanks *)

(** ECMAScript WhiteSpace (TAB, VT, FF, ZWNBSP and the Unicode
    category Zs) and LineTerminator (LF, CR, LS, PS). *)
Definition is_js_space (c : Z) : bool :=
  ((c =? 9) || (c =? 10) || (c =? 11) || (c =? 12) || (c =? 13) ||
  (c =? 32) || (c =? 160) || (c =? 5760) ||
  ((8192 <=? c) && (c <=? 8202)) ||
  (c =? 8232) || (c =? 8233) || (c =? 8239) || (c =? 8287) ||
  (c =? 12288) || (c =? 65279))%Z.

Definition blank (c : Z) : Prop := is_js_space c = true.

#[export] Instance blank_dec c : Decision (blank c).
Proof. unfold blank. apply _. Defined.

(** ** trim *)

Fixpoint trim_start (s : jsstr) : jsstr :=
  match s with
  | [] => []
  | c :: s' => if is_js_space c then trim_start s' else s
  end.

Definition trim_end (s : jsstr) : jsstr := rev (trim_start (rev s)).

(** [TrimString(s, start+end)]: strip both ends. *)
Definition trim (s : jsstr) : jsstr := trim_end (trim_start s).

(** A string with no blank at either end. *)
Definition unpadded (t : jsstr) : Prop :=
  match t with
  | [] => True
  | c :: _ => ~ blank c /\ forall d t', t = t' ++ [d] -> ~ blank d
  end.

(** ** Other string operations *)

Definition starts_with (s p : jsstr) : bool := bool_decide (p `prefix_of` s).

(** [s.includes(p)]: [p] occurs at some position of [s]. *)
Fixpoint includes (s p : jsstr) : bool :=
  match s with
  | [] => bool_decide (p = [])
  | _ :: s' => starts_with s p || includes s' p
  end.

(** [s.charAt(i)]: the code unit at [i], or [""] out of range. *)
Definition char_at (s : jsstr) (i : nat) : jsstr :=
  match s !! i with
  | Some c => [c]
  | None => []
  end.

(** ** Lemmas on trim *)

Lemma trim_start_split s :
  exists pre, s = pre ++ trim_start s /\ Forall blank pre.
Proof.
  induction s as [|c s IH]; simpl; [by exists []|].
  destruct (is_js_space c) eqn:Hc.
  - destruct IH as [pre [Hs Hpre]]. exists (c :: pre). split; [by rewrite Hs at 1|].
    by constructor.
  - by exists [].
Qed.

Lemma trim_start_head s c t : trim_start s = c :: t -> ~ blank c.
Proof.
  induction s as [|d s IH]; simpl; [done|].
  destruct (is_js_space d) eqn:Hd; [done|]. intros [= -> _]. unfold blank. congruence.
Qed.

Lemma trim_start_blanks pre s : Forall blank pre -> trim_start (pre ++ s) = trim_start s.
Proof. induction 1 as [|c pre Hc _ IH]; simpl; [done|]. by rewrite Hc. Qed.

Lemma trim_start_unblank c s : ~ blank c -> trim_start (c :: s) = c :: s.
Proof. unfold blank. simpl. destruct (is_js_space c); [done|]. done. Qed.

Lemma trim_start_nil s : trim_start s = [] <-> Forall blank s.
Proof.
  split.
  - destruct (trim_start_split s) as [pre [Hs Hpre]]. intros E. by rewrite Hs, E, app_nil_r.
  - intros H. rewrite <- (app_nil_r s). rewrite trim_start_blanks; done.
Qed.

Lemma trim_end_blanks s suf : Forall blank suf -> trim_end (s ++ suf) = trim_end s.
Proof.
  intros H. unfold trim_end. rewrite rev_app_distr, trim_start_blanks; [done|].
  by apply Forall_rev.
Qed.

Lemma trim_end_unblank s c : ~ blank c -> trim_end (s ++ [c]) = s ++ [c].
Proof.
  intros H. unfold trim_end. rewrite rev_app_distr.
  change (rev [c] ++ rev s) with (c :: rev s).
  rewrite trim_start_unblank by done. by rewrite <- rev_unit, rev_involutive.
Qed.

#[export] Hint Resolve trim_start_blanks trim_end_blanks : js.

(** [trim] is determined by its specification: blank borders around an
    unpadded core. *)
Theorem trim_unique pre t suf :
  Forall blank pre -> Forall blank suf -> unpadded t ->
  trim (pre ++ t ++ suf) = t.
Proof.
  intros Hpre Hsuf Ht. unfold trim. rewrite trim_start_blanks by done.
  destruct t as [|c t].
  - rewrite app_nil_l, (proj2 (trim_start_nil suf)) by done. reflexivity.
  - destruct Ht as [Hc Hlast]. rewrite <- app_comm_cons, trim_start_unblank by done.
    rewrite app_comm_cons, trim_end_blanks by done.
    destruct (exists_last (l:=c :: t)) as [t' [d Hd]]; [done|].
    rewrite Hd. apply trim_end_unblank. by apply (Hlast d t').
Qed.

Lemma trim_end_split s :
  exists suf, s = trim_end s ++ suf /\ Forall blank suf.
Proof.
  destruct (trim_start_split (rev s)) as [pre [Hs Hpre]].
  exists (rev pre). split; [|by apply Forall_rev].
  unfold trim_end. rewrite <- rev_app_distr, <- Hs. by rewrite rev_involutive.
Qed.

Lemma trim_end_last s d t : trim_end s = t ++ [d] -> ~ blank d.
Proof.
  unfold trim_end. intros H. apply (f_equal (@rev Z)) in H.
  rewrite rev_involutive, rev_app_distr in H. simpl in H.
  by eapply trim_start_head.
Qed.

Lemma trim_end_head s c t : trim_start s = c :: t -> exists t', trim_end (c :: t) = c :: t'.
Proof.
  intros H. apply trim_start_head in H.
  destruct (trim_end_split (c :: t)) as [suf [Hs Hsuf]].
  destruct (trim_end (c :: t)) as [|c' t'] eqn:E; [|exists t'; by simplify_list_eq].
  exfalso. simpl in Hs. subst suf. inversion Hsuf. by subst.
Qed.

(** The three parts of a string that [trim] separates. *)
Theorem trim_split s :
  exists pre suf, s = pre ++ trim s ++ suf /\ Forall blank pre /\
                  Forall blank suf /\ unpadded (trim s).
Proof.
  destruct (trim_start_split s) as [pre [Hs Hpre]].
  destruct (trim_end_split (trim_start s)) as [suf [Hs' Hsuf]].
  exists pre, suf. unfold trim. split; [by rewrite <- Hs', <- Hs|].
  do 2 (split; [done|]).
  destruct (trim_start s) as [|c t] eqn:E; [done|].
  destruct (trim_end_head s c t E) as [t' Ht']. rewrite Ht'. split.
  - by apply (trim_start_head s c t).
  - intros d t'' Hd. rewrite <- Ht' in Hd. by apply trim_end_last in Hd.
Qed.

Lemma trim_unpadded t : unpadded t -> trim t = t.
Proof.
  intros H. pose proof (trim_unique [] t [] (Forall_nil_2 _) (Forall_nil_2 _) H) as E.
  by rewrite app_nil_r in E.
Qed.

Lemma unpadded_nonblank t : Forall (fun c => ~ blank c) t -> unpadded t.
Proof.
  destruct t as [|c t]; simpl; [done|]. intros Hall. split.
  - by inversion Hall.
  - intros d t' Ht. rewrite Ht in Hall. apply Forall_app in Hall as [_ Hd]. by inversion Hd.
Qed.

(** trim is idempotent. *)
Corollary trim_idem s : trim (trim s) = trim s.
Proof.
  destruct (trim_split s) as (pre & suf & _ & _ & _ & Hu). by apply trim_unpadded.
Qed.

(** [!s.trim()]: the trimmed string is empty exactly when every code
    unit is blank. *)
Lemma trim_nil s : trim s = [] <-> Forall blank s.
Proof.
  destruct (trim_split s) as (pre & suf & Hs & Hpre & Hsuf & _). split.
  - intros E. rewrite Hs, E. simpl. by apply Forall_app.
  - intros H. unfold trim. rewrite (proj2 (trim_start_nil s) H). reflexivity.
Qed.

Lemma length_trim s : length (trim s) <= length s.
Proof.
  destruct (trim_split s) as (pre & suf & Hs & _). rewrite Hs at 2.
  rewrite !length_app. lia.
Qed.

Lemma char_at_lt s i c : s !! i = Some c -> char_at s i = [c].
Proof. unfold char_at. by intros ->. Qed.

(** [trim s] is exactly the infix of [s] left between blank borders
    when it has no blank at either end. *)
Theorem trim_spec s t :
  trim s = t <-> exists pre suf, s = pre ++ t ++ suf /\ Forall blank pre /\
                                 Forall blank suf /\ unpadded t.
Proof.
  split.
  - intros <-. apply trim_split.
  - intros (pre & suf & -> & Hpre & Hsuf & Ht). by apply trim_unique.
Qed.

(** ** Back from code units to an ASCII string *)

(** The inverse of [js] on code units below 256. *)
Fixpoint to_string (s : jsstr) : option String.string :=
  match s with
  | [] => Some String.EmptyString
  | z :: s' =>
      if (0 <=? z)%Z && (z <? 256)%Z
      then String.String (Ascii.ascii_of_nat (Z.to_nat z)) <$> to_string s'
      else None
  end.

Lemma to_string_js s : to_string (js s) = Some s.
Proof.
  induction s as [|a s IH]; [done|].
  unfold js in *. simpl. rewrite IH.
  pose proof (Ascii.nat_ascii_bounded a).
  replace ((0 <=? Z.of_nat (Ascii.nat_of_ascii a))%Z && (Z.of_nat (Ascii.nat_of_ascii a) <? 256)%Z)
    with true by (symmetry; apply andb_true_iff; lia).
  simpl. by rewrite Nat2Z.id, Ascii.ascii_nat_embedding.
Qed.

(** ** [String.prototype.split] on a one-unit separator *)

(** [s.split(c)]: the pieces between the separators, at least one. *)
Fixpoint split_on (c : Z) (s : jsstr) : list jsstr :=
  match s with
  | [] => [[]]
  | z :: s' =>
      if (z =? c)%Z then [] :: split_on c s'
      else match split_on c s' with
           | p :: ps => (z :: p) :: ps
           | [] => [[z]]
           end
  end.

(** [pieces.join(c)] *)
Fixpoint join_on (c : Z) (ps : list jsstr) : jsstr :=
  match ps with
  | [] => []
  | [p] => p
  | p :: ps' => p ++ c :: join_on c ps'
  end.

Lemma split_on_cons_ne c z s :
  z <> c -> exists p ps, split_on c s = p :: ps /\ split_on c (z :: s) = (z :: p) :: ps.
Proof.
  intros Hz. simpl. destruct (Z.eqb_spec z c); [done|].
  destruct (split_on c s) as [|p ps] eqn:E.
  - destruct s; simpl in E; [discriminate|]. destruct (_ =? _)%Z; [discriminate|]. by destruct (split_on c s).
  - by exists p, ps.
Qed.

Lemma split_on_not_nil c s : split_on c s <> [].
Proof.
  destruct s as [|z s]; simpl; [done|]. destruct (z =? c)%Z; [done|]. by destruct (split_on c s).
Qed.

Lemma join_on_cons c p ps : ps <> [] -> join_on c (p :: ps) = p ++ c :: join_on c ps.
Proof. by destruct ps. Qed.

Lemma split_on_free c s : c ∉ s -> split_on c s = [s].
Proof.
  induction s as [|z s IH]; intros Hc; [done|]. apply not_elem_of_cons in Hc as [Hz Hc].
  destruct (split_on_cons_ne c z s) as (p & ps & E & ->); [done|].
  rewrite IH in E by done. by injection E as -> ->.
Qed.

Lemma split_on_app_sep c p r : split_on c (p ++ c :: r) = split_on c p ++ split_on c r.
Proof.
  induction p as [|z p IH]; simpl; [by rewrite Z.eqb_refl|].
  destruct (Z.eqb_spec z c); [by rewrite IH|].
  rewrite IH. destruct (split_on c p) as [|q qs] eqn:E; [by apply split_on_not_nil in E|]. done.
Qed.

(** Splitting on [c] and joining with [c] gives the string back,
    and no piece contains [c]. *)
Theorem split_join_roundtrip c s :
  join_on c (split_on c s) = s /\ Forall (fun p => c ∉ p) (split_on c s).
Proof.
  induction s as [|z s [IHj IHf]]; [split; [done|repeat constructor; apply not_elem_of_nil]|].
  destruct (Z.eqb_spec z c) as [->|Hz].
  - simpl. rewrite Z.eqb_refl, join_on_cons by apply split_on_not_nil. split; [by rewrite IHj|].
    constructor; [apply not_elem_of_nil | done].
  - destruct (split_on_cons_ne c z s) as (p & ps & E & ->); [done|]. rewrite E in IHj, IHf.
    apply Forall_cons in IHf as [Hp Hps]. split.
    + destruct ps; simpl in *; [by rewrite IHj|]. by rewrite IHj.
    + constructor; [|done]. apply not_elem_of_cons. auto.
Qed.
