(* ===== verification/Regex.v ===== *)
(** * Regular expressions over code units and a derivative matcher

    The script tests input against an anchored regex ([^...$], no
    flags, no backreferences, no lookaround).  For such a regex,
    [RegExp.prototype.test] holds exactly when the whole string is in
    the regex's language: the backtracking matcher of ECMAScript
    explores every way of splitting the input among the terms.  This
    file gives the language as the inductive relation [in_lang], an
    executable matcher [matches] by Brzozowski derivatives, and the
    theorem [matches_correct] that the matcher decides the language. *)

From S2P Require Import Prelude.

Inductive regex :=
  | Void
  | Eps
  | Cls (p : Z -> bool)          (** a character class, as its test *)
  | Alt (r1 r2 : regex)
  | Cat (r1 r2 : regex)
  | Star (r : regex)
  | Plus (r : regex).                 (** [r+] *)

(** A literal code unit, e.g. [@] or [\.]. *)
Definition Lit (c : Z) : regex := Cls (fun d => (d =? c)%Z).

Inductive in_lang : regex -> jsstr -> Prop :=
  | L_eps : in_lang Eps []
  | L_cls p c : p c = true -> in_lang (Cls p) [c]
  | L_alt_l r1 r2 s : in_lang r1 s -> in_lang (Alt r1 r2) s
  | L_alt_r r1 r2 s : in_lang r2 s -> in_lang (Alt r1 r2) s
  | L_cat r1 r2 s1 s2 : in_lang r1 s1 -> in_lang r2 s2 -> in_lang (Cat r1 r2) (s1 ++ s2)
  | L_star_nil r : in_lang (Star r) []
  | L_star_cons r s1 s2 : in_lang r s1 -> in_lang (Star r) s2 -> in_lang (Star r) (s1 ++ s2)
  | L_plus r s1 s2 : in_lang r s1 -> in_lang (Star r) s2 -> in_lang (Plus r) (s1 ++ s2).

#[export] Hint Constructors in_lang : js.

Fixpoint nullable (r : regex) : bool :=
  match r with
  | Void | Cls _ => false
  | Eps | Star _ => true
  | Plus r1 => nullable r1
  | Alt r1 r2 => nullable r1 || nullable r2
  | Cat r1 r2 => nullable r1 && nullable r2
  end.

(** The derivative: the strings [s] such that [c :: s] is in [r]. *)
Fixpoint deriv (c : Z) (r : regex) : regex :=
  match r with
  | Void | Eps => Void
  | Cls p => if p c then Eps else Void
  | Alt r1 r2 => Alt (deriv c r1) (deriv c r2)
  | Cat r1 r2 =>
      if nullable r1 then Alt (Cat (deriv c r1) r2) (deriv c r2)
      else Cat (deriv c r1) r2
  | Star r1 | Plus r1 => Cat (deriv c r1) (Star r1)
  end.

Definition matches (r : regex) (s : jsstr) : bool :=
  nullable (foldl (fun r c => deriv c r) r s).

(** ** Correctness *)

Lemma nullable_correct r : nullable r = true <-> in_lang r [].
Proof.
  split.
  - induction r; simpl; intros H; try discriminate; eauto with js.
    + apply orb_true_iff in H as [H|H]; eauto with js.
    + apply andb_true_iff in H as [H1 H2].
      change [] with ([] ++ [] : jsstr). eauto with js.
    + change [] with ([] ++ [] : jsstr). eauto with js.
  - remember [] as s eqn:Es. induction 1; simpl; try done.
    + by rewrite IHin_lang.
    + by rewrite IHin_lang, orb_true_r.
    + apply app_nil in Es as [-> ->]. by rewrite IHin_lang1, IHin_lang2.
    + apply app_nil in Es as [-> ->]. by apply IHin_lang1.
Qed.

Lemma in_lang_cls p s : in_lang (Cls p) s <-> exists c, s = [c] /\ p c = true.
Proof. split; [inversion 1; eauto | intros (c & -> & Hc); by constructor]. Qed.

Lemma in_lang_cat r1 r2 s :
  in_lang (Cat r1 r2) s <-> exists s1 s2, s = s1 ++ s2 /\ in_lang r1 s1 /\ in_lang r2 s2.
Proof.
  split; [inversion 1; subst; eauto | intros (s1 & s2 & -> & H1 & H2); eauto with js].
Qed.

(** [r+] and [r r*] have the same language. *)
Lemma in_lang_plus r s : in_lang (Plus r) s <-> in_lang (Cat r (Star r)) s.
Proof.
  rewrite in_lang_cat.
  split; [inversion 1; subst; eauto | intros (s1 & s2 & -> & H1 & H2); eauto with js].
Qed.

(** A non-empty word of [r*] starts with a non-empty word of [r]. *)
Lemma star_cons_inv r c s :
  in_lang (Star r) (c :: s) ->
  exists s1 s2, s = s1 ++ s2 /\ in_lang r (c :: s1) /\ in_lang (Star r) s2.
Proof.
  remember (Star r) as r' eqn:Er. remember (c :: s) as w eqn:Ew.
  intros H. revert s Ew. induction H as [| | | | |?|r0 w1 w2 H1 _ H2 IH2|];
    intros t Ew; try discriminate.
  injection Er as ->. destruct w1 as [|d w1]; simpl in Ew.
  - by apply IH2.
  - injection Ew as -> <-. exists w1, w2. auto.
Qed.

Lemma deriv_sound c r s : in_lang (deriv c r) s -> in_lang r (c :: s).
Proof.
  revert s; induction r as [| |p|r1 IH1 r2 IH2|r1 IH1 r2 IH2|r IH|r IH]; intros s; simpl.
  - inversion 1.
  - inversion 1.
  - destruct (p c) eqn:Hp; inversion 1; subst. by constructor.
  - inversion 1; subst; eauto with js.
  - destruct (nullable r1) eqn:Hn.
    + inversion 1 as [| |??? H'|??? H'| | | |]; subst.
      * inversion H'; subst. rewrite app_comm_cons. eauto with js.
      * apply nullable_correct in Hn. change (c :: s) with ([] ++ c :: s). eauto with js.
    + inversion 1; subst. rewrite app_comm_cons. eauto with js.
  - inversion 1; subst. rewrite app_comm_cons. eauto with js.
  - inversion 1; subst. rewrite app_comm_cons. eauto with js.
Qed.

Lemma deriv_complete c r s : in_lang r (c :: s) -> in_lang (deriv c r) s.
Proof.
  revert s; induction r as [| |p|r1 IH1 r2 IH2|r1 IH1 r2 IH2|r IH|r IH]; intros s; simpl.
  - inversion 1.
  - inversion 1.
  - inversion 1 as [|? ? Hc| | | | | |]; subst. rewrite Hc. by constructor.
  - inversion 1; subst; eauto with js.
  - intros H. apply in_lang_cat in H as (s1 & s2 & Hs & H1 & H2).
    destruct s1 as [|d s1]; simpl in Hs.
    + subst s2. apply nullable_correct in H1. rewrite H1. eauto with js.
    + injection Hs as -> ->. destruct (nullable r1); eauto with js.
  - intros H. apply star_cons_inv in H as (s1 & s2 & -> & H1 & H2). eauto with js.
  - rewrite in_lang_plus, in_lang_cat. intros (s1 & s2 & Hs & H1 & H2).
    destruct s1 as [|d s1]; simpl in Hs.
    + subst s2. apply star_cons_inv in H2 as (s1 & s2 & -> & H1' & H2). eauto with js.
    + injection Hs as -> ->. eauto with js.
Qed.

Lemma deriv_correct c r s : in_lang (deriv c r) s <-> in_lang r (c :: s).
Proof. split; [apply deriv_sound | apply deriv_complete]. Qed.

Lemma matches_spec r s : matches r s = true <-> in_lang r s.
Proof.
  unfold matches. revert r; induction s as [|c s IH]; intros r; simpl.
  - apply nullable_correct.
  - rewrite IH. apply deriv_correct.
Qed.

(** ** Languages of the building blocks *)

(** [[class]*] accepts exactly the strings of class members. *)
Lemma in_lang_star_cls p s : in_lang (Star (Cls p)) s <-> Forall (fun c => p c = true) s.
Proof.
  split.
  - remember (Star (Cls p)) as r eqn:Er. induction 1; try discriminate; [done|].
    injection Er as ->. apply in_lang_cls in H as (c & -> & Hc).
    constructor; auto.
  - induction 1 as [|c s Hc _ IH]; [constructor|].
    change (c :: s) with ([c] ++ s). constructor; [by constructor | done].
Qed.

(** [[class]+] accepts exactly the non-empty strings of class members. *)
Lemma in_lang_plus_cls p s :
  in_lang (Plus (Cls p)) s <-> s <> [] /\ Forall (fun c => p c = true) s.
Proof.
  rewrite in_lang_plus, in_lang_cat. split.
  - intros (s1 & s2 & -> & H1 & H2). apply in_lang_cls in H1 as (c & -> & Hc).
    apply in_lang_star_cls in H2. split; [done|]. by constructor.
  - intros [Hne Hall]. destruct s as [|c s]; [done|]. inversion Hall; subst.
    exists [c], s. split; [done|]. split; [by constructor | by apply in_lang_star_cls].
Qed.

Lemma in_lang_lit c s : in_lang (Lit c) s <-> s = [c].
Proof.
  unfold Lit. rewrite in_lang_cls. split.
  - intros (d & -> & Hd). apply Z.eqb_eq in Hd. by subst.
  - intros ->. exists c. split; [done | apply Z.eqb_refl].
Qed.

(** The derivative matcher decides the language of the regex: it is
    the boolean reflection of [in_lang]. *)
Theorem matches_correct r s : reflect (in_lang r s) (matches r s).
Proof. apply iff_reflect. symmetry. apply matches_spec. Qed.
