(* ===== verification/EmailRegex.v ===== *)
(** * The email pattern of the contact form

    [const emailRegex = /^[^\s@]+@[^\s@]+\.[^\s@]+$/] (lines 204 and
    280) as a [regex] of [Regex], its test [email_test] by the
    derivative matcher, and the characterisation [email_test_spec]: a
    string passes exactly when it is [local @ d1 . d2] with three
    non-empty runs of code units that are neither blank nor [@].  The
    [.] of the pattern is escaped, so it is the literal dot; [d1] may
    itself contain dots, since [.] is in the class [[^\s@]]. *)

From S2P Require Import Prelude JsString Regex.

(** [@] and [.] *)
Definition at_sign : Z := 64.
Definition dot : Z := 46.

(** The class [[^\s@]]. *)
Definition email_char (c : Z) : bool := negb (is_js_space c) && negb (c =? at_sign)%Z.

Definition emailRegex : regex :=
  Cat (Plus (Cls email_char))
      (Cat (Lit at_sign)
           (Cat (Plus (Cls email_char))
                (Cat (Lit dot) (Plus (Cls email_char))))).

(** [emailRegex.test(s)] *)
Definition email_test (s : jsstr) : bool := matches emailRegex s.

(** A run of the class [[^\s@]]: non-empty, every code unit in it. *)
Definition email_run (w : jsstr) : Prop := w <> [] /\ Forall (fun c => email_char c = true) w.

Lemma email_test_iff s :
  email_test s = true <->
  exists l d1 d2, s = l ++ [at_sign] ++ d1 ++ [dot] ++ d2 /\
                  email_run l /\ email_run d1 /\ email_run d2.
Proof.
  unfold email_test, emailRegex, email_run. rewrite matches_spec.
  repeat setoid_rewrite in_lang_cat. repeat setoid_rewrite in_lang_lit.
  repeat setoid_rewrite in_lang_plus_cls. split.
  - intros (l & ? & -> & Hl & ? & ? & -> & -> & d1 & ? & -> & Hd1 & ? & d2 & -> & -> & Hd2).
    exists l, d1, d2. tauto.
  - intros (l & d1 & d2 & -> & Hl & Hd1 & Hd2).
    exists l, ([at_sign] ++ d1 ++ [dot] ++ d2). split; [done|]. split; [done|].
    exists [at_sign], (d1 ++ [dot] ++ d2). split; [done|]. split; [done|].
    exists d1, ([dot] ++ d2). split; [done|]. split; [done|].
    exists [dot], d2. tauto.
Qed.

(** ** Consequences *)

Lemma email_char_not_blank c : email_char c = true -> ~ blank c.
Proof.
  unfold email_char, blank. intros [H _]%andb_true_iff.
  apply negb_true_iff in H. congruence.
Qed.

Lemma email_char_not_at c : email_char c = true -> c <> at_sign.
Proof.
  unfold email_char. intros [_ H]%andb_true_iff ->.
  by rewrite Z.eqb_refl in H.
Qed.

Lemma count_at_run w : Forall (fun c => email_char c = true) w ->
  count_occ Z.eq_dec w at_sign = 0.
Proof.
  induction 1 as [|c w Hc _ IH]; simpl; [done|].
  destruct (Z.eq_dec c at_sign) as [E|]; [|done].
  by apply email_char_not_at in Hc.
Qed.

(** C6. An accepted address contains exactly one [@]. *)
Theorem email_one_at s : email_test s = true -> count_occ Z.eq_dec s at_sign = 1.
Proof.
  intros (l & d1 & d2 & -> & [_ Hl] & [_ Hd1] & [_ Hd2])%email_test_iff.
  rewrite !count_occ_app, (count_at_run l), (count_at_run d1), (count_at_run d2) by done.
  vm_compute. reflexivity.
Qed.

(** An accepted address has no blank code unit. *)
Corollary email_no_blank s : email_test s = true -> Forall (fun c => ~ blank c) s.
Proof.
  intros (l & d1 & d2 & -> & [_ Fl] & [_ F1] & [_ F2])%email_test_iff.
  assert (Hrun : forall w, Forall (fun c => email_char c = true) w ->
                           Forall (fun c => ~ blank c) w).
  { intros w Hw. eapply Forall_impl; [exact Hw|]. apply email_char_not_blank. }
  repeat apply Forall_app_2; auto; repeat constructor; lit_neq.
Qed.

(** An accepted address is its own trim: [trim] before the test does
    not change what the test accepts. *)
Corollary email_trim_fixed s : email_test s = true -> trim s = s.
Proof. intros H. by apply trim_unpadded, unpadded_nonblank, email_no_blank. Qed.

(** C5. The regex test accepts exactly the strings [local@d1.d2] with three
    non-empty runs of code units that are neither blank nor [@]. *)
Theorem email_test_spec s :
  reflect (exists l d1 d2, s = l ++ [at_sign] ++ d1 ++ [dot] ++ d2 /\
                           email_run l /\ email_run d1 /\ email_run d2)
          (email_test s).
Proof. apply iff_reflect. symmetry. apply email_test_iff. Qed.

Lemma email_one_at_witness : count_occ Z.eq_dec (js "ann.lee@mail.example.com") at_sign = 1.
Proof. apply email_one_at. vm_compute. reflexivity. Defined.
