(* ===== verification/ClassList.v ===== *)
(** * [element.classList]: the DOMTokenList of an element

    The DOM keeps an element's classes as an ordered set of tokens.
    [add] appends a token that is absent, [remove] deletes it, [toggle]
    does one or the other and returns whether the token is now present,
    [contains] tests it, and assigning [className] parses a string into
    a fresh token set (split on ASCII whitespace, first occurrence
    kept).  The script uses all five (lines 8, 20, 22, 34, 37, 51, 70-76,
    83-93, 139, 142, 199, 328).

    The classes [TokenSet] and [TokenSetLaws] are the interface the
    components rely on: the operations and their membership laws.
    [TokenList] implements them on duplicate-free lists (the instances
    at the end of the file), and [TokenList.abs] maps a list to the
    [gset] it stands for, with [abs_add], [abs_remove] and [toggle_abs]
    as the refinement of the abstract set operations. *)

From S2P Require Import Prelude.

Abbreviation token := jsstr.

(** The interface: the operations of a token set ... *)
Class TokenSet (T : Type) := {
  ts_empty : T;
  ts_contains : T -> token -> bool;
  ts_add : token -> T -> T;
  ts_remove : token -> T -> T;
  ts_toggle : token -> T -> T * bool;
}.

(** ... and the laws the components rely on. *)
Class TokenSetLaws (T : Type) `{TokenSet T} := {
  ts_contains_empty k : ts_contains ts_empty k = false;
  ts_contains_add k k' c :
    ts_contains (ts_add k c) k' = bool_decide (k' = k) || ts_contains c k';
  ts_contains_remove k k' c :
    ts_contains (ts_remove k c) k' = negb (bool_decide (k' = k)) && ts_contains c k';
  ts_toggle_spec k c :
    ts_toggle k c = if ts_contains c k then (ts_remove k c, false) else (ts_add k c, true);
}.

Module TokenList.
Abbreviation t := (list token).
Definition empty : t := [].

Definition contains (c : t) (k : token) : bool := bool_decide (k ∈ c).

Definition add (k : token) (c : t) : t := if contains c k then c else c ++ [k].

Definition remove (k : token) (c : t) : t := filter (fun x => x <> k) c.

Definition toggle (k : token) (c : t) : t * bool :=
  if contains c k then (remove k c, false) else (add k c, true).

(** ASCII whitespace of the ordered-set parser. *)
Definition ascii_ws (z : Z) : bool :=
  ((z =? 9) || (z =? 10) || (z =? 12) || (z =? 13) || (z =? 32))%Z.

(** Split on ASCII whitespace, dropping empty pieces. *)
Fixpoint split_ws_acc (cur : token) (s : jsstr) : list token :=
  match s with
  | [] => match cur with [] => [] | _ => [rev cur] end
  | z :: s' =>
      if ascii_ws z then match cur with [] => [] | _ => [rev cur] end ++ split_ws_acc [] s'
      else split_ws_acc (z :: cur) s'
  end.

(** The ordered set parser: each token once, at its first position. *)
Definition dedup (l : list token) : t := foldl (fun c k => add k c) [] l.

(** [el.className = s] *)
Definition of_class_name (s : jsstr) : t := dedup (split_ws_acc [] s).

(** The set a token list stands for. *)
Definition abs (c : t) : gset token := list_to_set c.

Definition wf (c : t) : Prop := NoDup c.

(** ** The interface laws *)

Lemma contains_spec c k : contains c k = true <-> k ∈ c.
Proof. unfold contains. apply bool_decide_eq_true. Qed.

Lemma contains_empty k : contains empty k = false.
Proof. reflexivity. Qed.

Lemma contains_add k k' c :
  contains (add k c) k' = bool_decide (k' = k) || contains c k'.
Proof.
  apply Bool.eq_true_iff_eq. rewrite orb_true_iff, !contains_spec, bool_decide_eq_true.
  unfold add. destruct (contains c k) eqn:E; [apply contains_spec in E|];
    rewrite ?elem_of_app, ?list_elem_of_singleton; naive_solver.
Qed.

Lemma contains_remove k k' c :
  contains (remove k c) k' = negb (bool_decide (k' = k)) && contains c k'.
Proof.
  apply Bool.eq_true_iff_eq.
  rewrite andb_true_iff, negb_true_iff, bool_decide_eq_false, !contains_spec.
  unfold remove. rewrite list_elem_of_filter. naive_solver.
Qed.

Lemma toggle_spec k c :
  toggle k c = if contains c k then (remove k c, false) else (add k c, true).
Proof. reflexivity. Qed.

(** ** Duplicate freedom is an invariant *)

Lemma add_wf k c : wf c -> wf (add k c).
Proof.
  unfold wf, add, contains. case_bool_decide; [done|]. intros Hc.
  apply NoDup_app. split; [done|]. split; [|apply NoDup_singleton].
  intros x Hx ->%list_elem_of_singleton. done.
Qed.

Lemma remove_wf k c : wf c -> wf (remove k c).
Proof. unfold wf, remove. apply NoDup_filter. Qed.

Lemma toggle_wf k c : wf c -> wf (toggle k c).1.
Proof. unfold toggle. destruct (contains c k); simpl; auto using add_wf, remove_wf. Qed.

Lemma dedup_wf l : wf (dedup l).
Proof.
  unfold dedup. cut (forall c, wf c -> wf (foldl (fun c k => add k c) c l)).
  { intros H. apply H, NoDup_nil_2. }
  induction l as [|k l IH]; intros c Hc; simpl; auto using add_wf.
Qed.

(** Every operation keeps the token list free of duplicates, and the
    [className] parser produces one. *)
Theorem token_list_wf_invariant k c s :
  wf c -> wf (add k c) /\ wf (remove k c) /\ wf (toggle k c).1 /\ wf (of_class_name s).
Proof.
  intros H. split_and!; [by apply add_wf | by apply remove_wf | by apply toggle_wf | apply dedup_wf].
Qed.

(** ** Refinement of the abstract set *)

Lemma abs_elem c k : k ∈ abs c <-> contains c k = true.
Proof. unfold abs. rewrite elem_of_list_to_set, contains_spec. done. Qed.

Lemma abs_add k c : abs (add k c) = {[k]} ∪ abs c.
Proof.
  apply set_eq. intros x. rewrite elem_of_union, elem_of_singleton, !abs_elem, contains_add.
  rewrite orb_true_iff, bool_decide_eq_true. done.
Qed.

Lemma abs_remove k c : abs (remove k c) = abs c ∖ {[k]}.
Proof.
  apply set_eq. intros x.
  rewrite elem_of_difference, elem_of_singleton, !abs_elem, contains_remove.
  rewrite andb_true_iff, negb_true_iff, bool_decide_eq_false. naive_solver.
Qed.

(** [toggle] flips membership of its token, leaves the other tokens,
    and returns the new membership. *)
Theorem toggle_abs k c :
  abs (toggle k c).1 = (if contains c k then abs c ∖ {[k]} else {[k]} ∪ abs c) /\
  (toggle k c).2 = negb (contains c k).
Proof.
  unfold toggle. destruct (contains c k); simpl; auto using abs_add, abs_remove.
Qed.

Lemma contains_toggle k c : contains (toggle k c).1 k = negb (contains c k).
Proof.
  rewrite toggle_spec. destruct (contains c k) eqn:E; simpl.
  - by rewrite contains_remove, bool_decide_eq_true_2.
  - by rewrite contains_add, bool_decide_eq_true_2.
Qed.

Lemma contains_toggle_ne k k' c : k' <> k -> contains (toggle k c).1 k' = contains c k'.
Proof.
  intros Hne. rewrite toggle_spec. destruct (contains c k); simpl.
  - by rewrite contains_remove, bool_decide_eq_false_2.
  - by rewrite contains_add, bool_decide_eq_false_2.
Qed.

Lemma contains_add_eq k c : contains (add k c) k = true.
Proof. by rewrite contains_add, bool_decide_eq_true_2. Qed.

Lemma contains_add_ne k k' c : k' <> k -> contains (add k c) k' = contains c k'.
Proof. intros Hne. by rewrite contains_add, bool_decide_eq_false_2. Qed.

Lemma contains_remove_eq k c : contains (remove k c) k = false.
Proof. by rewrite contains_remove, bool_decide_eq_true_2. Qed.

Lemma contains_remove_ne k k' c : k' <> k -> contains (remove k c) k' = contains c k'.
Proof. intros Hne. by rewrite contains_remove, bool_decide_eq_false_2. Qed.

(** Adding a present token, or removing an absent one, changes nothing. *)
Lemma add_present k c : contains c k = true -> add k c = c.
Proof. unfold add. by intros ->. Qed.

Lemma remove_absent k c : contains c k = false -> remove k c = c.
Proof.
  rewrite <- not_true_iff_false, contains_spec. unfold remove.
  induction c as [|x c IH]; intros Hk; [done|].
  apply not_elem_of_cons in Hk as [Hx Hk].
  rewrite list.filter_cons_True by done.
  f_equal. by apply IH.
Qed.
End TokenList.

#[export] Instance token_list_set : TokenSet TokenList.t := {
  ts_empty := TokenList.empty;
  ts_contains := TokenList.contains;
  ts_add := TokenList.add;
  ts_remove := TokenList.remove;
  ts_toggle := TokenList.toggle;
}.

#[export] Instance token_list_laws : TokenSetLaws TokenList.t := {
  ts_contains_empty := TokenList.contains_empty;
  ts_contains_add := TokenList.contains_add;
  ts_contains_remove := TokenList.contains_remove;
  ts_toggle_spec := TokenList.toggle_spec;
}.

#[export] Hint Rewrite TokenList.contains_add_eq TokenList.contains_remove_eq
  TokenList.contains_toggle : js_run.
