(* ===== verification/Timers.v ===== *)
(** * The [setTimeout] queue

    Every deferred action of the script goes through [setTimeout]
    (lines 116, 146, 241, 333, 353, 370).  A timer is a due time, an id
    (the value [setTimeout] returns, increasing) and its callback.  The
    event loop runs the pending timer that is due first; two timers due
    at the same time run in the order they were set, as browsers do.
    A negative delay counts as 0; the nesting clamp of the HTML
    standard (at least 4 ms from the sixth nested level on) never
    applies here, as every delay of the script is at least 80 ms.

    The callback type is a parameter, so this file serves the whole
    page: [World] instantiates it with the script's callbacks. *)

From S2P Require Import Prelude.

Section Timers.
Context {T : Type}.

Record timer := Timer { t_due : Z; t_id : nat; t_task : T }.

Record queue := Queue { now : Z; next_id : nat; pending : list timer }.

Definition empty_queue (t0 : Z) : queue := Queue t0 0 [].

(** [setTimeout(task, delay)] *)
Definition set_timeout (delay : Z) (x : T) (q : queue) : queue :=
  Queue (now q) (S (next_id q))
        (pending q ++ [Timer (now q + Z.max 0 delay) (next_id q) x]).

(** Timer [x] runs before timer [y]. *)
Definition before (x y : timer) : bool :=
  (t_due x <? t_due y)%Z || ((t_due x =? t_due y)%Z && (t_id x <? t_id y)).

Fixpoint earliest (best : timer) (l : list timer) : timer :=
  match l with
  | [] => best
  | x :: l' => if before x best then earliest x l' else earliest best l'
  end.

Definition next_timer (q : queue) : option timer :=
  match pending q with
  | [] => None
  | x :: l => Some (earliest x l)
  end.

(** The event loop takes the next timer off the queue and advances
    the clock to its due time. *)
Definition fire (q : queue) : option (timer * queue) :=
  match next_timer q with
  | None => None
  | Some x =>
      Some (x, Queue (t_due x) (next_id q) (filter (fun y => t_id y <> t_id x) (pending q)))
  end.

(** Well-formed queue: nothing is due in the past, ids are distinct
    and below the next id. *)
Definition wf (q : queue) : Prop :=
  Forall (fun y => now q <= t_due y)%Z (pending q) /\
  Forall (fun y => t_id y < next_id q) (pending q) /\
  NoDup (t_id <$> pending q).

(** ** The order of timers *)

Lemma before_irrefl x : before x x = false.
Proof. unfold before. rewrite Z.ltb_irrefl, Nat.ltb_irrefl. by rewrite andb_false_r. Qed.

Lemma before_trans x y z : before x y = true -> before y z = true -> before x z = true.
Proof.
  unfold before. rewrite !orb_true_iff, !andb_true_iff, !Z.ltb_lt, !Z.eqb_eq, !Nat.ltb_lt.
  lia.
Qed.

(** If [x] runs before [z] but not before [y], then [y] runs before [z]. *)
Lemma before_not_trans x y z : before x z = true -> before x y = false -> before y z = true.
Proof.
  unfold before. rewrite !orb_true_iff, orb_false_iff, !andb_true_iff, andb_false_iff,
    !Z.ltb_lt, Z.ltb_ge, !Z.eqb_eq, Z.eqb_neq, !Nat.ltb_lt, Nat.ltb_ge.
  lia.
Qed.

Lemma not_before x y : before x y = false ->
  (t_due y < t_due x)%Z \/ (t_due y = t_due x /\ t_id y <= t_id x).
Proof.
  unfold before. rewrite orb_false_iff, andb_false_iff, Z.ltb_ge, Z.eqb_neq, Nat.ltb_ge.
  lia.
Qed.

Lemma earliest_in best l : earliest best l ∈ best :: l.
Proof.
  revert best; induction l as [|x l IH]; intros best; simpl; [set_solver|].
  destruct (before x best); [specialize (IH x) | specialize (IH best)]; set_solver.
Qed.

(** No timer of the list runs before the chosen one. *)
Lemma earliest_min best l y : y ∈ best :: l -> before y (earliest best l) = false.
Proof.
  revert best y; induction l as [|x l IH]; intros best y Hy; simpl.
  - apply list_elem_of_singleton in Hy as ->. apply before_irrefl.
  - destruct (before x best) eqn:Hxb.
    + apply elem_of_cons in Hy as [Hyb|Hy]; [subst y|by apply IH].
      destruct (before best (earliest x l)) eqn:E; [exfalso|done].
      pose proof (IH x x (list_elem_of_here _ _)) as Hx.
      by rewrite (before_trans _ _ _ Hxb E) in Hx.
    + apply elem_of_cons in Hy as [Hyb|Hy]; [subst y; by apply IH; left|].
      apply elem_of_cons in Hy as [Hyx|Hy]; [subst y|by apply IH; right].
      destruct (before x (earliest best l)) eqn:E; [exfalso|done].
      pose proof (IH best best (list_elem_of_here _ _)) as Hb.
      by rewrite (before_not_trans _ _ _ E Hxb) in Hb.
Qed.

Lemma filter_other_id x l :
  Forall (fun y => t_id y <> t_id x) l -> filter (fun y => t_id y <> t_id x) l = l.
Proof.
  induction 1 as [|y l Hy _ IH]; [done|].
  rewrite list.filter_cons_True by done. by f_equal.
Qed.

(** Removing a timer by its id removes exactly that timer. *)
Lemma length_filter_id x l :
  NoDup (t_id <$> l) -> x ∈ l -> length (filter (fun y => t_id y <> t_id x) l) + 1 = length l.
Proof.
  induction l as [|z l IH]; simpl; intros Hnd Hx; [set_solver|].
  apply NoDup_cons in Hnd as [Hz Hnd]. apply elem_of_cons in Hx as [->|Hx].
  - rewrite list.filter_cons_False by auto. rewrite filter_other_id; [lia|].
    apply Forall_forall. intros y Hy E. apply Hz. rewrite <- E. by apply list_elem_of_fmap_2.
  - rewrite list.filter_cons_True; [simpl; rewrite IH by done; lia|].
    intros E. apply Hz. rewrite E. by apply list_elem_of_fmap_2.
Qed.

(** ** The event loop's choice *)

Lemma fire_none q : fire q = None <-> pending q = [].
Proof. unfold fire, next_timer. destruct (pending q); split; done. Qed.

(** The fired timer is a pending one that no other pending timer
    precedes: the earliest due time, and among equal due times the
    one set first.  The clock moves to its due time. *)
Theorem fire_spec q x q' :
  fire q = Some (x, q') ->
  x ∈ pending q /\ (forall y, y ∈ pending q -> before y x = false) /\
  now q' = t_due x /\ next_id q' = next_id q /\
  pending q' = filter (fun y => t_id y <> t_id x) (pending q).
Proof.
  intros Hf. unfold fire, next_timer in Hf. destruct (pending q) as [|z l] eqn:E;
    [discriminate|].
  injection Hf as <- <-. simpl.
  repeat split; auto using earliest_in, earliest_min.
Qed.

Lemma wf_set_timeout d x q : wf q -> wf (set_timeout d x q).
Proof.
  intros (Hnow & Hid & Hnd). unfold set_timeout, wf; simpl. split; [|split].
  - apply Forall_app. split; [done|]. constructor; [simpl; lia|constructor].
  - apply Forall_app. split; [|constructor; [simpl; lia|constructor]].
    eapply Forall_impl; [exact Hid|]. intros y Hy. simpl in *. lia.
  - rewrite fmap_app. apply NoDup_app. split; [done|]. split; [|apply NoDup_singleton].
    intros i Hi ->%list_elem_of_singleton. apply list_elem_of_fmap in Hi as (y & Hy & Hin).
    rewrite Forall_forall in Hid. specialize (Hid y Hin). simpl in *. lia.
Qed.

Lemma wf_fire q x q' : wf q -> fire q = Some (x, q') -> wf q'.
Proof.
  intros (Hnow & Hid & Hnd) Hf. apply fire_spec in Hf as (Hx & Hmin & Hn & Hi & Hp).
  unfold wf. rewrite Hn, Hi, Hp. rewrite !Forall_forall in *. split; [|split].
  - intros y [_ Hy]%list_elem_of_filter. pose proof (Hmin y Hy) as Hb.
    apply not_before in Hb. lia.
  - intros y [_ Hy]%list_elem_of_filter. auto.
  - eapply sublist_NoDup; [exact Hnd|]. apply fmap_sublist, sublist_filter.
Qed.

(** Time does not go backwards. *)
Lemma fire_now_mono q x q' : wf q -> fire q = Some (x, q') -> (now q <= now q')%Z.
Proof.
  intros [Hnow _] Hf. apply fire_spec in Hf as (Hx & _ & -> & _).
  rewrite Forall_forall in Hnow. auto.
Qed.

(** Each firing removes one timer: a queue whose callbacks set no new
    timer drains in as many firings as it has timers. *)
Lemma length_fire q x q' :
  wf q -> fire q = Some (x, q') -> length (pending q') + 1 = length (pending q).
Proof.
  intros (_ & _ & Hnd) Hf. apply fire_spec in Hf as (Hx & _ & _ & _ & ->).
  by apply length_filter_id.
Qed.

Lemma wf_empty t0 : wf (empty_queue t0).
Proof. repeat split; constructor. Qed.

(** ** Counting the timers of one kind *)

Section Count.
Variable p : timer -> bool.

(** The pending timers [p] selects. *)
Definition count (q : queue) : nat := length (filter (fun y => p y = true) (pending q)).

Lemma count_filter_id x l :
  NoDup (t_id <$> l) -> x ∈ l ->
  length (filter (fun y => p y = true) (filter (fun y => t_id y <> t_id x) l)) + (if p x then 1 else 0) =
  length (filter (fun y => p y = true) l).
Proof.
  induction l as [|z l IH]; simpl; intros Hnd Hx; [set_solver|].
  apply NoDup_cons in Hnd as [Hz Hnd]. apply elem_of_cons in Hx as [<-|Hx].
  - rewrite list.filter_cons_False by auto. rewrite filter_other_id.
    + destruct (p x) eqn:E; [rewrite list.filter_cons_True by done; simpl; lia|].
      rewrite list.filter_cons_False by congruence. lia.
    + apply Forall_forall. intros y Hy E. apply Hz. rewrite <- E. by apply list_elem_of_fmap_2.
  - rewrite list.filter_cons_True by (intros E; apply Hz; rewrite E; by apply list_elem_of_fmap_2).
    destruct (p z) eqn:E.
    + rewrite !list.filter_cons_True by done. simpl. rewrite <- IH by done. lia.
    + rewrite !list.filter_cons_False by congruence. by apply IH.
Qed.

(** Firing removes the fired timer from the count, if [p] selects it. *)
Lemma count_fire q x q' :
  wf q -> fire q = Some (x, q') -> count q' + (if p x then 1 else 0) = count q.
Proof.
  intros (_ & _ & Hnd) Hf. apply fire_spec in Hf as (Hx & _ & _ & _ & Hp).
  unfold count. rewrite Hp. by apply count_filter_id.
Qed.

Lemma count_set_timeout d x q :
  count (set_timeout d x q) = count q + (if p (Timer (now q + Z.max 0 d) (next_id q) x) then 1 else 0).
Proof.
  unfold count, set_timeout. simpl. rewrite filter_app, length_app. f_equal.
  destruct (p _) eqn:E; [by rewrite list.filter_cons_True | by rewrite list.filter_cons_False by congruence].
Qed.

End Count.

(** The event loop fires the pending timer with the earliest due
    time, and among timers due at the same time the one set first;
    the clock moves to its due time and it leaves the queue. *)
Theorem fire_earliest q x q' :
  fire q = Some (x, q') ->
  x ∈ pending q /\ now q' = t_due x /\ (x ∉ pending q') /\
  (forall y, y ∈ pending q ->
    (t_due x < t_due y)%Z \/ (t_due x = t_due y /\ t_id x <= t_id y)).
Proof.
  intros Hf. apply fire_spec in Hf as (Hx & Hmin & Hn & _ & ->).
  split_and!; [done|done| |].
  - intros [Hne _]%list_elem_of_filter. by apply Hne.
  - intros y Hy. apply not_before. auto.
Qed.

(** Setting a timer and firing one keep the queue well formed. *)
Theorem queue_wf_invariant q d t x q' :
  wf q -> wf (set_timeout d t q) /\ (fire q = Some (x, q') -> wf q').
Proof. intros H. split; [by apply wf_set_timeout | by apply wf_fire]. Qed.

(** Fire timers while there are any, at most [n] of them. *)
Fixpoint drain (n : nat) (q : queue) : list timer * queue :=
  match n with
  | 0 => ([], q)
  | S n' =>
      match fire q with
      | None => ([], q)
      | Some (x, q') => let r := drain n' q' in (x :: r.1, r.2)
      end
  end.

(** Callbacks that set no timer: the queue empties after as many
    firings as it holds timers, each timer firing once. *)
Theorem drain_terminates n q :
  wf q -> length (pending q) <= n ->
  pending (drain n q).2 = [] /\ length (drain n q).1 = length (pending q).
Proof.
  revert q; induction n as [|n IH]; intros q Hwf Hlen; simpl.
  - destruct (pending q); simpl in *; [done|lia].
  - destruct (fire q) as [[x q']|] eqn:Hf.
    + pose proof (length_fire q x q' Hwf Hf) as Hl.
      destruct (IH q' (wf_fire q x q' Hwf Hf)) as [H1 H2]; [lia|].
      simpl. split; [done|]. lia.
    + apply fire_none in Hf. by rewrite Hf.
Qed.
(** The callbacks pending after [setTimeout], in scheduling order. *)
Lemma tasks_set_timeout d x q : t_task <$> pending (set_timeout d x q) = (t_task <$> pending q) ++ [x].
Proof. unfold set_timeout. simpl. by rewrite fmap_app. Qed.

End Timers.

Arguments timer : clear implicits.
Arguments queue : clear implicits.
