(* ===== verification/Dom.v ===== *)
(** * The document: elements, document order, selectors and queries

    The page is a store of elements keyed by node id ([gmap]) with the
    document order as a list of ids and a parent pointer per element.
    An element keeps what the script reads or writes: its tag, [id],
    [classList] (a [ClassList.TokenList]), attributes ([href],
    [data-width]), inline style properties, text, and the value and
    default value of a form control.

    Selectors are the ones the script passes to [querySelector],
    [querySelectorAll] and [closest]: compounds of tag, class, id and
    attribute-prefix tests, one descendant combinator, and selector
    lists.  A query returns the matching elements in document order,
    as [querySelectorAll] does.  Frame lemmas say what each mutation
    leaves unchanged, and [classes_wf] (every class list without
    duplicates) is kept by every mutation. *)

From Stdlib Require Import DecimalString.
From S2P Require Import Prelude JsString ClassList.

Abbreviation node := nat.

Record element := Element {
  el_tag : jsstr;
  el_id : jsstr;
  el_classes : TokenList.t;
  el_attrs : gmap jsstr jsstr;
  el_style : gmap jsstr jsstr;
  el_text : jsstr;
  el_value : jsstr;
  el_default : jsstr;
  el_parent : option node;
}.

Record document := Document {
  d_elems : gmap node element;
  d_order : list node;
  d_next : node;
}.

(** ** Selectors *)

Inductive simple_sel :=
  | ByTag (t : jsstr)
  | ByClass (c : token)
  | ById (i : jsstr)
  | ByAttrPrefix (a v : jsstr).          (** [a[href^="#"]] *)

Abbreviation compound := (list simple_sel).

Inductive selector :=
  | Sel (anc : option compound) (target : compound)   (** [anc target] *)
  | Union (s1 s2 : selector).                         (** [s1, s2] *)

Definition simple_matches (e : element) (s : simple_sel) : bool :=
  match s with
  | ByTag t => bool_decide (el_tag e = t)
  | ByClass c => TokenList.contains (el_classes e) c
  | ById i => bool_decide (el_id e = i)
  | ByAttrPrefix a v =>
      match el_attrs e !! a with
      | Some x => starts_with x v
      | None => false
      end
  end.

Definition compound_matches (e : element) (c : compound) : bool :=
  forallb (simple_matches e) c.

Section Queries.
Context (d : document).

Definition elem (n : node) : option element := d_elems d !! n.

(** The proper ancestors of [n], nearest first; [fuel] bounds the
    depth (the number of elements is always enough). *)
Fixpoint ancestors_fuel (fuel : nat) (n : node) : list node :=
  match fuel with
  | 0 => []
  | S f =>
      match elem n with
      | Some e => match el_parent e with
                  | Some p => p :: ancestors_fuel f p
                  | None => []
                  end
      | None => []
      end
  end.

Definition ancestors (n : node) : list node := ancestors_fuel (length (d_order d)) n.

Definition node_matches_compound (c : compound) (n : node) : bool :=
  match elem n with
  | Some e => compound_matches e c
  | None => false
  end.

Fixpoint node_matches (s : selector) (n : node) : bool :=
  match s with
  | Sel None t => node_matches_compound t n
  | Sel (Some a) t =>
      node_matches_compound t n && existsb (node_matches_compound a) (ancestors n)
  | Union s1 s2 => node_matches s1 n || node_matches s2 n
  end.

(** [root] is a proper ancestor of [n]. *)
Definition is_descendant (root n : node) : bool := bool_decide (root ∈ ancestors n).

(** [document.querySelectorAll(s)] *)
Definition query_all (s : selector) : list node :=
  filter (fun n => node_matches s n = true) (d_order d).

(** [root.querySelectorAll(s)]: the matches among [root]'s descendants. *)
Definition query_all_in (root : node) (s : selector) : list node :=
  filter (fun n => is_descendant root n = true /\ node_matches s n = true) (d_order d).

(** [querySelector]: the first match, or [null]. *)
Definition query (s : selector) : option node := head (query_all s).
Definition query_in (root : node) (s : selector) : option node := head (query_all_in root s).

(** [document.getElementById(i)]: the first element with that id;
    the empty id matches nothing. *)
Definition get_by_id (i : jsstr) : option node :=
  match i with
  | [] => None
  | _ => query (Sel None [ById i])
  end.

(** [el.closest(s)]: [el] itself or its nearest ancestor that matches. *)
Definition closest (n : node) (s : selector) : option node :=
  find (fun m => node_matches s m) (n :: ancestors n).

Definition parent_of (n : node) : option node := elem n ≫= el_parent.

Definition get_attr (n : node) (a : jsstr) : option jsstr := elem n ≫= fun e => el_attrs e !! a.

Definition has_class (n : node) (c : token) : bool :=
  match elem n with
  | Some e => TokenList.contains (el_classes e) c
  | None => false
  end.

Definition style_of (n : node) (p : jsstr) : jsstr :=
  match elem n ≫= fun e => el_style e !! p with
  | Some v => v
  | None => []
  end.
End Queries.

(** ** Well-formed documents *)

(** The order lists each element once, and every parent pointer
    names an element. *)
Definition dom_wf (d : document) : Prop :=
  NoDup (d_order d) /\
  (forall n, n ∈ d_order d <-> is_Some (d_elems d !! n)) /\
  (forall n e p, d_elems d !! n = Some e -> el_parent e = Some p -> is_Some (d_elems d !! p)) /\
  (forall n, is_Some (d_elems d !! n) -> n < d_next d).

(** ** Query lemmas *)

Lemma query_all_elem d s n : n ∈ query_all d s <-> n ∈ d_order d /\ node_matches d s n = true.
Proof. unfold query_all. rewrite list_elem_of_filter. tauto. Qed.

Lemma query_all_in_elem d r s n :
  n ∈ query_all_in d r s <->
  n ∈ d_order d /\ is_descendant d r n = true /\ node_matches d s n = true.
Proof. unfold query_all_in. rewrite list_elem_of_filter. tauto. Qed.

Lemma query_some d s n : query d s = Some n -> n ∈ query_all d s.
Proof. unfold query. destruct (query_all d s); simpl; [done|]. intros [= ->]. left. Qed.

Lemma query_in_some d r s n : query_in d r s = Some n -> n ∈ query_all_in d r s.
Proof. unfold query_in. destruct (query_all_in d r s); simpl; [done|]. intros [= ->]. left. Qed.

Lemma query_none d s : query d s = None <-> query_all d s = [].
Proof. unfold query. destruct (query_all d s); simpl; done. Qed.

(** The union selector is the union of the matches, in document order. *)
Lemma query_all_union d s1 s2 n :
  n ∈ query_all d (Union s1 s2) <-> n ∈ query_all d s1 \/ n ∈ query_all d s2.
Proof.
  rewrite !query_all_elem. simpl. rewrite orb_true_iff. tauto.
Qed.

Lemma node_matches_elem d s n : node_matches d s n = true -> is_Some (elem d n).
Proof.
  induction s as [[a|] t|s1 IH1 s2 IH2]; simpl.
  - intros [H _]%andb_true_iff. unfold node_matches_compound in H.
    destruct (elem d n); [done|discriminate].
  - unfold node_matches_compound. destruct (elem d n); [done|discriminate].
  - intros [H|H]%orb_true_iff; auto.
Qed.

(** ** CSS values as the CSSOM serialises them

    [el.style.borderColor = "#dc2626"] stores a colour that reads back
    as ["rgb(220, 38, 38)"] (line 258 compares with that string).  The
    colour properties the script writes ([border-color], [color])
    serialise a hex colour that way; other values are kept as written. *)

Definition hex_val (c : Z) : option Z :=
  if ((48 <=? c) && (c <=? 57))%Z then Some (c - 48)%Z
  else if ((97 <=? c) && (c <=? 102))%Z then Some (c - 87)%Z
  else if ((65 <=? c) && (c <=? 70))%Z then Some (c - 55)%Z
  else None.

Definition hex_byte (hi lo : Z) : option Z :=
  match hex_val hi, hex_val lo with
  | Some h, Some l => Some (16 * h + l)%Z
  | _, _ => None
  end.

(** [#rrggbb] and [#rgb] *)
Definition parse_hex_color (v : jsstr) : option (Z * Z * Z) :=
  match v with
  | [35; r1; r2; g1; g2; b1; b2]%Z =>
      match hex_byte r1 r2, hex_byte g1 g2, hex_byte b1 b2 with
      | Some r, Some g, Some b => Some (r, g, b)
      | _, _, _ => None
      end
  | [35; r; g; b]%Z =>
      match hex_byte r r, hex_byte g g, hex_byte b b with
      | Some r, Some g, Some b => Some (r, g, b)
      | _, _, _ => None
      end
  | _ => None
  end.

(** The decimal digits of a non-negative integer. *)
Definition dec (n : Z) : jsstr := js (DecimalString.NilEmpty.string_of_uint (N.to_uint (Z.to_N n))).

Definition css_rgb (r g b : Z) : jsstr :=
  js "rgb(" ++ dec r ++ js ", " ++ dec g ++ js ", " ++ dec b ++ js ")".

Definition color_props : list jsstr := [js "border-color"; js "color"].

Definition css_normalize (p v : jsstr) : jsstr :=
  if bool_decide (p ∈ color_props) then
    match parse_hex_color v with
    | Some (r, g, b) => css_rgb r g b
    | None => v
    end
  else v.

(** ** Mutations *)

Definition update_elem (d : document) (n : node) (f : element -> element) : document :=
  Document (alter f n (d_elems d)) (d_order d) (d_next d).

Definition with_classes (f : TokenList.t -> TokenList.t) (e : element) : element :=
  Element (el_tag e) (el_id e) (f (el_classes e)) (el_attrs e) (el_style e)
          (el_text e) (el_value e) (el_default e) (el_parent e).

Definition with_style (p v : jsstr) (e : element) : element :=
  Element (el_tag e) (el_id e) (el_classes e) (el_attrs e)
          (match v with [] => delete p (el_style e) | _ => <[p := css_normalize p v]> (el_style e) end)
          (el_text e) (el_value e) (el_default e) (el_parent e).

Definition with_text (t : jsstr) (e : element) : element :=
  Element (el_tag e) (el_id e) (el_classes e) (el_attrs e) (el_style e)
          t (el_value e) (el_default e) (el_parent e).

Definition with_value (v : jsstr) (e : element) : element :=
  Element (el_tag e) (el_id e) (el_classes e) (el_attrs e) (el_style e)
          (el_text e) v (el_default e) (el_parent e).

(** [el.classList.add(c)] and friends *)
Definition class_add (c : token) (d : document) (n : node) : document :=
  update_elem d n (with_classes (TokenList.add c)).
Definition class_remove (c : token) (d : document) (n : node) : document :=
  update_elem d n (with_classes (TokenList.remove c)).
Definition class_toggle (c : token) (d : document) (n : node) : document :=
  update_elem d n (with_classes (fun l => (TokenList.toggle c l).1)).
(** [el.className = s] *)
Definition set_class_name (s : jsstr) (d : document) (n : node) : document :=
  update_elem d n (with_classes (fun _ => TokenList.of_class_name s)).

(** [el.style.p = v]; the empty string removes the property. *)
Definition set_style (p v : jsstr) (d : document) (n : node) : document :=
  update_elem d n (with_style p v).

(** [el.textContent = t] *)
Definition set_text (t : jsstr) (d : document) (n : node) : document :=
  update_elem d n (with_text t).

(** [el.value = v] *)
Definition set_value (v : jsstr) (d : document) (n : node) : document :=
  update_elem d n (with_value v).

(** [document.createElement(tag)]: a fresh element, not yet in the tree. *)
Definition create_element (tag : jsstr) (d : document) : document * node :=
  (Document (<[d_next d := Element tag [] [] ∅ ∅ [] [] [] None]> (d_elems d))
            (d_order d) (S (d_next d)), d_next d).

(** Insert [c] after the last element of [p]'s subtree. *)
Fixpoint insert_after_subtree (d : document) (p c : node) (rest : list node) : list node :=
  match rest with
  | [] => [c]
  | m :: rest' =>
      if bool_decide (m = p) || is_descendant d p m then
        if existsb (fun k => bool_decide (k = p) || is_descendant d p k) rest'
        then m :: insert_after_subtree d p c rest'
        else m :: c :: rest'
      else m :: insert_after_subtree d p c rest'
  end.

(** [p.appendChild(c)] for a fresh [c]. *)
Definition append_child (p c : node) (d : document) : document :=
  let d1 := update_elem d c (fun e => Element (el_tag e) (el_id e) (el_classes e) (el_attrs e)
                                               (el_style e) (el_text e) (el_value e)
                                               (el_default e) (Some p)) in
  Document (d_elems d1) (insert_after_subtree d1 p c (d_order d1)) (d_next d1).

(** [el.remove()] for a leaf: it leaves the tree. *)
Definition remove_node (n : node) (d : document) : document :=
  Document (delete n (d_elems d)) (filter (fun m => m <> n) (d_order d)) (d_next d).

(** [form.reset()]: every control under the form gets its default value. *)
Definition reset_controls (d : document) (form : node) : document :=
  foldl (fun d' n => update_elem d' n (fun e => with_value (el_default e) e)) d
        (query_all_in d form (Union (Sel None [ByTag (js "input")]) (Sel None [ByTag (js "textarea")]))).

(** ** Frame lemmas *)

Lemma elem_update_eq d n f : elem (update_elem d n f) n = f <$> elem d n.
Proof. unfold elem, update_elem. simpl. apply lookup_alter_eq. Qed.

Lemma elem_update_ne d n m f : n <> m -> elem (update_elem d n f) m = elem d m.
Proof. intros H. unfold elem, update_elem. simpl. by apply lookup_alter_ne. Qed.

Lemma order_update d n f : d_order (update_elem d n f) = d_order d.
Proof. reflexivity. Qed.

#[export] Hint Rewrite elem_update_eq order_update : js_run.

(** Changing an element's style, text or value keeps what selectors
    and parents see: every query answers the same. *)
Definition keeps_shape (f : element -> element) : Prop :=
  forall e, el_tag (f e) = el_tag e /\ el_id (f e) = el_id e /\ el_classes (f e) = el_classes e /\
            el_attrs (f e) = el_attrs e /\ el_parent (f e) = el_parent e.

Lemma keeps_shape_style p v : keeps_shape (with_style p v).
Proof. intros e. repeat split. Qed.
Lemma keeps_shape_text t : keeps_shape (with_text t).
Proof. intros e. repeat split. Qed.
Lemma keeps_shape_value v : keeps_shape (with_value v).
Proof. intros e. repeat split. Qed.

#[export] Hint Resolve keeps_shape_style keeps_shape_text keeps_shape_value : js.

(** Writes that keep the parent pointer keep every ancestor chain. *)
Section Tree.
Context (d : document) (n : node) (f : element -> element)
        (Hpar : forall e, el_parent (f e) = el_parent e).

Lemma elem_shape m : option_map el_parent (elem (update_elem d n f) m) =
                     option_map el_parent (elem d m).
Proof.
  destruct (decide (n = m)) as [<-|Hne].
  - rewrite elem_update_eq. destruct (elem d n); simpl; [|done]. f_equal. apply Hpar.
  - by rewrite elem_update_ne.
Qed.

Lemma ancestors_update m : ancestors (update_elem d n f) m = ancestors d m.
Proof.
  unfold ancestors. rewrite order_update. generalize (length (d_order d)) as k.
  intros k. revert m. induction k as [|k IH]; intros m; simpl; [done|].
  pose proof (elem_shape m) as E.
  destruct (elem (update_elem d n f) m), (elem d m); simpl in E; try done.
  injection E as ->. destruct (el_parent e0); [by rewrite IH|done].
Qed.

(** A one-compound query does not see a write that keeps whether each
    element matches the compound. *)
Lemma query_all_in_sel_update t (Hc : forall e, compound_matches (f e) t = compound_matches e t) r :
  query_all_in (update_elem d n f) r (Sel None t) = query_all_in d r (Sel None t).
Proof.
  unfold query_all_in, is_descendant. rewrite order_update. apply list_filter_iff. intros m.
  rewrite ancestors_update. simpl. unfold node_matches_compound.
  destruct (decide (n = m)) as [<-|Hne]; [|by rewrite elem_update_ne].
  rewrite elem_update_eq. destruct (elem d n); simpl; [|done]. by rewrite Hc.
Qed.

(** A tag query does not see a write that keeps the tag. *)
Lemma query_all_in_tag_update (Htag : forall e, el_tag (f e) = el_tag e) r t :
  query_all_in (update_elem d n f) r (Sel None [ByTag t]) = query_all_in d r (Sel None [ByTag t]).
Proof. apply query_all_in_sel_update. intros e. simpl. by rewrite Htag. Qed.
End Tree.

Section Frame.
Context (d : document) (n : node) (f : element -> element) (Hf : keeps_shape f).

Lemma simple_matches_shape e s : simple_matches (f e) s = simple_matches e s.
Proof.
  destruct (Hf e) as (Ht & Hi & Hc & Ha & _).
  destruct s; simpl; by rewrite ?Ht, ?Hi, ?Hc, ?Ha.
Qed.

Lemma parent_shape e : el_parent (f e) = el_parent e.
Proof. apply Hf. Qed.

Lemma compound_update c m :
  node_matches_compound (update_elem d n f) c m = node_matches_compound d c m.
Proof.
  unfold node_matches_compound. destruct (decide (n = m)) as [<-|Hne].
  - rewrite elem_update_eq. destruct (elem d n) as [e|]; simpl; [|done].
    unfold compound_matches. induction c as [|s c IH]; simpl; [done|].
    by rewrite simple_matches_shape, IH.
  - by rewrite elem_update_ne.
Qed.

Lemma node_matches_update s m : node_matches (update_elem d n f) s m = node_matches d s m.
Proof.
  induction s as [[a|] t|s1 IH1 s2 IH2]; simpl.
  - rewrite compound_update, (ancestors_update _ _ _ parent_shape). f_equal.
    induction (ancestors d m) as [|k l IH]; simpl; [done|]. by rewrite compound_update, IH.
  - apply compound_update.
  - by rewrite IH1, IH2.
Qed.

(** Queries do not see a change of style, text or value. *)
Lemma query_all_update s : query_all (update_elem d n f) s = query_all d s.
Proof.
  unfold query_all. rewrite order_update. apply list_filter_iff. intros m.
  by rewrite node_matches_update.
Qed.

Lemma query_all_in_update r s : query_all_in (update_elem d n f) r s = query_all_in d r s.
Proof.
  unfold query_all_in, is_descendant. rewrite order_update. apply list_filter_iff. intros m.
  by rewrite node_matches_update, (ancestors_update _ _ _ parent_shape).
Qed.

Lemma get_by_id_update i : get_by_id (update_elem d n f) i = get_by_id d i.
Proof. destruct i; [done|]. unfold get_by_id, query. by rewrite query_all_update. Qed.
End Frame.

(** The literal colour of the error border reads back as the string the
    input handler compares with. *)
Lemma error_color_serialised :
  css_normalize (js "border-color") (js "#dc2626") = js "rgb(220, 38, 38)".
Proof. vm_compute. reflexivity. Qed.

(** ** Updates keep the set of elements *)

Lemma is_Some_elem_update d n f m : is_Some (elem (update_elem d n f) m) <-> is_Some (elem d m).
Proof.
  destruct (decide (n = m)) as [<-|Hne].
  - rewrite elem_update_eq. apply fmap_is_Some.
  - by rewrite elem_update_ne.
Qed.

Lemma foldl_order {A} (f : document -> A -> document) l d :
  (forall d x, d_order (f d x) = d_order d) -> d_order (foldl f d l) = d_order d.
Proof. intros Hf. revert d. induction l as [|x l IH]; intros d; simpl; [done|]. by rewrite IH. Qed.

Lemma foldl_is_Some {A} (f : document -> A -> document) l d m :
  (forall d x m, is_Some (elem (f d x) m) <-> is_Some (elem d m)) ->
  is_Some (elem (foldl f d l) m) <-> is_Some (elem d m).
Proof. intros Hf. revert d. induction l as [|x l IH]; intros d; simpl; [done|]. by rewrite IH. Qed.

(** ** Building a document from a list of elements *)

Definition mk_element (tag i : jsstr) (classes : list token) (attrs : list (jsstr * jsstr))
  (value : jsstr) (parent : option node) : element :=
  Element tag i (TokenList.dedup classes) (list_to_map attrs) ∅ [] value value parent.

(** The elements in document order. *)
Definition mk_document (l : list (node * element)) : document :=
  Document (list_to_map l) (fst <$> l) (S (foldr Nat.max 0 (fst <$> l))).

(** ** Frame lemmas for the structural mutations *)

Lemma elem_remove_ne d x n : x <> n -> elem (remove_node x d) n = elem d n.
Proof. intros H. unfold elem, remove_node. simpl. by apply lookup_delete_ne. Qed.

Lemma elem_create_ne tag d n : n <> d_next d -> elem (create_element tag d).1 n = elem d n.
Proof. intros H. unfold elem, create_element. simpl. by apply lookup_insert_ne. Qed.

Lemma elem_create_eq tag d : elem (create_element tag d).1 (create_element tag d).2 =
                            Some (Element tag [] [] ∅ ∅ [] [] [] None).
Proof. unfold elem, create_element. simpl. apply lookup_insert_eq. Qed.

Lemma elem_append_ne p c d n : c <> n -> elem (append_child p c d) n = elem d n.
Proof. intros H. unfold elem, append_child. simpl. by apply lookup_alter_ne. Qed.

Lemma next_remove x d : d_next (remove_node x d) = d_next d.
Proof. reflexivity. Qed.

Lemma next_update d n f : d_next (update_elem d n f) = d_next d.
Proof. reflexivity. Qed.

(** An element [get_by_id] finds is in the document. *)
Lemma get_by_id_in d i n : get_by_id d i = Some n -> n ∈ d_order d /\ is_Some (elem d n).
Proof.
  destruct i as [|c i]; [done|]. unfold get_by_id. intros Hq.
  apply query_some, query_all_elem in Hq as [Hin Hm]. split; [done|].
  by apply node_matches_elem in Hm.
Qed.

Lemma dom_wf_fresh d n : dom_wf d -> is_Some (elem d n) -> n <> d_next d.
Proof. intros (_ & _ & _ & Hnext) Hn. specialize (Hnext n Hn). lia. Qed.

Lemma style_of_set_style_eq d n p v :
  is_Some (elem d n) -> v <> [] -> style_of (set_style p v d n) n p = css_normalize p v.
Proof.
  intros [e He] Hv. unfold style_of, set_style. rewrite elem_update_eq, He. simpl.
  destruct v as [|z v]; [done|]. by rewrite lookup_insert_eq.
Qed.

Lemma has_class_update d n f m : keeps_shape f -> has_class (update_elem d n f) m = has_class d m.
Proof.
  intros Hf. unfold has_class. destruct (decide (n = m)) as [<-|Hne].
  - rewrite elem_update_eq. destruct (elem d n); simpl; [|done]. by destruct (Hf e) as (_ & _ & -> & _).
  - by rewrite elem_update_ne.
Qed.

Lemma node_matches_class d c x : node_matches d (Sel None [ByClass c]) x = true -> has_class d x c = true.
Proof.
  simpl. unfold node_matches_compound, has_class. destruct (elem d x); [|done].
  simpl. by rewrite andb_true_r.
Qed.

(** ** Checking well-formedness by computation *)

Definition parent_ok (m : gmap node element) (e : element) : Prop :=
  match el_parent e with
  | Some p => is_Some (m !! p)
  | None => True
  end.

#[export] Instance parent_ok_dec m e : Decision (parent_ok m e).
Proof. unfold parent_ok. destruct (el_parent e); apply _. Defined.

Definition dom_wf_b (d : document) : bool :=
  bool_decide (NoDup (d_order d)) &&
  bool_decide (dom (d_elems d) = list_to_set (d_order d)) &&
  bool_decide (map_Forall (fun _ e => parent_ok (d_elems d) e) (d_elems d)) &&
  bool_decide (map_Forall (fun n _ => n < d_next d) (d_elems d)).

Lemma dom_wf_b_sound d : dom_wf_b d = true -> dom_wf d.
Proof.
  unfold dom_wf_b. rewrite !andb_true_iff, !bool_decide_eq_true.
  intros (((Hnd & Hdom) & Hpar) & Hnext). split_and!; [done| | |].
  - intros n. rewrite <- elem_of_dom, Hdom, elem_of_list_to_set. done.
  - intros n e p He Hp. pose proof (map_Forall_lookup_1 _ _ _ _ Hpar He) as H.
    unfold parent_ok in H. by rewrite Hp in H.
  - intros n [e He]. exact (map_Forall_lookup_1 _ _ _ _ Hnext He).
Qed.

(** ** Class reads after class writes *)

Lemma has_class_classes_eq d n f c :
  has_class (update_elem d n (with_classes f)) n c =
  match elem d n with Some e => TokenList.contains (f (el_classes e)) c | None => false end.
Proof. unfold has_class. rewrite elem_update_eq. by destruct (elem d n). Qed.

Lemma has_class_update_ne d n m f c : n <> m -> has_class (update_elem d n f) m c = has_class d m c.
Proof. intros H. unfold has_class. by rewrite elem_update_ne. Qed.

Lemma has_class_add_same d n c c' : is_Some (elem d n) ->
  has_class (class_add c d n) n c' = bool_decide (c' = c) || has_class d n c'.
Proof.
  intros [e He]. unfold class_add. rewrite has_class_classes_eq, He.
  unfold has_class. rewrite He. apply TokenList.contains_add.
Qed.

Lemma has_class_remove_same d n c c' :
  has_class (class_remove c d n) n c' = negb (bool_decide (c' = c)) && has_class d n c'.
Proof.
  unfold class_remove. rewrite has_class_classes_eq. unfold has_class.
  destruct (elem d n); [apply TokenList.contains_remove | by rewrite andb_false_r].
Qed.

Lemma has_class_toggle_same d n c : is_Some (elem d n) ->
  has_class (class_toggle c d n) n c = negb (has_class d n c).
Proof.
  intros [e He]. unfold class_toggle. rewrite has_class_classes_eq, He.
  unfold has_class. rewrite He. apply TokenList.contains_toggle.
Qed.

Lemma has_class_toggle_other d n c c' : c' <> c ->
  has_class (class_toggle c d n) n c' = has_class d n c'.
Proof.
  intros Hne. unfold class_toggle. rewrite has_class_classes_eq. unfold has_class.
  destruct (elem d n); [by apply TokenList.contains_toggle_ne | done].
Qed.

Lemma is_Some_class_add c d n m : is_Some (elem (class_add c d n) m) <-> is_Some (elem d m).
Proof. apply is_Some_elem_update. Qed.
Lemma is_Some_class_remove c d n m : is_Some (elem (class_remove c d n) m) <-> is_Some (elem d m).
Proof. apply is_Some_elem_update. Qed.
Lemma is_Some_class_toggle c d n m : is_Some (elem (class_toggle c d n) m) <-> is_Some (elem d m).
Proof. apply is_Some_elem_update. Qed.

(** ** Style reads after style writes *)

Lemma style_of_elem d d' n p : elem d n = elem d' n -> style_of d n p = style_of d' n p.
Proof. unfold style_of. by intros ->. Qed.

Lemma style_of_update_ne d n m f p : n <> m -> style_of (update_elem d n f) m p = style_of d m p.
Proof. intros H. apply style_of_elem. by apply elem_update_ne. Qed.

Lemma style_of_set_style d n p v q :
  is_Some (elem d n) ->
  style_of (set_style p v d n) n q =
    if bool_decide (q = p) then (match v with [] => [] | _ => css_normalize p v end) else style_of d n q.
Proof.
  intros [e He]. unfold style_of, set_style. rewrite elem_update_eq, He. simpl.
  case_bool_decide as Hq; [subst q|]; destruct v as [|z v]; simpl.
  - by rewrite lookup_delete_eq.
  - by rewrite lookup_insert_eq.
  - by rewrite lookup_delete_ne by congruence.
  - by rewrite lookup_insert_ne by congruence.
Qed.

(** ** Folds of writes to one element each *)

Section LocalFold.
Context {A : Type} (key : A -> node) (f : A -> document -> document).
Hypothesis Hloc : forall a d m, m <> key a -> elem (f a d) m = elem d m.
Hypothesis Hdep : forall a d d', elem d (key a) = elem d' (key a) -> elem (f a d) (key a) = elem (f a d') (key a).

Lemma elem_foldl_out l d m : m ∉ key <$> l -> elem (foldl (fun d a => f a d) d l) m = elem d m.
Proof.
  revert d. induction l as [|a l IH]; intros d Hm; simpl; [done|].
  apply not_elem_of_cons in Hm as [Ha Hm]. rewrite IH by done. by apply Hloc.
Qed.

Lemma elem_foldl_local l d x :
  NoDup (key <$> l) -> x ∈ l -> elem (foldl (fun d a => f a d) d l) (key x) = elem (f x d) (key x).
Proof.
  revert d. induction l as [|a l IH]; intros d Hnd Hx; [by apply not_elem_of_nil in Hx|].
  simpl in *. apply NoDup_cons in Hnd as [Hnot Hnd].
  apply elem_of_cons in Hx as [->|Hx]; [by apply elem_foldl_out|].
  rewrite IH by done. apply Hdep. apply Hloc. intros E. apply Hnot. rewrite <- E.
  by apply list_elem_of_fmap_2.
Qed.
End LocalFold.

Lemma is_Some_set_style p v d n m : is_Some (elem (set_style p v d n) m) <-> is_Some (elem d m).
Proof. apply is_Some_elem_update. Qed.

(** ** What a query returns *)

Lemma query_all_in_nodup d r s : dom_wf d -> NoDup (query_all_in d r s).
Proof. intros [Hnd _]. by apply NoDup_filter. Qed.

Lemma query_all_in_is_Some d r s n : n ∈ query_all_in d r s -> is_Some (elem d n).
Proof. intros (_ & _ & H)%query_all_in_elem. by eapply node_matches_elem. Qed.

Lemma dom_wf_update d n f : (forall e, el_parent (f e) = el_parent e) -> dom_wf d -> dom_wf (update_elem d n f).
Proof.
  intros Hp (Hnd & Hord & Hpar & Hnext). unfold update_elem, dom_wf.
  cbn [d_elems d_order d_next]. split_and!; [done| | |].
  - intros m. rewrite Hord. by rewrite lookup_alter_is_Some.
  - intros m e p He Hep. apply lookup_alter_Some in He as [(<- & e0 & He0 & ->)|[_ He]].
    + rewrite lookup_alter_is_Some. rewrite Hp in Hep. by eapply Hpar.
    + rewrite lookup_alter_is_Some. by eapply Hpar.
  - intros m. rewrite lookup_alter_is_Some. apply Hnext.
Qed.

Lemma get_attr_classes d n f m a : get_attr (update_elem d n (with_classes f)) m a = get_attr d m a.
Proof.
  unfold get_attr. destruct (decide (n = m)) as [<-|Hne]; [|by rewrite elem_update_ne].
  rewrite elem_update_eq. by destruct (elem d n).
Qed.

(** [el.textContent] *)
Definition text_of (d : document) (n : node) : jsstr := default [] (el_text <$> elem d n).

Lemma text_of_set_text d n t : is_Some (elem d n) -> text_of (set_text t d n) n = t.
Proof. intros [e He]. unfold text_of, set_text. by rewrite elem_update_eq, He. Qed.

Lemma is_Some_set_text t d n m : is_Some (elem (set_text t d n) m) <-> is_Some (elem d m).
Proof. apply is_Some_elem_update. Qed.

(** Adding the class [c] is invisible to a query for another class. *)
Lemma query_all_in_class_add c c' d n r :
  c' <> c -> query_all_in (class_add c d n) r (Sel None [ByClass c']) = query_all_in d r (Sel None [ByClass c']).
Proof.
  intros Hne. apply query_all_in_sel_update; [done|]. intros e. simpl.
  by rewrite TokenList.contains_add, bool_decide_eq_false_2.
Qed.

Lemma query_in_class_add c c' d n r :
  c' <> c -> query_in (class_add c d n) r (Sel None [ByClass c']) = query_in d r (Sel None [ByClass c']).
Proof. intros Hne. unfold query_in. by rewrite query_all_in_class_add. Qed.

Lemma has_class_add_ne c c' d n m : c' <> c -> has_class (class_add c d n) m c' = has_class d m c'.
Proof.
  intros Hne. destruct (decide (n = m)) as [<-|Hnm]; [|unfold class_add; by rewrite has_class_update_ne].
  unfold class_add. rewrite has_class_classes_eq. unfold has_class.
  destruct (elem d n); [by apply TokenList.contains_add_ne | done].
Qed.

Lemma get_attr_class_add c d n m a : get_attr (class_add c d n) m a = get_attr d m a.
Proof. apply get_attr_classes. Qed.

(** ** Every class list is a token list

    [classList] is a [DOMTokenList]: an ordered set, without duplicates.
    Every operation of the model keeps the class list of every element
    duplicate-free. *)

Definition classes_wf (d : document) : Prop :=
  map_Forall (fun _ e => TokenList.wf (el_classes e)) (d_elems d).

Create HintDb classes_wf discriminated.

Lemma classes_wf_update d n f :
  (forall e, TokenList.wf (el_classes e) -> TokenList.wf (el_classes (f e))) ->
  classes_wf d -> classes_wf (update_elem d n f).
Proof.
  intros Hf Hd m e. unfold update_elem; simpl. rewrite lookup_alter_Some.
  intros [(-> & e0 & He0 & ->) | [_ He]]; [apply Hf|]; by eapply Hd.
Qed.

Lemma classes_wf_class_add c d n : classes_wf d -> classes_wf (class_add c d n).
Proof. apply classes_wf_update. intros e. apply TokenList.add_wf. Qed.
Lemma classes_wf_class_remove c d n : classes_wf d -> classes_wf (class_remove c d n).
Proof. apply classes_wf_update. intros e. apply TokenList.remove_wf. Qed.
Lemma classes_wf_class_toggle c d n : classes_wf d -> classes_wf (class_toggle c d n).
Proof. apply classes_wf_update. intros e. apply TokenList.toggle_wf. Qed.
Lemma classes_wf_set_class_name s d n : classes_wf d -> classes_wf (set_class_name s d n).
Proof. apply classes_wf_update. intros e _. apply TokenList.dedup_wf. Qed.
Lemma classes_wf_set_style p v d n : classes_wf d -> classes_wf (set_style p v d n).
Proof. by apply classes_wf_update. Qed.
Lemma classes_wf_set_text t d n : classes_wf d -> classes_wf (set_text t d n).
Proof. by apply classes_wf_update. Qed.
Lemma classes_wf_set_value v d n : classes_wf d -> classes_wf (set_value v d n).
Proof. by apply classes_wf_update. Qed.

Lemma classes_wf_create tag d : classes_wf d -> classes_wf (create_element tag d).1.
Proof. intros Hd. apply map_Forall_insert_2; [constructor | exact Hd]. Qed.

Lemma classes_wf_append p c d : classes_wf d -> classes_wf (append_child p c d).
Proof. intros Hd. apply (classes_wf_update d c); [done|exact Hd]. Qed.

Lemma classes_wf_remove n d : classes_wf d -> classes_wf (remove_node n d).
Proof. apply map_Forall_delete. Qed.

Lemma classes_wf_reset d form : classes_wf d -> classes_wf (reset_controls d form).
Proof. unfold reset_controls. apply foldl_invariant. intros d' n. by apply classes_wf_update. Qed.

#[export] Hint Resolve classes_wf_class_add classes_wf_class_remove classes_wf_class_toggle
  classes_wf_set_class_name classes_wf_set_style classes_wf_set_text classes_wf_set_value
  classes_wf_create classes_wf_append classes_wf_remove classes_wf_reset : classes_wf.

(** [form.reset()] changes values only: text and inline style stay. *)
Lemma reset_controls_elem_shape d form m :
  (fun e => (el_text e, el_style e)) <$> elem (reset_controls d form) m =
  (fun e => (el_text e, el_style e)) <$> elem d m.
Proof.
  unfold reset_controls. apply (foldl_invariant (fun d' => _ <$> elem d' m = _)); [|done].
  intros d' n IH. destruct (decide (n = m)) as [<-|Hne]; [|by rewrite elem_update_ne].
  rewrite elem_update_eq, <- IH. by destruct (elem d' n).
Qed.

Lemma text_of_reset d form m : text_of (reset_controls d form) m = text_of d m.
Proof.
  pose proof (reset_controls_elem_shape d form m) as H. unfold text_of.
  destruct (elem (reset_controls d form) m), (elem d m); simpl in H; try discriminate; [|done].
  injection H as Ht _. simpl. by rewrite Ht.
Qed.

Lemma style_of_reset d form m p : style_of (reset_controls d form) m p = style_of d m p.
Proof.
  pose proof (reset_controls_elem_shape d form m) as H. unfold style_of.
  destruct (elem (reset_controls d form) m), (elem d m); simpl in H; try discriminate; [|done].
  injection H as _ Hs. simpl. by rewrite Hs.
Qed.

Lemma is_Some_elem_reset d form m : is_Some (elem (reset_controls d form) m) <-> is_Some (elem d m).
Proof.
  rewrite <- (fmap_is_Some (fun e => (el_text e, el_style e)) (elem (reset_controls d form) m)).
  rewrite reset_controls_elem_shape. apply fmap_is_Some.
Qed.
