(* ===== verification/World.v ===== *)
(** * The page state the script runs on

    [world] gathers what the handlers read and write: the document,
    [localStorage], the timer queue, the scroll offset, the observers'
    watch lists, and the constants the script computes once at load
    ([const header = ...], [const formMessage = ...], ...) and its
    handlers capture.  [task] lists the callbacks the script passes to
    [setTimeout], with the values each closure captures. *)

From S2P Require Import Prelude JsString ClassList Dom Timers.

(** The callbacks of [setTimeout]. *)
Inductive task :=
  | TypeNext (el : node) (text : jsstr) (i : nat) (speed : Z)  (** [type] of lines 112-118 *)
  | SetWidth (bar : node) (width : jsstr)                        (** lines 147 and 371 *)
  | FormSent                                                     (** lines 241-247 *)
  | HideMessage                                                  (** lines 333-335 *)
  | FadeIn.                                                      (** lines 353-356 *)

#[export] Instance task_eq_dec : EqDecision task.
Proof. solve_decision. Defined.

(** The [const]s of the script's top level, fixed after load. *)
Record globals := Globals {
  g_body : node;
  g_header : option node;              (** line 13 *)
  g_nav_links : list node;             (** line 3 *)
  g_toggle : option node;              (** line 29 *)
  g_nav : option node;                 (** line 30 *)
  g_theme_btn : option node;           (** line 62 *)
  g_theme_icon : option node;          (** line 63 *)
  g_hero_title : option node;          (** line 124 *)
  g_form : option node;                (** line 185 *)
  g_form_message : option node;        (** line 186 *)
  g_form_inputs : list node;           (** [inputs] of line 251: blur and input listeners *)
  g_anchors : list node;               (** [a[href^="#"]] of line 168: smooth-scroll listeners *)
  g_transition_links : list node;      (** [nav a, .btn] of line 390: fade-out listeners *)
}.

Record world := World {
  w_doc : document;
  w_storage : gmap jsstr jsstr;        (** [localStorage] *)
  w_timers : queue task;
  w_scroll : Z;                        (** [window.pageYOffset] *)
  w_last_scroll : Z;                   (** [lastScroll], line 14 *)
  w_observed : list node;              (** targets of [observer], line 136 *)
  w_bar_observed : list (node * jsstr * node);
    (** the observers of line 367: (bar, captured width, observed skill item) *)
  w_g : globals;
  w_console : list (list jsstr);
    (** the console's output: the arguments of each [console.log] call *)
}.

Abbreviation Page := (JS world).

(** ** Primitive page actions *)

Definition set_doc (d : document) (w : world) : world :=
  World d (w_storage w) (w_timers w) (w_scroll w) (w_last_scroll w)
        (w_observed w) (w_bar_observed w) (w_g w) (w_console w).

Definition set_timers (q : queue task) (w : world) : world :=
  World (w_doc w) (w_storage w) q (w_scroll w) (w_last_scroll w)
        (w_observed w) (w_bar_observed w) (w_g w) (w_console w).

Definition set_storage (st : gmap jsstr jsstr) (w : world) : world :=
  World (w_doc w) st (w_timers w) (w_scroll w) (w_last_scroll w)
        (w_observed w) (w_bar_observed w) (w_g w) (w_console w).

(** Run a document change. *)
Definition dom (f : document -> document) : Page unit :=
  modify (fun w => set_doc (f (w_doc w)) w).

(** Read the document. *)
Definition read {A} (f : document -> A) : Page A := fun w => (w, inr (f (w_doc w))).

(** Read the globals. *)
Definition glob {A} (f : globals -> A) : Page A := fun w => (w, inr (f (w_g w))).

(** [setTimeout(t, delay)] *)
Definition schedule (delay : Z) (t : task) : Page unit :=
  modify (fun w => set_timers (set_timeout delay t (w_timers w)) w).

(** [localStorage.setItem(k, v)] *)
Definition storage_set (k v : jsstr) : Page unit :=
  modify (fun w => set_storage (<[k := v]> (w_storage w)) w).

(** [localStorage.getItem(k)] *)
Definition storage_get (k : jsstr) : Page (option jsstr) := fun w => (w, inr (w_storage w !! k)).

(** The targets of the observer of line 136, and its update. *)
Definition get_observed : Page (list node) := fun w => (w, inr (w_observed w)).
Definition set_observed (l : list node) : Page unit :=
  modify (fun w => World (w_doc w) (w_storage w) (w_timers w) (w_scroll w) (w_last_scroll w)
                         l (w_bar_observed w) (w_g w) (w_console w)).

(** The observers of line 367 that still watch their skill item. *)
Definition get_bar_observed : Page (list (node * jsstr * node)) := fun w => (w, inr (w_bar_observed w)).
Definition set_bar_observed (l : list (node * jsstr * node)) : Page unit :=
  modify (fun w => World (w_doc w) (w_storage w) (w_timers w) (w_scroll w) (w_last_scroll w)
                         (w_observed w) l (w_g w) (w_console w)).

(** [window.pageYOffset] *)
Definition page_y_offset : Page Z := fun w => (w, inr (w_scroll w)).

(** [lastScroll = v] (line 25) *)
Definition set_last_scroll (v : Z) : Page unit :=
  modify (fun w => World (w_doc w) (w_storage w) (w_timers w) (w_scroll w) v
                         (w_observed w) (w_bar_observed w) (w_g w) (w_console w)).

(** The page with the console output [c]. *)
Definition with_console (c : list (list jsstr)) (w : world) : world :=
  World (w_doc w) (w_storage w) (w_timers w) (w_scroll w) (w_last_scroll w)
        (w_observed w) (w_bar_observed w) (w_g w) c.

(** [console.log(args...)]: the call's arguments go to the console. *)
Definition console_log (args : list jsstr) : Page unit :=
  modify (fun w => with_console (w_console w ++ [args]) w).

(** ** Equations of the primitives *)

Lemma run_dom f w : dom f w = (set_doc (f (w_doc w)) w, inr tt).
Proof. reflexivity. Qed.

Lemma run_read {A} (f : document -> A) w : read f w = (w, inr (f (w_doc w))).
Proof. reflexivity. Qed.

Lemma run_glob {A} (f : globals -> A) w : glob f w = (w, inr (f (w_g w))).
Proof. reflexivity. Qed.

Lemma run_schedule d t w : schedule d t w = (set_timers (set_timeout d t (w_timers w)) w, inr tt).
Proof. reflexivity. Qed.

Lemma run_storage_set k v w : storage_set k v w = (set_storage (<[k := v]> (w_storage w)) w, inr tt).
Proof. reflexivity. Qed.

Lemma run_storage_get k w : storage_get k w = (w, inr (w_storage w !! k)).
Proof. reflexivity. Qed.

Lemma run_page_y_offset w : page_y_offset w = (w, inr (w_scroll w)).
Proof. reflexivity. Qed.

Lemma run_get_observed w : get_observed w = (w, inr (w_observed w)).
Proof. reflexivity. Qed.

Lemma run_get_bar_observed w : get_bar_observed w = (w, inr (w_bar_observed w)).
Proof. reflexivity. Qed.

Lemma set_doc_doc d w : w_doc (set_doc d w) = d.
Proof. reflexivity. Qed.
Lemma set_doc_g d w : w_g (set_doc d w) = w_g w.
Proof. reflexivity. Qed.
Lemma set_doc_timers d w : w_timers (set_doc d w) = w_timers w.
Proof. reflexivity. Qed.
Lemma set_doc_storage d w : w_storage (set_doc d w) = w_storage w.
Proof. reflexivity. Qed.
Lemma set_timers_doc q w : w_doc (set_timers q w) = w_doc w.
Proof. reflexivity. Qed.
Lemma set_timers_g q w : w_g (set_timers q w) = w_g w.
Proof. reflexivity. Qed.
Lemma set_storage_doc st w : w_doc (set_storage st w) = w_doc w.
Proof. reflexivity. Qed.
Lemma set_storage_g st w : w_g (set_storage st w) = w_g w.
Proof. reflexivity. Qed.
Lemma set_storage_storage st w : w_storage (set_storage st w) = st.
Proof. reflexivity. Qed.
Lemma set_timers_timers q w : w_timers (set_timers q w) = q.
Proof. reflexivity. Qed.
Lemma set_timers_storage q w : w_storage (set_timers q w) = w_storage w.
Proof. reflexivity. Qed.
Lemma set_storage_timers st w : w_timers (set_storage st w) = w_timers w.
Proof. reflexivity. Qed.

#[export] Hint Rewrite run_dom @run_read @run_glob run_schedule run_storage_set run_storage_get
  set_doc_doc set_doc_g set_doc_timers set_doc_storage set_timers_doc set_timers_g
  set_storage_doc set_storage_g set_storage_storage set_storage_timers
  set_timers_timers set_timers_storage : js_run.

(** Unfold one step of a page program: the monad and the primitives. *)
Ltac page_step :=
  repeat (unfold bind, ret, throw, deref, modify in *; simpl in *;
          autorewrite with js_run in *).

(** ** Programs that only touch the document

    Most of the script's helpers change the document and nothing else:
    they set no timer, write no storage and leave the globals.  The
    predicate [doc_only] states it, and it is closed under the monad. *)

Definition doc_only {A} (m : Page A) : Prop :=
  forall w, fst (m w) = set_doc (w_doc (fst (m w))) w.

Lemma set_doc_set_doc d d' w : set_doc d (set_doc d' w) = set_doc d w.
Proof. reflexivity. Qed.

Lemma set_doc_id w : set_doc (w_doc w) w = w.
Proof. by destruct w. Qed.

Section DocOnly.
Context {A B : Type}.

Lemma doc_only_ret (a : A) : doc_only (ret a).
Proof. intros w. simpl. by rewrite set_doc_id. Qed.

Lemma doc_only_throw e : doc_only (A:=A) (throw e).
Proof. intros w. simpl. by rewrite set_doc_id. Qed.

Lemma doc_only_dom f : doc_only (dom f).
Proof. intros w. reflexivity. Qed.

Lemma doc_only_read (f : document -> A) : doc_only (read f).
Proof. intros w. simpl. by rewrite set_doc_id. Qed.

Lemma doc_only_glob (f : globals -> A) : doc_only (glob f).
Proof. intros w. simpl. by rewrite set_doc_id. Qed.

Lemma doc_only_deref (o : option A) s : doc_only (deref o s).
Proof. destruct o; [apply doc_only_ret | apply doc_only_throw]. Qed.

Lemma doc_only_bind (m : Page A) (k : A -> Page B) :
  doc_only m -> (forall a, doc_only (k a)) -> doc_only (bind m k).
Proof.
  intros Hm Hk w. unfold bind. pose proof (Hm w) as E.
  destruct (m w) as [w1 [e|a]]; simpl in *; [done|].
  rewrite (Hk a w1), E. reflexivity.
Qed.
End DocOnly.

Lemma doc_only_for_each {A} (l : list A) (f : A -> Page unit) :
  (forall x, doc_only (f x)) -> doc_only (for_each l f).
Proof.
  intros Hf. induction l as [|x l IH]; simpl; [apply doc_only_ret|].
  apply doc_only_bind; auto.
Qed.

#[export] Hint Resolve doc_only_ret doc_only_throw doc_only_dom doc_only_read doc_only_glob
  doc_only_deref doc_only_for_each : js.

(** Prove [doc_only] of a program built from the primitives above. *)
Ltac solve_doc_only :=
  repeat first
    [ solve [eauto with js]
    | apply doc_only_bind; intros
    | progress case_match ].

(** What a document-only run keeps. *)
Lemma doc_only_timers {A} (m : Page A) w : doc_only m -> w_timers (fst (m w)) = w_timers w.
Proof. intros H. by rewrite H. Qed.

Lemma doc_only_storage {A} (m : Page A) w : doc_only m -> w_storage (fst (m w)) = w_storage w.
Proof. intros H. by rewrite H. Qed.

Lemma doc_only_g {A} (m : Page A) w : doc_only m -> w_g (fst (m w)) = w_g w.
Proof. intros H. by rewrite H. Qed.

(** [document.createElement(tag)] *)
Definition create (tag : jsstr) : Page node :=
  fun w => (set_doc (create_element tag (w_doc w)).1 w, inr (create_element tag (w_doc w)).2).

Lemma run_create tag w :
  create tag w = (set_doc (create_element tag (w_doc w)).1 w, inr (create_element tag (w_doc w)).2).
Proof. reflexivity. Qed.

Lemma doc_only_create tag : doc_only (create tag).
Proof. intros w. reflexivity. Qed.

#[export] Hint Resolve doc_only_create : js.

(** ** Programs that only touch the document and never throw *)

Definition doc_total {A} (m : Page A) : Prop :=
  forall w, exists d a, m w = (set_doc d w, inr a).

Section DocTotal.
Context {A B : Type}.

Lemma doc_total_ret (a : A) : doc_total (ret a).
Proof. intros w. exists (w_doc w), a. simpl. by rewrite set_doc_id. Qed.

Lemma doc_total_dom f : doc_total (dom f).
Proof. intros w. by exists (f (w_doc w)), tt. Qed.

Lemma doc_total_read (f : document -> A) : doc_total (read f).
Proof. intros w. exists (w_doc w), (f (w_doc w)). simpl. by rewrite set_doc_id. Qed.

Lemma doc_total_glob (f : globals -> A) : doc_total (glob f).
Proof. intros w. exists (w_doc w), (f (w_g w)). simpl. by rewrite set_doc_id. Qed.

Lemma doc_total_bind (m : Page A) (k : A -> Page B) :
  doc_total m -> (forall a, doc_total (k a)) -> doc_total (bind m k).
Proof.
  intros Hm Hk w. destruct (Hm w) as (d & a & E).
  destruct (Hk a (set_doc d w)) as (d' & b & E'). exists d', b.
  unfold bind. by rewrite E, E'.
Qed.
End DocTotal.

Lemma doc_total_create tag : doc_total (create tag).
Proof. intros w. eexists _, _. reflexivity. Qed.

Lemma doc_total_for_each {A} (l : list A) (f : A -> Page unit) :
  (forall x, doc_total (f x)) -> doc_total (for_each l f).
Proof.
  intros Hf. induction l as [|x l IH]; simpl; [apply doc_total_ret|].
  apply doc_total_bind; auto.
Qed.

#[export] Hint Resolve doc_total_ret doc_total_dom doc_total_read doc_total_glob
  doc_total_create doc_total_for_each : js.

Ltac solve_doc_total :=
  repeat first
    [ solve [eauto with js]
    | apply doc_total_bind; intros
    | progress case_match ].

(** A document-total program that then sets a timer. *)
Lemma doc_total_then_schedule {A} (m : Page A) dl t w :
  doc_total m -> exists d, bind m (fun _ => schedule dl t) w =
                           (set_timers (set_timeout dl t (w_timers w)) (set_doc d w), inr tt).
Proof. intros Hm. destruct (Hm w) as (d & a & E). exists d. unfold bind. by rewrite E. Qed.

(** [forEach] of document writes: the fold of the writes. *)
Lemma for_each_dom {A} (l : list A) (f : A -> document -> document) w :
  for_each l (fun x => dom (f x)) w = (set_doc (foldl (fun d x => f x d) (w_doc w) l) w, inr tt).
Proof.
  revert w. induction l as [|x l IH]; intros w; simpl.
  - by rewrite set_doc_id.
  - unfold bind. rewrite run_dom, IH. reflexivity.
Qed.

(** Run the first action of a [bind] when it is a primitive that
    returns, and go on with the continuation. *)
Ltac page_run :=
  repeat first
    [ rewrite bind_ret_l
    | rewrite deref_some
    | rewrite bind_assoc
    | erewrite run_bind_ok;
      [| first [ apply run_dom | apply run_read | apply run_glob | apply for_each_dom | apply run_create
               | apply run_storage_get | apply run_storage_set | apply run_schedule
               | apply run_page_y_offset | apply run_get_observed | apply run_get_bar_observed ] ];
      simpl ].

(** [forEach] of a body that reads [r] and then writes the document,
    when no write changes [r]: the fold of the writes at the first
    value of [r]. *)
Lemma for_each_read_dom {A} (l : list A) (f : A -> Page unit) (r : document -> bool)
      (g : bool -> A -> document -> document) :
  (forall x w, f x w = (set_doc (g (r (w_doc w)) x (w_doc w)) w, inr tt)) ->
  (forall b x d, r (g b x d) = r d) ->
  forall w, for_each l f w = (set_doc (foldl (fun d x => g (r (w_doc w)) x d) (w_doc w) l) w, inr tt).
Proof.
  intros Hf Hr. induction l as [|x l IH]; intros w; simpl.
  - by rewrite set_doc_id.
  - unfold bind. rewrite Hf, IH, set_doc_doc, Hr, set_doc_set_doc. reflexivity.
Qed.

(** [forEach] of a body that returns after writing the document. *)
Lemma for_each_run {A} (l : list A) (f : A -> Page unit) (g : A -> document -> document) :
  (forall x w, f x w = (set_doc (g x (w_doc w)) w, inr tt)) ->
  forall w, for_each l f w = (set_doc (foldl (fun d x => g x d) (w_doc w) l) w, inr tt).
Proof.
  intros Hf. induction l as [|x l IH]; intros w; simpl.
  - by rewrite set_doc_id.
  - unfold bind. rewrite Hf, IH, set_doc_doc, set_doc_set_doc. reflexivity.
Qed.
