(* ===== verification/ContactForm.v ===== *)
(** * The contact form: validation and simulated submission

    Lines 184-338 of [main.js].  The submit handler reads and trims the
    four fields, resets the form message, clears the red borders of the
    form's inputs, checks the four rules of [showFieldError] calls, and
    either shows ["Please fix the errors above."] or shows ["Sending
    message..."] and sets the 1500 ms timer whose callback ([FormSent])
    shows the thank-you message and resets the form.  [validateField]
    re-checks one field on blur, and on input when its border reads
    back as the error colour.  A thank-you message sets a 5000 ms hide
    timer that nothing cancels, so the hide timer of an earlier
    thank-you hides a later one early. *)

From S2P Require Import Prelude JsString Regex EmailRegex ClassList Dom Timers World.

(** ** The literals of the form *)

Definition id_name := js "name".
Definition id_email := js "email".
Definition id_subject := js "subject".
Definition id_message := js "message".

Definition msg_name := js "Name is required".
Definition msg_email := js "Valid email is required".
Definition msg_subject := js "Subject is required".
Definition msg_message := js "Message must be at least 10 characters".
Definition msg_fix := js "Please fix the errors above.".
Definition msg_sending := js "Sending message...".
Definition msg_thanks := js "Thank you! Your message has been sent. I'll get back to you soon.".

Definition error_color := js "#dc2626".
Definition error_color_read := js "rgb(220, 38, 38)".
Definition p_border := js "border-color".

(** ** The rules, on trimmed values *)

(** [!value]: the empty string is falsy. *)
Definition nonempty (v : jsstr) : bool := negb (bool_decide (v = [])).

Definition name_ok (v : jsstr) : bool := nonempty v.
Definition email_ok (v : jsstr) : bool := nonempty v && email_test v.
Definition subject_ok (v : jsstr) : bool := nonempty v.
Definition message_ok (v : jsstr) : bool := nonempty v && (10 <=? length v).

(** ** Helpers of the script *)

(** The elements whose [value] property is a string; on every other
    element [value] is [undefined] (or, on [li], [meter] and
    [progress], a number), which has no [trim] method. *)
Definition value_tags : list jsstr :=
  [js "input"; js "textarea"; js "select"; js "button"; js "option"; js "output"; js "data"; js "param"].

(** [el.value], when it is a string. *)
Definition value_of (d : document) (n : node) : option jsstr :=
  match elem d n with
  | Some e => if bool_decide (el_tag e ∈ value_tags) then Some (el_value e) else None
  | None => None
  end.

(** [document.getElementById(id).value.trim()] (lines 193-196): a
    missing field throws on [.value], a field that is not a form control
    on [.trim()]. *)
Definition field_value (i : jsstr) : Page jsstr :=
  f <- read (fun d => get_by_id d i) ;;
  n <- deref f "value" ;;
  v <- read (fun d => value_of d n) ;;
  s <- deref v "trim" ;;
  ret (trim s).

(** The error message element of lines 315-321, appended to [pn]. *)
Definition add_error_div (pn : node) (msg : jsstr) : Page unit :=
  div <- create (js "div") ;;
  dom (fun d => set_class_name (js "field-error") d div) ;;
  dom (fun d => set_style (js "color") error_color d div) ;;
  dom (fun d => set_style (js "font-size") (js "0.85rem") d div) ;;
  dom (fun d => set_style (js "margin-top") (js "0.25rem") d div) ;;
  dom (fun d => set_text msg d div) ;;
  dom (append_child pn div).

(** [showFieldError(fieldId, message)], lines 303-323. *)
Definition show_field_error (i msg : jsstr) : Page unit :=
  f <- read (fun d => get_by_id d i) ;;
  match f with
  | None => ret tt
  | Some n =>
      dom (fun d => set_style p_border error_color d n) ;;
      p <- read (fun d => parent_of d n) ;;
      pn <- deref p "querySelector" ;;
      ex <- read (fun d => query_in d pn (Sel None [ByClass (js "field-error")])) ;;
      (match ex with
       | Some x => dom (remove_node x)
       | None => ret tt
       end) ;;
      add_error_div pn msg
  end.

(** [showFormMessage(message, type)], lines 325-338. *)
Definition show_form_message (msg type : jsstr) : Page unit :=
  fm <- glob g_form_message ;;
  match fm with
  | None => ret tt
  | Some n =>
      dom (fun d => set_text msg d n) ;;
      dom (fun d => set_class_name (js "form-message " ++ type) d n) ;;
      dom (fun d => set_style (js "display") (js "block") d n) ;;
      if bool_decide (type = js "success") && includes msg (js "Thank you")
      then schedule 5000 HideMessage
      else ret tt
  end.

(** The inputs whose borders the submit handler clears (line 207). *)
Definition form_group_inputs : selector :=
  Union (Sel (Some [ByClass (js "form-group")]) [ByTag (js "input")])
        (Sel (Some [ByClass (js "form-group")]) [ByTag (js "textarea")]).

(** Show the error of one rule when it fails. *)
Definition check (ok : bool) (i msg : jsstr) : Page unit :=
  if ok then ret tt else show_field_error i msg.

(** The submit listener of [contactForm], lines 189-248, from line 199
    on, once the four trimmed values are read. *)
Definition submit_after (form : node) (name email subject message : jsstr) : Page unit :=
  fm <- glob g_form_message ;;
  fmn <- deref fm "className" ;;
  dom (fun d => set_class_name (js "form-message") d fmn) ;;
  dom (fun d => set_text [] d fmn) ;;
  inputs <- read (fun d => query_all_in d form form_group_inputs) ;;
  for_each inputs (fun n => dom (fun d => set_style p_border [] d n)) ;;
  check (name_ok name) id_name msg_name ;;
  check (email_ok email) id_email msg_email ;;
  check (subject_ok subject) id_subject msg_subject ;;
  check (message_ok message) id_message msg_message ;;
  if name_ok name && email_ok email && subject_ok subject && message_ok message
  then show_form_message msg_sending (js "success") ;; schedule 1500 FormSent
  else show_form_message msg_fix (js "error").

(** The submit listener of [contactForm], lines 189-248. *)
Definition submit (form : node) : Page unit :=
  name <- field_value id_name ;;
  email <- field_value id_email ;;
  subject <- field_value id_subject ;;
  message <- field_value id_message ;;
  submit_after form name email subject message.

(** The callback of line 241. *)
Definition form_sent : Page unit :=
  show_form_message msg_thanks (js "success") ;;
  form <- glob g_form ;;
  (match form with
   | Some f => dom (fun d => reset_controls d f)
   | None => ret tt
   end) ;;
  fm <- glob g_form_message ;;
  _ <- deref fm "scrollIntoView" ;;
  ret tt.

(** The callback of line 333. *)
Definition hide_message : Page unit :=
  fm <- glob g_form_message ;;
  match fm with
  | Some n => dom (fun d => set_style (js "display") (js "none") d n)
  | None => ret tt
  end.

(** [validateField(field)], lines 265-301: the rule of the field's id.
    [field] is one of the [input]s and [textarea]s of line 251, whose
    [value] is a string. *)
Definition validate_field (field : node) : Page bool :=
  e <- read (fun d => elem d field) ;;
  ef <- deref e "value" ;;
  let value := trim (el_value ef) in
  let fid := el_id ef in
  dom (fun d => set_style p_border [] d field) ;;
  if bool_decide (fid = id_name) then
    (if name_ok value then ret true else show_field_error fid msg_name ;; ret false)
  else if bool_decide (fid = id_email) then
    (if email_ok value then ret true else show_field_error fid msg_email ;; ret false)
  else if bool_decide (fid = id_subject) then
    (if subject_ok value then ret true else show_field_error fid msg_subject ;; ret false)
  else if bool_decide (fid = id_message) then
    (if message_ok value then ret true else show_field_error fid msg_message ;; ret false)
  else ret true.

(** The blur listener (line 253). *)
Definition on_blur (field : node) : Page unit := _ <- validate_field field ;; ret tt.

(** The input listener (line 257): re-check a field whose border is red. *)
Definition on_input (field : node) : Page unit :=
  c <- read (fun d => style_of d field p_border) ;;
  if bool_decide (c = error_color_read) then on_blur field else ret tt.

(** ** What the handlers read *)

(** The trimmed value of the field with id [i], or what reading it throws. *)
Definition field_text (d : document) (i : jsstr) : exn + jsstr :=
  match get_by_id d i with
  | None => inl (TypeError "value")
  | Some n => match value_of d n with Some v => inr (trim v) | None => inl (TypeError "trim") end
  end.

(** The four trimmed values, or the exception of the first field that
    cannot be read. *)
Definition form_values (d : document) : exn + (jsstr * jsstr * jsstr * jsstr) :=
  match field_text d id_name, field_text d id_email, field_text d id_subject, field_text d id_message with
  | inr n, inr e, inr s, inr m => inr (n, e, s, m)
  | inl x, _, _, _ | inr _, inl x, _, _ | inr _, inr _, inl x, _ | inr _, inr _, inr _, inl x => inl x
  end.

(** The condition of line 231. *)
Definition form_ok (n e s m : jsstr) : bool := name_ok n && email_ok e && subject_ok s && message_ok m.

Lemma field_value_run i w : field_value i w = (w, field_text (w_doc w) i).
Proof.
  unfold field_value, field_text, bind, read, deref, ret.
  destruct (get_by_id (w_doc w) i); [|done]. by destruct (value_of _ _).
Qed.

(** A field that cannot be read throws before anything changes;
    otherwise the handler goes on with the four trimmed values. *)
Lemma submit_run form w :
  submit form w = match form_values (w_doc w) with
                  | inr (n, e, s, m) => submit_after form n e s m w
                  | inl x => (w, inl x)
                  end.
Proof.
  unfold submit, form_values, bind. rewrite !field_value_run.
  destruct (field_text _ id_name); [done|]. destruct (field_text _ id_email); [done|].
  destruct (field_text _ id_subject); [done|]. by destruct (field_text _ id_message).
Qed.

(** ** Footprints *)

Lemma show_field_error_doc_only i msg : doc_only (show_field_error i msg).
Proof. unfold show_field_error. solve_doc_only. Qed.

Lemma check_doc_only ok i msg : doc_only (check ok i msg).
Proof. unfold check. destruct ok; auto using show_field_error_doc_only with js. Qed.

#[export] Hint Resolve show_field_error_doc_only check_doc_only : js.

Lemma show_form_message_doc_only msg ty :
  includes msg (js "Thank you") = false -> doc_only (show_form_message msg ty).
Proof.
  intros H. unfold show_form_message. rewrite H, andb_false_r. solve_doc_only.
Qed.

Lemma show_form_message_total msg ty :
  includes msg (js "Thank you") = false -> doc_total (show_form_message msg ty).
Proof.
  intros H. unfold show_form_message. rewrite H, andb_false_r. solve_doc_total.
Qed.

Lemma msg_fix_plain : includes msg_fix (js "Thank you") = false.
Proof. vm_compute. reflexivity. Qed.

Lemma msg_sending_plain : includes msg_sending (js "Thank you") = false.
Proof. vm_compute. reflexivity. Qed.

Lemma msg_thanks_thanks : includes msg_thanks (js "Thank you") = true.
Proof. vm_compute. reflexivity. Qed.

#[export] Hint Resolve msg_fix_plain msg_sending_plain show_form_message_doc_only
  show_form_message_total : js.

(** ** Submission *)

Lemma submit_after_invalid form n e s m :
  form_ok n e s m = false -> doc_only (submit_after form n e s m).
Proof. unfold form_ok. intros H. unfold submit_after. rewrite H. solve_doc_only. Qed.

(** The document a valid submission leaves: the form message reset and
    then set to the sending notice, the borders cleared. *)
Definition sending_doc (d : document) (form fmn : node) : document :=
  let d1 := set_text [] (set_class_name (js "form-message") d fmn) fmn in
  let d2 := foldl (fun d x => set_style p_border [] d x) d1 (query_all_in d1 form form_group_inputs) in
  set_style (js "display") (js "block")
    (set_class_name (js "form-message " ++ js "success") (set_text msg_sending d2 fmn) fmn) fmn.

Lemma submit_after_valid_run form n e s m fmn w :
  form_ok n e s m = true -> g_form_message (w_g w) = Some fmn ->
  submit_after form n e s m w =
  (set_timers (set_timeout 1500 FormSent (w_timers w)) (set_doc (sending_doc (w_doc w) form fmn) w),
   inr tt).
Proof.
  unfold form_ok. intros Hok Hfm.
  repeat (apply andb_true_iff in Hok as [Hok ?]).
  unfold submit_after, check. rewrite Hok, H, H0, H1. simpl.
  page_run. rewrite Hfm. page_run.
  unfold show_form_message. rewrite msg_sending_plain, andb_false_r. page_run.
  rewrite Hfm. page_run. reflexivity.
Qed.

Lemma sending_doc_order d form fmn : d_order (sending_doc d form fmn) = d_order d.
Proof.
  unfold sending_doc, set_style, set_class_name, set_text. rewrite !order_update.
  rewrite foldl_order; [by rewrite !order_update | intros; apply order_update].
Qed.

Lemma sending_doc_message d form fmn :
  is_Some (elem d fmn) ->
  el_text <$> elem (sending_doc d form fmn) fmn = Some msg_sending /\
  el_classes <$> elem (sending_doc d form fmn) fmn = Some [js "form-message"; js "success"].
Proof.
  intros Hs. unfold sending_doc.
  set (d1 := set_text [] _ fmn). set (d2 := foldl _ d1 _).
  assert (H2 : is_Some (elem d2 fmn)).
  { subst d2 d1. rewrite foldl_is_Some; [|intros; apply is_Some_elem_update].
    unfold set_text, set_class_name. by rewrite !is_Some_elem_update. }
  destruct H2 as [e2 He2]. unfold set_style, set_class_name, set_text.
  rewrite !elem_update_eq, He2. simpl. split; [done|]. vm_compute. reflexivity.
Qed.

(** C1. A submission whose four trimmed fields pass their rules sets
    exactly one timer, the 1500 ms send of line 241; the form message
    then reads "Sending message..." with the classes [form-message
    success]; and no element is added or removed. *)
Theorem submit_valid form w n e s m fmn :
  form_values (w_doc w) = inr (n, e, s, m) -> form_ok n e s m = true ->
  g_form_message (w_g w) = Some fmn -> is_Some (elem (w_doc w) fmn) ->
  exists d, submit form w = (set_timers (set_timeout 1500 FormSent (w_timers w)) (set_doc d w), inr tt) /\
    d_order d = d_order (w_doc w) /\
    el_text <$> elem d fmn = Some msg_sending /\
    el_classes <$> elem d fmn = Some [js "form-message"; js "success"].
Proof.
  intros Hv Hok Hfm Hs. exists (sending_doc (w_doc w) form fmn).
  rewrite submit_run, Hv, (submit_after_valid_run _ _ _ _ _ fmn) by done.
  split; [done|]. split; [apply sending_doc_order|]. by apply sending_doc_message.
Qed.

(** C2. A submission with a missing field or a field that fails its
    rule sets no timer, whether it ends normally or throws: the
    simulated send is never started. *)
Theorem submit_invalid_no_send form w :
  (forall n e s m, form_values (w_doc w) = inr (n, e, s, m) -> form_ok n e s m = false) ->
  w_timers (exec (submit form) w) = w_timers w.
Proof.
  intros Hinv. unfold exec. rewrite submit_run.
  destruct (form_values (w_doc w)) as [|[[[n e] s] m]] eqn:E; [done|].
  apply doc_only_timers, submit_after_invalid. by apply Hinv.
Qed.

(** ** A sample contact page *)

Definition sample_form_doc (name email subject message : jsstr) : document :=
  mk_document
    [(1, mk_element (js "body") [] [] [] [] None);
     (2, mk_element (js "form") (js "contact-form") [] [] [] (Some 1));
     (3, mk_element (js "div") [] [js "form-group"] [] [] (Some 2));
     (4, mk_element (js "input") id_name [] [] name (Some 3));
     (5, mk_element (js "div") [] [js "form-group"] [] [] (Some 2));
     (6, mk_element (js "input") id_email [] [] email (Some 5));
     (7, mk_element (js "div") [] [js "form-group"] [] [] (Some 2));
     (8, mk_element (js "input") id_subject [] [] subject (Some 7));
     (9, mk_element (js "div") [] [js "form-group"] [] [] (Some 2));
     (10, mk_element (js "textarea") id_message [] [] message (Some 9));
     (11, mk_element (js "div") (js "form-message") [js "form-message"] [] [] (Some 2))].

Definition sample_globals : globals :=
  Globals 1 None [] None None None None None (Some 2) (Some 11) [4; 6; 8; 10] [] [].

Definition sample_form_world (name email subject message : jsstr) : world :=
  World (sample_form_doc name email subject message) ∅ (empty_queue 0) 0 0 [] [] sample_globals [].

Definition sample_valid_world : world :=
  sample_form_world (js "Ann") (js " a@b.com ") (js "Hi") (js "1234567890").

Lemma submit_valid_witness :
  exists d, submit 2 sample_valid_world =
    (set_timers (set_timeout 1500 FormSent (w_timers sample_valid_world))
       (set_doc d sample_valid_world), inr tt) /\
    d_order d = d_order (w_doc sample_valid_world) /\
    el_text <$> elem d 11 = Some msg_sending /\
    el_classes <$> elem d 11 = Some [js "form-message"; js "success"].
Proof.
  apply (submit_valid 2 _ (js "Ann") (js "a@b.com") (js "Hi") (js "1234567890") 11);
    vm_compute; try reflexivity. eexists. reflexivity.
Defined.

(** The spec's example with an empty name (section 8) is rejected by
    the code: no timer is set. *)
Lemma submit_invalid_witness :
  w_timers (exec (submit 2) (sample_form_world [] (js "a@b.com") (js "Hi") (js "1234567890")))
  = empty_queue 0.
Proof.
  apply (submit_invalid_no_send 2 (sample_form_world [] (js "a@b.com") (js "Hi") (js "1234567890"))).
  vm_compute. intros n e s m [= <- <- <- <-]. reflexivity.
Defined.

(** ** Field validation *)

(** The rule [validateField] applies to a field with id [fid]: the
    [switch] of lines 272-298; any other id passes. *)
Definition field_rule (fid v : jsstr) : bool :=
  if bool_decide (fid = id_name) then name_ok v
  else if bool_decide (fid = id_email) then email_ok v
  else if bool_decide (fid = id_subject) then subject_ok v
  else if bool_decide (fid = id_message) then message_ok v
  else true.

Lemma validate_field_doc_only n : doc_only (validate_field n).
Proof. unfold validate_field. solve_doc_only. Qed.

Lemma validate_field_run n w e :
  elem (w_doc w) n = Some e ->
  validate_field n w =
  (if bool_decide (el_id e = id_name) then
     (if name_ok (trim (el_value e)) then ret true else show_field_error (el_id e) msg_name ;; ret false)
   else if bool_decide (el_id e = id_email) then
     (if email_ok (trim (el_value e)) then ret true else show_field_error (el_id e) msg_email ;; ret false)
   else if bool_decide (el_id e = id_subject) then
     (if subject_ok (trim (el_value e)) then ret true else show_field_error (el_id e) msg_subject ;; ret false)
   else if bool_decide (el_id e = id_message) then
     (if message_ok (trim (el_value e)) then ret true else show_field_error (el_id e) msg_message ;; ret false)
   else ret true) (set_doc (set_style p_border [] (w_doc w) n) w).
Proof. intros He. unfold validate_field. page_run. rewrite He. page_run. reflexivity. Qed.

(** C3. [validateField] clears the field's border and returns the rule
    of the field's id on its trimmed value: a field that passes gets
    no error and the handler returns [true]; when the handler returns,
    its result is the rule's verdict; and it never sets a timer. *)
Theorem validate_field_spec n w e :
  elem (w_doc w) n = Some e ->
  (field_rule (el_id e) (trim (el_value e)) = true ->
     validate_field n w = (set_doc (set_style p_border [] (w_doc w) n) w, inr true)) /\
  (forall w' b, validate_field n w = (w', inr b) -> b = field_rule (el_id e) (trim (el_value e))) /\
  w_timers (exec (validate_field n) w) = w_timers w.
Proof.
  intros He. split_and!.
  - rewrite (validate_field_run n w e He). unfold field_rule.
    repeat case_match; try discriminate; done.
  - intros w' b. rewrite (validate_field_run n w e He). unfold field_rule.
    repeat case_match; intros Hr; try (by injection Hr); by apply bind_const_ret in Hr.
  - apply doc_only_timers, validate_field_doc_only.
Qed.

Lemma validate_field_witness :
  (field_rule id_message (trim (js "short")) = false) /\
  (forall w' b, validate_field 10 (sample_form_world (js "Ann") (js "a@b.com") (js "Hi") (js "short"))
                 = (w', inr b) -> b = false).
Proof.
  split; [vm_compute; reflexivity|].
  intros w' b Hr.
  destruct (validate_field_spec 10 (sample_form_world (js "Ann") (js "a@b.com") (js "Hi") (js "short"))
              (mk_element (js "textarea") id_message [] [] (js "short") (Some 9)))
    as (_ & H & _); [vm_compute; reflexivity|].
  apply H in Hr. rewrite Hr. vm_compute. reflexivity.
Defined.

(** ** The red border as the revalidation flag *)

Lemma add_error_div_run pn msg w :
  add_error_div pn msg w =
  (set_doc (append_child pn (d_next (w_doc w))
     (set_text msg (set_style (js "margin-top") (js "0.25rem")
       (set_style (js "font-size") (js "0.85rem")
         (set_style (js "color") error_color
           (set_class_name (js "field-error") (create_element (js "div") (w_doc w)).1
              (d_next (w_doc w))) (d_next (w_doc w))) (d_next (w_doc w))) (d_next (w_doc w)))
       (d_next (w_doc w)))) w, inr tt).
Proof. unfold add_error_div. page_run. reflexivity. Qed.

(** The new message element is fresh: the other elements are untouched. *)
Lemma add_error_div_other pn msg w n :
  n <> d_next (w_doc w) ->
  elem (w_doc (fst (add_error_div pn msg w))) n = elem (w_doc w) n.
Proof.
  intros H. rewrite add_error_div_run. cbn [fst]. rewrite set_doc_doc.
  unfold set_text, set_style, set_class_name.
  rewrite elem_append_ne, !elem_update_ne, elem_create_ne; auto.
Qed.

(** What [showFieldError] leaves on the field it marks, when it returns:
    the border reads back as the error colour. *)
Lemma show_field_error_marks i msg w w' n :
  dom_wf (w_doc w) -> get_by_id (w_doc w) i = Some n ->
  has_class (w_doc w) n (js "field-error") = false ->
  show_field_error i msg w = (w', inr tt) ->
  style_of (w_doc w') n p_border = error_color_read.
Proof.
  intros Hwf Hn Hcls. destruct (get_by_id_in _ _ _ Hn) as [_ Hel].
  pose proof (dom_wf_fresh _ _ Hwf Hel) as Hfresh.
  unfold show_field_error. page_run. rewrite Hn. page_run.
  destruct (parent_of _ n) as [p|]; page_run; [|unfold throw; intros [=]].
  set (d1 := set_style p_border error_color (w_doc w) n).
  assert (Hstyle : style_of d1 n p_border = error_color_read)
    by (apply style_of_set_style_eq; [done | unfold error_color; lit_neq]).
  assert (Hcls1 : has_class d1 n (js "field-error") = false)
    by (unfold d1, set_style; rewrite has_class_update; auto with js).
  destruct (query_in d1 p _) as [x|] eqn:Hx; page_run.
  - assert (Hxn : x <> n).
    { intros ->. apply query_in_some, query_all_in_elem in Hx as (_ & _ & Hm).
      apply node_matches_class in Hm. congruence. }
    intros Hr. rewrite ?set_doc_set_doc in Hr. rewrite <- Hstyle. unfold style_of.
    replace w' with (fst (add_error_div p msg (set_doc (remove_node x d1) w))) by (by rewrite Hr).
    rewrite add_error_div_other; simpl; [by rewrite elem_remove_ne|done].
  - intros Hr. rewrite <- Hstyle. unfold style_of.
    replace w' with (fst (add_error_div p msg (set_doc d1 w))) by (by rewrite Hr).
    by rewrite add_error_div_other.
Qed.

(** C4. After [showFieldError] marks a field, the field's border reads
    back as ["rgb(220, 38, 38)"] (the CSSOM serialisation of
    [#dc2626]), so the next [input] event on the field re-runs its
    validation (line 258). *)
Theorem input_after_error_revalidates i msg w w' n :
  dom_wf (w_doc w) -> get_by_id (w_doc w) i = Some n ->
  has_class (w_doc w) n (js "field-error") = false ->
  show_field_error i msg w = (w', inr tt) ->
  on_input n w' = on_blur n w'.
Proof.
  intros Hwf Hn Hcls Hr. unfold on_input. page_run.
  rewrite (show_field_error_marks i msg w w' n Hwf Hn Hcls Hr).
  by rewrite bool_decide_eq_true_2.
Qed.

Definition sample_empty_name_world : world :=
  sample_form_world [] (js "a@b.com") (js "Hi") (js "1234567890").

Lemma input_after_error_witness :
  on_input 4 (fst (show_field_error id_name msg_name sample_empty_name_world)) =
  on_blur 4 (fst (show_field_error id_name msg_name sample_empty_name_world)).
Proof.
  apply (input_after_error_revalidates id_name msg_name sample_empty_name_world _ 4).
  - apply dom_wf_b_sound. vm_compute. reflexivity.
  - vm_compute. reflexivity.
  - vm_compute. reflexivity.
  - vm_compute. reflexivity.
Defined.


(** ** The auto-hide timer of a success message *)

Lemma show_thanks_run fm w :
  g_form_message (w_g w) = Some fm ->
  show_form_message msg_thanks (js "success") w =
    (set_timers (set_timeout 5000 HideMessage (w_timers w))
       (set_doc (set_style (js "display") (js "block")
                  (set_class_name (js "form-message success")
                     (set_text msg_thanks (w_doc w) fm) fm) fm) w), inr tt).
Proof.
  intros Hfm. unfold show_form_message, bind, glob. rewrite Hfm. reflexivity.
Qed.

(** C26. The auto-hide timer of a success message is never cancelled:
    the send callback of line 241 keeps every pending timer, an earlier
    hide timer included, and adds its own, due 5000 ms later; it shows
    the thank-you text; and the hide callback of line 333 hides the
    form message whatever message it shows, so an earlier hide timer
    hides a later thank-you early. *)
Theorem thanks_timer_not_cancelled w fm :
  g_form_message (w_g w) = Some fm -> is_Some (elem (w_doc w) fm) ->
  pending (w_timers (exec form_sent w)) =
    pending (w_timers w) ++ [Timer (now (w_timers w) + 5000) (next_id (w_timers w)) HideMessage] /\
  text_of (w_doc (exec form_sent w)) fm = msg_thanks /\
  style_of (w_doc (exec form_sent w)) fm (js "display") = js "block" /\
  style_of (w_doc (exec hide_message (exec form_sent w))) fm (js "display") = js "none".
Proof.
  intros Hfm Hs. unfold exec, form_sent.
  rewrite (run_bind_ok _ _ _ _ _ (show_thanks_run fm w Hfm)). page_run.
  set (d := set_style _ _ (set_class_name _ (set_text msg_thanks (w_doc w) fm) fm) fm).
  assert (Hd : text_of d fm = msg_thanks /\ style_of d fm (js "display") = js "block").
  { unfold d. destruct Hs as [e He]. split.
    - unfold text_of, set_style, set_class_name, set_text. by rewrite !elem_update_eq, He.
    - rewrite style_of_set_style_eq; [reflexivity| |lit_neq]. by apply is_Some_elem_update, is_Some_elem_update. }
  assert (Hsd : is_Some (elem d fm)) by (by apply is_Some_elem_update, is_Some_elem_update, is_Some_set_text).
  destruct (g_form (w_g w)) as [f|]; page_run; rewrite Hfm; page_run; cbn [fst w_timers w_doc w_g].
  all: unfold hide_message; page_run; rewrite Hfm; page_run; cbn [w_doc].
  all: split; [unfold set_timeout; by rewrite Z.max_r by lia|].
  all: rewrite ?text_of_reset, ?style_of_reset; split_and!; [by destruct Hd | by destruct Hd |].
  all: cbn [dom modify fst set_doc w_doc]; rewrite style_of_set_style_eq; [reflexivity | | lit_neq].
  - by rewrite is_Some_elem_reset.
  - done.
Qed.

(** Sent twice: the second send keeps the hide timer of the first. *)
Lemma thanks_timer_not_cancelled_witness :
  let w := exec form_sent sample_valid_world in
  pending (w_timers (exec form_sent w)) = [Timer 5000 0 HideMessage; Timer 5000 1 HideMessage] /\
  text_of (w_doc (exec form_sent w)) 11 = msg_thanks /\
  style_of (w_doc (exec form_sent w)) 11 (js "display") = js "block" /\
  style_of (w_doc (exec hide_message (exec form_sent w))) 11 (js "display") = js "none".
Proof.
  intros w. destruct (thanks_timer_not_cancelled w 11) as (-> & H); [reflexivity | vm_compute; by eexists |].
  split; [vm_compute; reflexivity | exact H].
Defined.
