(* ===== verification/Theme.v ===== *)
(** * The dark-mode theme (lines 61-103 of [main.js])

    At load the script reads [localStorage.theme]: ["dark"] adds the
    class [dark] to [document.body] and shows the sun icon, anything
    else shows the moon icon ([theme_load]).  The click listener of the
    toggle button flips [dark] on the body, saves the new mode and
    updates the icon ([theme_click]).  The icon is optional: without it
    the mode still flips and is saved.

    The theorems give each handler's effect on the body, the icon and
    the storage ([theme_click_spec], [theme_load_spec]), show that a
    saved mode survives a reload ([theme_reload_roundtrip]) and that two
    clicks restore the mode ([theme_click_twice]). *)

From S2P Require Import Prelude JsString ClassList Dom Timers World.

Definition theme_key : jsstr := js "theme".
Definition c_dark : token := js "dark".
Definition c_sun : token := js "fa-sun".
Definition c_moon : token := js "fa-moon".

(** [themeIcon.classList.remove("fa-moon"); themeIcon.classList.add("fa-sun")]
    (lines 69-70 and 90-91). *)
Definition icon_sun (i : node) : Page unit :=
  dom (fun d => class_remove c_moon d i) ;; dom (fun d => class_add c_sun d i).

(** [themeIcon.classList.remove("fa-sun"); themeIcon.classList.add("fa-moon")]
    (lines 74-75 and 94-95). *)
Definition icon_moon (i : node) : Page unit :=
  dom (fun d => class_remove c_sun d i) ;; dom (fun d => class_add c_moon d i).

(** Lines 66-79, run once when the script loads. *)
Definition theme_load : Page unit :=
  saved <- storage_get theme_key ;;
  body <- glob g_body ;;
  icon <- glob g_theme_icon ;;
  if bool_decide (saved = Some (js "dark")) then
    dom (fun d => class_add c_dark d body) ;;
    match icon with Some i => icon_sun i | None => ret tt end
  else
    match icon with Some i => icon_moon i | None => ret tt end.

(** The click listener of the toggle button, lines 84-101. *)
Definition theme_click : Page unit :=
  body <- glob g_body ;;
  icon <- glob g_theme_icon ;;
  dom (fun d => class_toggle c_dark d body) ;;
  match icon with
  | Some i =>
      dark <- read (fun d => has_class d body c_dark) ;;
      if dark then storage_set theme_key (js "dark") ;; icon_sun i
      else storage_set theme_key (js "light") ;; icon_moon i
  | None =>
      dark <- read (fun d => has_class d body c_dark) ;;
      if dark then storage_set theme_key (js "dark") else storage_set theme_key (js "light")
  end.

(** ** What the handlers need of the page *)

(** The body is an element, and the icon, when present, is another one. *)
Definition theme_nodes (d : document) (g : globals) : Prop :=
  is_Some (elem d (g_body g)) /\
  forall i, g_theme_icon g = Some i -> is_Some (elem d i) /\ i <> g_body g.

(** The icon shows the sun exactly in dark mode and the moon otherwise. *)
Definition icon_agrees (d : document) (g : globals) : Prop :=
  forall i, g_theme_icon g = Some i ->
    has_class d i c_sun = has_class d (g_body g) c_dark /\
    has_class d i c_moon = negb (has_class d (g_body g) c_dark).

(** The saved value a mode is written as. *)
Definition mode_value (dark : bool) : jsstr := if dark then js "dark" else js "light".

(** ** Run equations *)

(** The document after the icon is set to the sun ([true]) or the moon. *)
Definition icon_doc (sun : bool) (d : document) (i : node) : document :=
  if sun then class_add c_sun (class_remove c_moon d i) i
  else class_add c_moon (class_remove c_sun d i) i.

Lemma icon_run (sun : bool) i w :
  (if sun then icon_sun i else icon_moon i : Page unit) w = (set_doc (icon_doc sun (w_doc w) i) w, inr tt).
Proof. by destruct sun. Qed.

(** The document after the load code, given the saved value. *)
Definition load_doc (saved : option jsstr) (g : globals) (d : document) : document :=
  let dark := bool_decide (saved = Some (js "dark")) in
  let d1 := if dark then class_add c_dark d (g_body g) else d in
  match g_theme_icon g with Some i => icon_doc dark d1 i | None => d1 end.

Lemma theme_load_run w :
  theme_load w = (set_doc (load_doc (w_storage w !! theme_key) (w_g w) (w_doc w)) w, inr tt).
Proof.
  unfold theme_load, load_doc. page_run.
  case_bool_decide; destruct (g_theme_icon (w_g w)) as [i|]; page_run;
    [exact (icon_run true _ _) | done | exact (icon_run false _ _) | by rewrite set_doc_id].
Qed.

(** The document after a click: the toggle, then the icon. *)
Definition click_doc (g : globals) (d : document) : document :=
  let d1 := class_toggle c_dark d (g_body g) in
  match g_theme_icon g with
  | Some i => icon_doc (has_class d1 (g_body g) c_dark) d1 i
  | None => d1
  end.

Lemma theme_click_run w :
  theme_click w =
    (set_storage (<[theme_key := mode_value (has_class (class_toggle c_dark (w_doc w) (g_body (w_g w)))
                                                       (g_body (w_g w)) c_dark)]> (w_storage w))
                 (set_doc (click_doc (w_g w) (w_doc w)) w), inr tt).
Proof.
  unfold theme_click, click_doc. page_run.
  destruct (g_theme_icon (w_g w)) as [i|]; page_run;
    destruct (has_class (class_toggle c_dark (w_doc w) (g_body (w_g w))) (g_body (w_g w)) c_dark);
    page_run; try reflexivity; try exact (icon_run true _ _); try exact (icon_run false _ _).
Qed.

(** ** The icon and the body after a handler *)

Lemma sun_moon_ne : bool_decide (c_sun = c_moon) = false.
Proof. vm_compute. reflexivity. Qed.
Lemma moon_sun_ne : bool_decide (c_moon = c_sun) = false.
Proof. vm_compute. reflexivity. Qed.
Lemma mode_value_dark b : bool_decide (Some (mode_value b) = Some (js "dark")) = b.
Proof. destruct b; vm_compute; reflexivity. Qed.

Create Rewrite HintDb theme.
#[local] Hint Rewrite sun_moon_ne moon_sun_ne mode_value_dark @bool_decide_refl : theme.

Lemma icon_doc_sun sun d i : is_Some (elem d i) -> has_class (icon_doc sun d i) i c_sun = sun.
Proof.
  intros H. destruct sun; unfold icon_doc;
    rewrite has_class_add_same, has_class_remove_same by (by apply is_Some_class_remove);
    autorewrite with theme; done.
Qed.

Lemma icon_doc_moon sun d i : is_Some (elem d i) -> has_class (icon_doc sun d i) i c_moon = negb sun.
Proof.
  intros H. destruct sun; unfold icon_doc;
    rewrite has_class_add_same, has_class_remove_same by (by apply is_Some_class_remove);
    autorewrite with theme; done.
Qed.

Lemma icon_doc_other sun d i m c : i <> m -> has_class (icon_doc sun d i) m c = has_class d m c.
Proof. intros H. unfold icon_doc, class_add, class_remove. destruct sun; by rewrite !has_class_update_ne. Qed.

Lemma icon_doc_elem sun d i m : is_Some (elem (icon_doc sun d i) m) <-> is_Some (elem d m).
Proof. unfold icon_doc. destruct sun; by rewrite is_Some_class_add, is_Some_class_remove. Qed.

(** The handlers add and remove no element, so the nodes stay. *)
Lemma theme_nodes_same_elems d d' g :
  (forall m, is_Some (elem d' m) <-> is_Some (elem d m)) -> theme_nodes d g -> theme_nodes d' g.
Proof.
  intros E [Hb Hi]. split; [by apply E|]. intros i Ei.
  destruct (Hi i Ei). rewrite E. done.
Qed.

Lemma click_doc_elem g d m : is_Some (elem (click_doc g d) m) <-> is_Some (elem d m).
Proof.
  unfold click_doc. destruct (g_theme_icon g); rewrite ?icon_doc_elem; apply is_Some_class_toggle.
Qed.

Lemma click_doc_body g d :
  theme_nodes d g -> has_class (click_doc g d) (g_body g) c_dark = negb (has_class d (g_body g) c_dark).
Proof.
  intros [Hb Hi]. unfold click_doc. destruct (g_theme_icon g) as [i|] eqn:E.
  - destruct (Hi i eq_refl) as [_ Hne]. rewrite icon_doc_other by done.
    by apply has_class_toggle_same.
  - by apply has_class_toggle_same.
Qed.

Lemma click_doc_agrees g d : theme_nodes d g -> icon_agrees (click_doc g d) g.
Proof.
  intros [Hbody Hi] i Ei. destruct (Hi i Ei) as [Hie Hne].
  unfold click_doc. rewrite Ei, (icon_doc_other _ _ i (g_body g)) by done.
  rewrite icon_doc_sun, icon_doc_moon by (by apply is_Some_class_toggle). done.
Qed.

Lemma click_storage w :
  theme_nodes (w_doc w) (w_g w) ->
  w_storage (exec theme_click w) =
    <[theme_key := mode_value (negb (has_class (w_doc w) (g_body (w_g w)) c_dark))]> (w_storage w).
Proof.
  intros [Hb _]. unfold exec. rewrite theme_click_run. cbn [fst].
  autorewrite with js_run. by rewrite has_class_toggle_same.
Qed.

Lemma click_world w :
  w_doc (exec theme_click w) = click_doc (w_g w) (w_doc w) /\
  w_g (exec theme_click w) = w_g w /\ w_timers (exec theme_click w) = w_timers w.
Proof. unfold exec. rewrite theme_click_run. done. Qed.

Lemma load_doc_elem saved g d m : is_Some (elem (load_doc saved g d) m) <-> is_Some (elem d m).
Proof.
  unfold load_doc. case_bool_decide; destruct (g_theme_icon g);
    rewrite ?icon_doc_elem, ?is_Some_class_add; done.
Qed.

Lemma load_doc_body saved g d :
  theme_nodes d g ->
  has_class (load_doc saved g d) (g_body g) c_dark =
    bool_decide (saved = Some (js "dark")) || has_class d (g_body g) c_dark.
Proof.
  intros [Hb Hi]. unfold load_doc. destruct (g_theme_icon g) as [i|] eqn:E;
    [rewrite icon_doc_other by (by destruct (Hi i eq_refl))|];
    case_bool_decide; try done; rewrite has_class_add_same by done; by autorewrite with theme.
Qed.

Lemma load_doc_icon saved g d i :
  theme_nodes d g -> g_theme_icon g = Some i ->
  has_class (load_doc saved g d) i c_sun = bool_decide (saved = Some (js "dark")) /\
  has_class (load_doc saved g d) i c_moon = negb (bool_decide (saved = Some (js "dark"))).
Proof.
  intros [Hb Hi] E. destruct (Hi i E) as [Hie _]. unfold load_doc. rewrite E.
  split; [apply icon_doc_sun | apply icon_doc_moon]; case_bool_decide; by rewrite ?is_Some_class_add.
Qed.

Lemma load_world w :
  w_doc (exec theme_load w) = load_doc (w_storage w !! theme_key) (w_g w) (w_doc w) /\
  w_g (exec theme_load w) = w_g w /\ w_storage (exec theme_load w) = w_storage w /\
  w_timers (exec theme_load w) = w_timers w.
Proof. unfold exec. rewrite theme_load_run. done. Qed.

(** ** The theme theorems *)

(** C7. A click on the toggle button never throws, flips the class
    [dark] of the body, saves the new mode under [theme], sets the icon
    to agree with the new mode, and sets no timer. *)
Theorem theme_click_spec w :
  theme_nodes (w_doc w) (w_g w) ->
  snd (theme_click w) = inr tt /\
  has_class (w_doc (exec theme_click w)) (g_body (w_g w)) c_dark =
    negb (has_class (w_doc w) (g_body (w_g w)) c_dark) /\
  w_storage (exec theme_click w) =
    <[theme_key := mode_value (negb (has_class (w_doc w) (g_body (w_g w)) c_dark))]> (w_storage w) /\
  icon_agrees (w_doc (exec theme_click w)) (w_g w) /\
  w_timers (exec theme_click w) = w_timers w.
Proof.
  intros H. destruct (click_world w) as (-> & _ & ->).
  split_and!; [by rewrite theme_click_run | by apply click_doc_body | by apply click_storage
              | by apply click_doc_agrees | done].
Qed.

(** C8. The load code never throws and leaves the storage: the body
    gains [dark] exactly when the saved value is ["dark"] (a [dark]
    class already on the body is kept), and the icon shows the sun
    exactly when the saved value is ["dark"]. *)
Theorem theme_load_spec w :
  theme_nodes (w_doc w) (w_g w) ->
  snd (theme_load w) = inr tt /\
  has_class (w_doc (exec theme_load w)) (g_body (w_g w)) c_dark =
    bool_decide (w_storage w !! theme_key = Some (js "dark")) || has_class (w_doc w) (g_body (w_g w)) c_dark /\
  (forall i, g_theme_icon (w_g w) = Some i ->
     has_class (w_doc (exec theme_load w)) i c_sun = bool_decide (w_storage w !! theme_key = Some (js "dark")) /\
     has_class (w_doc (exec theme_load w)) i c_moon = negb (bool_decide (w_storage w !! theme_key = Some (js "dark")))) /\
  w_storage (exec theme_load w) = w_storage w.
Proof.
  intros H. destruct (load_world w) as (-> & _ & -> & _).
  split_and!; [by rewrite theme_load_run | by apply load_doc_body | intros i Ei; by apply load_doc_icon | done].
Qed.

(** C9. The mode survives a reload: loading a fresh page whose body
    has no [dark] class, with the storage a click left, gives the body
    the mode the click set. *)
Theorem theme_reload_roundtrip w1 w0 :
  theme_nodes (w_doc w1) (w_g w1) -> theme_nodes (w_doc w0) (w_g w0) ->
  has_class (w_doc w0) (g_body (w_g w0)) c_dark = false ->
  has_class (w_doc (exec theme_load (set_storage (w_storage (exec theme_click w1)) w0))) (g_body (w_g w0)) c_dark =
  has_class (w_doc (exec theme_click w1)) (g_body (w_g w1)) c_dark.
Proof.
  intros H1 H0 Hfresh. destruct (load_world (set_storage (w_storage (exec theme_click w1)) w0)) as (-> & _).
  destruct (click_world w1) as (-> & _). autorewrite with js_run.
  rewrite load_doc_body, click_storage, lookup_insert_eq, click_doc_body, Hfresh by done.
  autorewrite with theme. apply orb_false_r.
Qed.

(** C10. Two clicks restore the mode, and the saved value is the mode
    then applied. *)
Theorem theme_click_twice w :
  theme_nodes (w_doc w) (w_g w) ->
  has_class (w_doc (exec theme_click (exec theme_click w))) (g_body (w_g w)) c_dark =
    has_class (w_doc w) (g_body (w_g w)) c_dark /\
  w_storage (exec theme_click (exec theme_click w)) !! theme_key =
    Some (mode_value (has_class (w_doc w) (g_body (w_g w)) c_dark)).
Proof.
  intros H. destruct (click_world w) as (E1 & G1 & _).
  assert (H1 : theme_nodes (click_doc (w_g w) (w_doc w)) (w_g w))
    by (eapply theme_nodes_same_elems; [apply click_doc_elem | done]).
  destruct (click_world (exec theme_click w)) as (E2 & _).
  rewrite click_storage, E2, G1, E1 by (by rewrite E1, G1).
  by rewrite lookup_insert_eq, !click_doc_body, negb_involutive.
Qed.

(** ** A sample page: body 1, toggle button 2, icon 3 *)

Definition sample_theme_doc : document :=
  mk_document [(1, mk_element (js "body") [] [] [] [] None);
               (2, mk_element (js "button") (js "theme-toggle") [] [] [] (Some 1));
               (3, mk_element (js "i") (js "theme-icon") [js "fas"; js "fa-moon"] [] [] (Some 2))].

Definition sample_theme_globals : globals :=
  Globals 1 None [] None None (Some 2) (Some 3) None None None [] [] [].

Definition sample_theme_world (st : gmap jsstr jsstr) : world :=
  World sample_theme_doc st (empty_queue 0) 0 0 [] [] sample_theme_globals [].

Ltac solve_theme_nodes :=
  split; [vm_compute; by eexists | intros ? [= <-]; split; [vm_compute; by eexists | simpl; lia]].

Lemma theme_click_witness :
  has_class (w_doc (exec theme_click (sample_theme_world ∅))) 1 c_dark = true /\
  w_storage (exec theme_click (sample_theme_world ∅)) = {[theme_key := js "dark"]}.
Proof.
  destruct (theme_click_spec (sample_theme_world ∅)) as (_ & Hb & Hs & _); [solve_theme_nodes|].
  split; [etransitivity; [apply Hb | vm_compute; reflexivity]
        | etransitivity; [apply Hs | vm_compute; reflexivity]].
Defined.

Lemma theme_load_witness :
  has_class (w_doc (exec theme_load (sample_theme_world {[theme_key := js "dark"]}))) 3 c_sun = true.
Proof.
  destruct (theme_load_spec (sample_theme_world {[theme_key := js "dark"]})) as (_ & _ & Hi & _);
    [solve_theme_nodes|].
  destruct (Hi 3 eq_refl) as [-> _]. vm_compute. reflexivity.
Defined.

Lemma theme_reload_witness :
  has_class (w_doc (exec theme_load (set_storage (w_storage (exec theme_click (sample_theme_world ∅)))
                                                 (sample_theme_world ∅)))) 1 c_dark =
  has_class (w_doc (exec theme_click (sample_theme_world ∅))) 1 c_dark.
Proof.
  apply (theme_reload_roundtrip (sample_theme_world ∅) (sample_theme_world ∅));
    [solve_theme_nodes | solve_theme_nodes | vm_compute; reflexivity].
Defined.

Lemma theme_click_twice_witness :
  w_storage (exec theme_click (exec theme_click (sample_theme_world ∅))) !! theme_key = Some (js "light").
Proof.
  destruct (theme_click_twice (sample_theme_world ∅)) as [_ ->]; [solve_theme_nodes|].
  vm_compute. reflexivity.
Defined.
