(* ===== verification/Scroll.v ===== *)
(** * The scroll listeners: sticky header (lines 12-26) and parallax (340-348)

    Two listeners of [window]'s [scroll] event.  [on_scroll_header]
    adds the class [scrolled] to the header past 50 pixels and removes
    it otherwise, then records the offset in [lastScroll]; it reads
    [header.classList] without a null check, so a page without a
    [<header>] throws on every scroll ([scroll_without_header_throws]).
    [on_scroll_parallax] moves [.hero-background] by half the offset
    with a [translateY] transform.

    The offset is an integer number of pixels, so [scrolled * 0.5] is
    an integer or an integer and a half; [half_str] prints it as
    JavaScript does for numbers below [10^21] (no exponent, [.5] for a
    half), and [parse_half] reads such a CSS length back. *)

From Stdlib Require Import DecimalString DecimalN.
From S2P Require Import Prelude JsString ClassList Dom Timers World.

Definition c_scrolled : token := js "scrolled".
Definition c_hero_bg : token := js "hero-background".

(** The listener of lines 16-26. *)
Definition on_scroll_header : Page unit :=
  currentScroll <- page_y_offset ;;
  h <- glob g_header ;;
  (if (50 <? currentScroll)%Z
   then header <- deref h "header.classList" ;; dom (fun d => class_add c_scrolled d header)
   else header <- deref h "header.classList" ;; dom (fun d => class_remove c_scrolled d header)) ;;
  set_last_scroll currentScroll.

(** [`${scrolled * 0.5}`] for an integer [scrolled]. *)
Definition half_str (z : Z) : jsstr :=
  (if (z <? 0)%Z then js "-" else []) ++ dec (Z.abs z / 2) ++ (if Z.odd z then js ".5" else []).

(** The listener of lines 341-348. *)
Definition on_scroll_parallax : Page unit :=
  scrolled <- page_y_offset ;;
  heroBackground <- read (fun d => query d (Sel None [ByClass c_hero_bg])) ;;
  match heroBackground with
  | Some n =>
      dom (fun d => set_style (js "transform") (js "translateY(" ++ half_str scrolled ++ js "px)") d n)
  | None => ret tt
  end.

(** ** Reading a printed half back *)

(** A leading [-]. *)
Definition strip_minus (s : jsstr) : bool * jsstr :=
  match s with
  | z :: r => if (z =? 45)%Z then (true, r) else (false, s)
  | [] => (false, [])
  end.

(** The digits before the first [.], and what follows it. *)
Fixpoint break_dot (s : jsstr) : jsstr * option jsstr :=
  match s with
  | [] => ([], None)
  | z :: s' => if (z =? 46)%Z then ([], Some s') else let r := break_dot s' in (z :: r.1, r.2)
  end.

(** Twice the number a string [-?digits(.5)?] denotes. *)
Definition parse_half (s : jsstr) : option Z :=
  let '(neg, s1) := strip_minus s in
  let '(ds, frac) := break_dot s1 in
  str ← to_string ds;
  u ← NilEmpty.uint_of_string str;
  half ← match frac with
         | None => Some 0%Z
         | Some r => if bool_decide (r = js "5") then Some 1%Z else None
         end;
  let v := (2 * Z.of_N (N.of_uint u) + half)%Z in
  Some (if neg then (- v)%Z else v).

(** ** Printing and reading back *)

Definition digit (c : Z) : Prop := (48 <= c <= 57)%Z.

Lemma dec_digits n : Forall digit (dec n).
Proof.
  unfold dec. generalize (N.to_uint (Z.to_N n)) as u.
  induction u; cbn [NilEmpty.string_of_uint]; [constructor|..];
    rewrite js_cons; constructor; try done; unfold digit; cbn; lia.
Qed.

Lemma break_dot_digits ds r :
  Forall digit ds -> break_dot (ds ++ r) = (ds ++ (break_dot r).1, (break_dot r).2).
Proof.
  induction 1 as [|c ds Hc _ IH]; simpl; [by destruct (break_dot r)|].
  rewrite IH. unfold digit in Hc. destruct (Z.eqb_spec c 46); [lia | done].
Qed.

Lemma strip_minus_digits ds r :
  Forall digit ds -> (r = [] \/ head r = Some 46%Z) -> strip_minus (ds ++ r) = (false, ds ++ r).
Proof.
  intros Hd Hr. destruct Hd as [|c ds Hc _]; simpl.
  - destruct Hr as [->|Hr]; [done|]. destruct r as [|z r]; [done|].
    simpl in Hr. injection Hr as ->. reflexivity.
  - unfold digit in Hc. destruct (Z.eqb_spec c 45); [lia | done].
Qed.

Lemma parse_dec_half k (odd neg : bool) :
  (0 <= k)%Z ->
  parse_half ((if neg then js "-" else []) ++ dec k ++ (if odd then js ".5" else [])) =
  Some (if neg then (- (2 * k + (if odd then 1 else 0)))%Z else (2 * k + (if odd then 1 else 0))%Z).
Proof.
  intros Hk. unfold parse_half.
  replace (strip_minus _) with (neg, dec k ++ (if odd then js ".5" else [])).
  2:{ destruct neg; [reflexivity|]. symmetry. apply (strip_minus_digits (dec k)); [apply dec_digits|].
      destruct odd; [right|left]; reflexivity. }
  rewrite break_dot_digits by apply dec_digits.
  replace (break_dot (if odd then js ".5" else [])) with
    ([] : jsstr, if odd then Some (js "5") else None) by (destruct odd; reflexivity).
  rewrite app_nil_r. unfold dec at 1. rewrite to_string_js. simpl.
  rewrite NilEmpty.usu. simpl. rewrite Unsigned.of_to, Z2N.id by done.
  destruct odd; [rewrite bool_decide_refl|]; reflexivity.
Qed.

Lemma half_parts z : (2 * (Z.abs z / 2) + (if Z.odd z then 1 else 0))%Z = Z.abs z.
Proof.
  rewrite <- Z.div2_div.
  assert (Z.odd (Z.abs z) = Z.odd z) as <-.
  { destruct (Z.abs_eq_or_opp z) as [-> | ->]; [done | apply Z.odd_opp]. }
  rewrite (Z.div2_odd (Z.abs z)) at 3. by destruct (Z.odd (Z.abs z)).
Qed.

Lemma half_str_parse z : parse_half (half_str z) = Some z.
Proof.
  unfold half_str. rewrite parse_dec_half by (apply Z.div_pos; lia).
  rewrite half_parts. f_equal. destruct (Z.ltb_spec z 0); lia.
Qed.

(** ** The scroll theorems *)

Lemma scroll_header_run w h :
  g_header (w_g w) = Some h ->
  on_scroll_header w =
    (World (if (50 <? w_scroll w)%Z then class_add c_scrolled (w_doc w) h
            else class_remove c_scrolled (w_doc w) h)
           (w_storage w) (w_timers w) (w_scroll w) (w_scroll w) (w_observed w)
           (w_bar_observed w) (w_g w) (w_console w), inr tt).
Proof.
  intros Hh. unfold on_scroll_header, bind, page_y_offset, glob, deref.
  cbn [fst snd]. rewrite Hh. by destruct (50 <? w_scroll w)%Z.
Qed.

(** C11. With a header element, a scroll never throws, sets the class
    [scrolled] of the header exactly when the offset is above 50 pixels,
    keeps its other classes, records the offset in [lastScroll] and
    touches neither storage nor timers. *)
Theorem scroll_header_spec w h :
  g_header (w_g w) = Some h -> is_Some (elem (w_doc w) h) ->
  snd (on_scroll_header w) = inr tt /\
  has_class (w_doc (exec on_scroll_header w)) h c_scrolled = (50 <? w_scroll w)%Z /\
  (forall c, c <> c_scrolled ->
     has_class (w_doc (exec on_scroll_header w)) h c = has_class (w_doc w) h c) /\
  w_last_scroll (exec on_scroll_header w) = w_scroll w /\
  w_storage (exec on_scroll_header w) = w_storage w /\
  w_timers (exec on_scroll_header w) = w_timers w.
Proof.
  intros Hh He. unfold exec. rewrite (scroll_header_run w h Hh).
  cbn [fst snd w_doc w_last_scroll w_storage w_timers].
  split_and!; try done; [|intros c Hc]; destruct (50 <? w_scroll w)%Z;
    rewrite ?has_class_add_same, ?has_class_remove_same by done;
    rewrite ?bool_decide_refl, ?bool_decide_eq_false_2 by done; done.
Qed.

(** C12. Without a header element every scroll throws a [TypeError]
    before it changes anything: [lastScroll] is not updated either. *)
Theorem scroll_without_header_throws w :
  g_header (w_g w) = None -> on_scroll_header w = (w, inl (TypeError "header.classList")).
Proof.
  intros Hh. unfold on_scroll_header, bind, page_y_offset, glob, deref.
  cbn [fst snd]. rewrite Hh. by destruct (50 <? w_scroll w)%Z.
Qed.

Lemma parallax_run w n :
  query (w_doc w) (Sel None [ByClass c_hero_bg]) = Some n ->
  on_scroll_parallax w =
    (set_doc (set_style (js "transform") (js "translateY(" ++ half_str (w_scroll w) ++ js "px)") (w_doc w) n) w,
     inr tt).
Proof. intros Hq. unfold on_scroll_parallax. page_run. by rewrite Hq. Qed.

(** The parallax listener touches only a style of the background. *)
Lemma parallax_frame w :
  w_g (exec on_scroll_parallax w) = w_g w /\
  w_last_scroll (exec on_scroll_parallax w) = w_last_scroll w /\
  (forall m c, has_class (w_doc (exec on_scroll_parallax w)) m c = has_class (w_doc w) m c) /\
  (forall m, is_Some (elem (w_doc (exec on_scroll_parallax w)) m) <-> is_Some (elem (w_doc w) m)).
Proof.
  unfold exec. destruct (query (w_doc w) (Sel None [ByClass c_hero_bg])) as [n|] eqn:Hq.
  - rewrite (parallax_run w n Hq). cbn [fst]. rewrite set_doc_doc, set_doc_g.
    split_and!; [done|done| |]; intros; [unfold set_style; by rewrite has_class_update by apply keeps_shape_style | apply is_Some_set_style].
  - unfold on_scroll_parallax. page_run. rewrite Hq. page_run. done.
Qed.

(** C13. With a [.hero-background], a scroll never throws and sets its
    [transform] to [translateY(v px)] where [v] denotes exactly half
    the offset; no other element changes. *)
Theorem parallax_spec w n :
  query (w_doc w) (Sel None [ByClass c_hero_bg]) = Some n ->
  snd (on_scroll_parallax w) = inr tt /\
  (exists v, style_of (w_doc (exec on_scroll_parallax w)) n (js "transform") =
               js "translateY(" ++ v ++ js "px)" /\ parse_half v = Some (w_scroll w)) /\
  (forall m, m <> n -> elem (w_doc (exec on_scroll_parallax w)) m = elem (w_doc w) m).
Proof.
  intros Hq. unfold exec. rewrite (parallax_run w n Hq). cbn [fst snd]. rewrite set_doc_doc.
  pose proof (node_matches_elem _ _ _ (proj2 (proj1 (query_all_elem _ _ _) (query_some _ _ _ Hq)))) as He.
  split_and!; [done| |intros m Hm; by apply elem_update_ne].
  exists (half_str (w_scroll w)). split; [|apply half_str_parse].
  rewrite style_of_set_style_eq by (done || by destruct (half_str (w_scroll w))). reflexivity.
Qed.

(** ** A sample page: body 1, header 2, hero background 3 *)

Definition sample_scroll_doc : document :=
  mk_document [(1, mk_element (js "body") [] [] [] [] None);
               (2, mk_element (js "header") [] [] [] [] (Some 1));
               (3, mk_element (js "div") [] [js "hero-background"] [] [] (Some 1))].

Definition sample_scroll_world (header : option node) (offset : Z) : world :=
  World sample_scroll_doc ∅ (empty_queue 0) offset 0 [] []
        (Globals 1 header [] None None None None None None None [] [] []) [].

Lemma scroll_header_witness :
  has_class (w_doc (exec on_scroll_header (sample_scroll_world (Some 2) 51))) 2 c_scrolled = true /\
  w_last_scroll (exec on_scroll_header (sample_scroll_world (Some 2) 51)) = 51%Z.
Proof.
  destruct (scroll_header_spec (sample_scroll_world (Some 2) 51) 2) as (_ & Hc & _ & Hl & _);
    [reflexivity | vm_compute; by eexists |].
  split; [rewrite Hc | rewrite Hl]; reflexivity.
Defined.

Lemma scroll_without_header_witness :
  on_scroll_header (sample_scroll_world None 120) =
    (sample_scroll_world None 120, inl (TypeError "header.classList")).
Proof. apply scroll_without_header_throws. reflexivity. Defined.

Lemma parallax_witness :
  exists v, style_of (w_doc (exec on_scroll_parallax (sample_scroll_world None 101))) 3 (js "transform") =
              js "translateY(" ++ v ++ js "px)" /\ parse_half v = Some 101%Z.
Proof.
  destruct (parallax_spec (sample_scroll_world None 101) 3) as (_ & Hv & _); [vm_compute; reflexivity|].
  exact Hv.
Defined.
