(* ===== verification/MobileMenu.v ===== *)
(** * The mobile menu (lines 28-59 of [main.js])

    When the page has a [.mobile-menu-toggle], a click on it toggles
    the class [mobile-open] of [nav] and styles the spans of the toggle
    (the hamburger icon) as a cross when the menu is now open and back
    as bars when it is closed ([menu_toggle_click]); a click on a nav
    link closes the menu and resets the spans ([menu_link_click]).
    Both listeners capture [mobileMenuToggle] (a node, since they exist
    only when it is not null) and read [nav] without a null check.

    [menu_agrees] relates the open state to the span styles; each
    listener establishes it whatever the state before. *)

From S2P Require Import Prelude JsString ClassList Dom Timers World.

Definition c_open : token := js "mobile-open".
Definition p_transform : jsstr := js "transform".
Definition p_opacity : jsstr := js "opacity".
Definition span_sel : selector := Sel None [ByTag (js "span")].
Definition rot_first : jsstr := js "rotate(45deg) translate(5px, 5px)".
Definition rot_last : jsstr := js "rotate(-45deg) translate(7px, -6px)".

(** [span.style.transform = ""; span.style.opacity = "1"] (lines 43-44
    and 54-55). *)
Definition span_reset (span : node) : Page unit :=
  dom (fun d => set_style p_transform [] d span) ;;
  dom (fun d => set_style p_opacity (js "1") d span).

(** The [forEach] callback of lines 36-46. *)
Definition span_step (nav : node) (index : nat) (span : node) : Page unit :=
  isOpen <- read (fun d => has_class d nav c_open) ;;
  if isOpen then
    (if bool_decide (index = 0) then dom (fun d => set_style p_transform rot_first d span) else ret tt) ;;
    (if bool_decide (index = 1) then dom (fun d => set_style p_opacity (js "0") d span) else ret tt) ;;
    (if bool_decide (index = 2) then dom (fun d => set_style p_transform rot_last d span) else ret tt)
  else span_reset span.

(** The click listener of the toggle, lines 33-47. *)
Definition menu_toggle_click (toggle : node) : Page unit :=
  n <- glob g_nav ;;
  nav <- deref n "nav.classList" ;;
  dom (fun d => class_toggle c_open d nav) ;;
  spans <- read (fun d => query_all_in d toggle span_sel) ;;
  for_each_i spans (span_step nav).

(** The click listener of each nav link, lines 51-57. *)
Definition menu_link_click (toggle : node) : Page unit :=
  n <- glob g_nav ;;
  nav <- deref n "nav.classList" ;;
  dom (fun d => class_remove c_open d nav) ;;
  spans <- read (fun d => query_all_in d toggle span_sel) ;;
  for_each spans span_reset.

(** ** The open state and the icon *)

(** Open: the first span is turned, the second hidden, the third turned
    the other way; closed: every span is plain bars. *)
Definition menu_agrees (d : document) (nav toggle : node) : Prop :=
  let spans := query_all_in d toggle span_sel in
  if has_class d nav c_open then
    (forall s, spans !! 0 = Some s -> style_of d s p_transform = rot_first) /\
    (forall s, spans !! 1 = Some s -> style_of d s p_opacity = js "0") /\
    (forall s, spans !! 2 = Some s -> style_of d s p_transform = rot_last)
  else Forall (fun s => style_of d s p_transform = [] /\ style_of d s p_opacity = js "1") spans.

(** ** Run equations *)

(** The document after [span_reset] and after [span_step]. *)
Definition reset_doc (span : node) (d : document) : document :=
  set_style p_opacity (js "1") (set_style p_transform [] d span) span.

Definition span_doc (isOpen : bool) (index : nat) (span : node) (d : document) : document :=
  if isOpen then
    let d1 := if bool_decide (index = 0) then set_style p_transform rot_first d span else d in
    let d2 := if bool_decide (index = 1) then set_style p_opacity (js "0") d1 span else d1 in
    if bool_decide (index = 2) then set_style p_transform rot_last d2 span else d2
  else reset_doc span d.

Lemma span_reset_run span w : span_reset span w = (set_doc (reset_doc span (w_doc w)) w, inr tt).
Proof. reflexivity. Qed.

Lemma span_step_run nav index span w :
  span_step nav index span w =
    (set_doc (span_doc (has_class (w_doc w) nav c_open) index span (w_doc w)) w, inr tt).
Proof.
  unfold span_step, span_doc. page_run.
  destruct (has_class (w_doc w) nav c_open); [|reflexivity].
  destruct (bool_decide (index = 0)), (bool_decide (index = 1)), (bool_decide (index = 2));
    page_run; rewrite ?bind_ret_l, ?set_doc_id; reflexivity.
Qed.


(** Unfold the span writes into their cases. *)
Ltac span_cases b k :=
  unfold span_doc, reset_doc, set_style;
  destruct b; [destruct (bool_decide (k = 0)), (bool_decide (k = 1)), (bool_decide (k = 2))|];
  cbv beta iota zeta.

(** The span writes keep every class and every query, change only
    their span, and read only it. *)
Lemma span_doc_classes b k s d m c : has_class (span_doc b k s d) m c = has_class d m c.
Proof. span_cases b k; rewrite ?has_class_update by apply keeps_shape_style; done. Qed.

Lemma span_doc_query b k s d r sel : query_all_in (span_doc b k s d) r sel = query_all_in d r sel.
Proof. span_cases b k; rewrite ?query_all_in_update by apply keeps_shape_style; done. Qed.

Lemma span_doc_other b k s d m : m <> s -> elem (span_doc b k s d) m = elem d m.
Proof. intros H. span_cases b k; rewrite ?elem_update_ne by congruence; done. Qed.

Lemma span_doc_same b k s d d' : elem d s = elem d' s -> elem (span_doc b k s d) s = elem (span_doc b k s d') s.
Proof. intros H. span_cases b k; rewrite ?elem_update_eq; by rewrite H. Qed.

Lemma transform_opacity_ne : bool_decide (p_transform = p_opacity) = false.
Proof. vm_compute. reflexivity. Qed.
Lemma opacity_transform_ne : bool_decide (p_opacity = p_transform) = false.
Proof. vm_compute. reflexivity. Qed.

Lemma span_doc_first s d : is_Some (elem d s) -> style_of (span_doc true 0 s d) s p_transform = rot_first.
Proof.
  intros H. unfold span_doc. rewrite (bool_decide_eq_false_2 (0 = 1)), (bool_decide_eq_false_2 (0 = 2)),
    bool_decide_refl by lia. cbv beta iota zeta.
  rewrite style_of_set_style, bool_decide_refl by done. reflexivity.
Qed.

Lemma span_doc_second s d : is_Some (elem d s) -> style_of (span_doc true 1 s d) s p_opacity = js "0".
Proof.
  intros H. unfold span_doc. rewrite (bool_decide_eq_false_2 (1 = 0)), (bool_decide_eq_false_2 (1 = 2)),
    bool_decide_refl by lia. cbv beta iota zeta.
  rewrite style_of_set_style, bool_decide_refl by done. reflexivity.
Qed.

Lemma span_doc_third s d : is_Some (elem d s) -> style_of (span_doc true 2 s d) s p_transform = rot_last.
Proof.
  intros H. unfold span_doc. rewrite (bool_decide_eq_false_2 (2 = 0)), (bool_decide_eq_false_2 (2 = 1)),
    bool_decide_refl by lia. cbv beta iota zeta.
  rewrite style_of_set_style, bool_decide_refl by done. reflexivity.
Qed.

Lemma reset_doc_styles s d :
  is_Some (elem d s) ->
  style_of (reset_doc s d) s p_transform = [] /\ style_of (reset_doc s d) s p_opacity = js "1".
Proof.
  intros H. unfold reset_doc.
  rewrite !style_of_set_style by (rewrite ?is_Some_set_style; done).
  rewrite transform_opacity_ne, !bool_decide_refl. done.
Qed.

(** ** The loop over the spans *)

(** The document after the [forEach] of lines 36-46. *)
Definition spans_doc (b : bool) (spans : list node) (d : document) : document :=
  foldl (fun d p => span_doc b p.1 p.2 d) d (zip (seq 0 (length spans)) spans).

Lemma spans_doc_classes b spans d m c : has_class (spans_doc b spans d) m c = has_class d m c.
Proof. apply (foldl_preserve (fun d => has_class d m c)). intros. apply span_doc_classes. Qed.

Lemma spans_doc_query b spans d r sel : query_all_in (spans_doc b spans d) r sel = query_all_in d r sel.
Proof. apply (foldl_preserve (fun d => query_all_in d r sel)). intros. apply span_doc_query. Qed.

Lemma spans_doc_elem b spans d m : is_Some (elem (spans_doc b spans d) m) <-> is_Some (elem d m).
Proof.
  revert d. unfold spans_doc. generalize (zip (seq 0 (length spans)) spans) as l.
  induction l as [|[k s] l IH]; intros d; simpl; [done|]. rewrite IH.
  destruct (decide (m = s)) as [->|Hne]; [|by rewrite span_doc_other].
  span_cases b k; rewrite ?is_Some_elem_update; done.
Qed.

(** Each span ends with the styles its own step wrote. *)
Lemma spans_doc_style b spans d k s p :
  NoDup spans -> spans !! k = Some s ->
  style_of (spans_doc b spans d) s p = style_of (span_doc b k s d) s p.
Proof.
  intros Hnd Hk. apply style_of_elem. unfold spans_doc.
  apply (elem_foldl_local snd (fun p d => span_doc b p.1 p.2 d)
           (fun a d m Hm => span_doc_other _ _ _ _ _ Hm) (fun a d1 d2 H => span_doc_same _ _ _ _ _ H)
           _ _ (k, s)).
  - by rewrite zip_seq_snd.
  - by apply zip_seq_elem.
Qed.

Lemma menu_toggle_run toggle nav w :
  g_nav (w_g w) = Some nav ->
  menu_toggle_click toggle w =
    (set_doc (let d1 := class_toggle c_open (w_doc w) nav in
              spans_doc (has_class d1 nav c_open) (query_all_in d1 toggle span_sel) d1) w, inr tt).
Proof.
  intros Hn. unfold menu_toggle_click. page_run. rewrite Hn. page_run.
  unfold for_each_i.
  rewrite (for_each_read_dom _ _ (fun d => has_class d nav c_open) (fun b p d => span_doc b p.1 p.2 d)).
  - by rewrite set_doc_doc, set_doc_set_doc.
  - intros [i s] w'. apply span_step_run.
  - intros b [i s] d. apply span_doc_classes.
Qed.

Lemma menu_link_run toggle nav w :
  g_nav (w_g w) = Some nav ->
  menu_link_click toggle w =
    (set_doc (let d1 := class_remove c_open (w_doc w) nav in
              foldl (fun d s => reset_doc s d) d1 (query_all_in d1 toggle span_sel)) w, inr tt).
Proof.
  intros Hn. unfold menu_link_click. page_run. rewrite Hn. page_run.
  rewrite (for_each_read_dom _ _ (fun _ => true) (fun _ s d => reset_doc s d)); [|done|done].
  by rewrite set_doc_doc, set_doc_set_doc.
Qed.

(** The link listener's loop is the toggle's loop in the closed state. *)
Lemma reset_fold_spans_doc spans d :
  foldl (fun d s => reset_doc s d) d spans = spans_doc false spans d.
Proof.
  unfold spans_doc. generalize 0 as k. revert d.
  induction spans as [|s spans IH]; intros d k; simpl; [done|]. apply IH.
Qed.

(** After the loop at the state the class then has, the spans agree
    with it. *)
Lemma spans_doc_agrees d nav toggle :
  dom_wf d ->
  menu_agrees (spans_doc (has_class d nav c_open) (query_all_in d toggle span_sel) d) nav toggle.
Proof.
  intros Hwf. unfold menu_agrees. rewrite spans_doc_query, spans_doc_classes.
  pose proof (query_all_in_nodup d toggle span_sel Hwf) as Hnd.
  assert (Hs : forall k s, query_all_in d toggle span_sel !! k = Some s -> is_Some (elem d s))
    by (intros k s Hk; eapply query_all_in_is_Some, list_elem_of_lookup_2, Hk).
  destruct (has_class d nav c_open).
  - split_and!; intros s Hk; rewrite (spans_doc_style _ _ _ _ s) by done.
    + by apply span_doc_first, (Hs 0).
    + by apply span_doc_second, (Hs 1).
    + by apply span_doc_third, (Hs 2).
  - apply Forall_forall. intros s [k Hk]%list_elem_of_lookup_1.
    rewrite !(spans_doc_style _ _ _ k s) by done. exact (reset_doc_styles s d (Hs k s Hk)).
Qed.

Lemma dom_wf_classes d n f : dom_wf d -> dom_wf (update_elem d n (with_classes f)).
Proof. apply dom_wf_update. done. Qed.

Lemma query_spans_classes d n f toggle :
  query_all_in (update_elem d n (with_classes f)) toggle span_sel = query_all_in d toggle span_sel.
Proof. by apply query_all_in_tag_update. Qed.

(** ** The menu theorems *)

(** C14. A click on the toggle never throws when [nav] exists: it flips
    [mobile-open], and afterwards the spans show a cross exactly when
    the menu is open and bars otherwise, whatever they showed before;
    the spans are the same elements, and no timer or storage changes. *)
Theorem menu_toggle_spec toggle nav w :
  dom_wf (w_doc w) -> g_nav (w_g w) = Some nav -> is_Some (elem (w_doc w) nav) ->
  snd (menu_toggle_click toggle w) = inr tt /\
  has_class (w_doc (exec (menu_toggle_click toggle) w)) nav c_open =
    negb (has_class (w_doc w) nav c_open) /\
  menu_agrees (w_doc (exec (menu_toggle_click toggle) w)) nav toggle /\
  query_all_in (w_doc (exec (menu_toggle_click toggle) w)) toggle span_sel =
    query_all_in (w_doc w) toggle span_sel /\
  w_timers (exec (menu_toggle_click toggle) w) = w_timers w /\
  w_storage (exec (menu_toggle_click toggle) w) = w_storage w.
Proof.
  intros Hwf Hn He. unfold exec. rewrite (menu_toggle_run toggle nav w Hn). cbn [fst snd].
  autorewrite with js_run. cbv zeta.
  split_and!; try done.
  - rewrite spans_doc_classes. by apply has_class_toggle_same.
  - by apply spans_doc_agrees, dom_wf_classes.
  - rewrite spans_doc_query. unfold class_toggle. by rewrite query_spans_classes.
Qed.

(** C15. A click on a nav link never throws when [nav] exists: the
    menu is closed and every span of the toggle shows bars again. *)
Theorem menu_link_spec toggle nav w :
  dom_wf (w_doc w) -> g_nav (w_g w) = Some nav ->
  snd (menu_link_click toggle w) = inr tt /\
  has_class (w_doc (exec (menu_link_click toggle) w)) nav c_open = false /\
  menu_agrees (w_doc (exec (menu_link_click toggle) w)) nav toggle /\
  w_timers (exec (menu_link_click toggle) w) = w_timers w /\
  w_storage (exec (menu_link_click toggle) w) = w_storage w.
Proof.
  intros Hwf Hn. unfold exec. rewrite (menu_link_run toggle nav w Hn). cbn [fst snd].
  autorewrite with js_run. cbv zeta. rewrite reset_fold_spans_doc.
  assert (Hc : has_class (class_remove c_open (w_doc w) nav) nav c_open = false)
    by (by rewrite has_class_remove_same, bool_decide_refl).
  split_and!; try done.
  - by rewrite spans_doc_classes.
  - rewrite <- Hc at 1. by apply spans_doc_agrees, dom_wf_classes.
Qed.

(** C16. Without a [nav] element both listeners throw a [TypeError]
    before changing anything. *)
Theorem menu_without_nav_throws toggle w :
  g_nav (w_g w) = None ->
  menu_toggle_click toggle w = (w, inl (TypeError "nav.classList")) /\
  menu_link_click toggle w = (w, inl (TypeError "nav.classList")).
Proof.
  intros Hn. unfold menu_toggle_click, menu_link_click. split; page_run; by rewrite Hn.
Qed.

(** ** A sample page: nav 3 with a link 8, toggle 4 with three spans *)

Definition sample_menu_doc : document :=
  mk_document [(1, mk_element (js "body") [] [] [] [] None);
               (2, mk_element (js "header") [] [] [] [] (Some 1));
               (3, mk_element (js "nav") [] [] [] [] (Some 2));
               (4, mk_element (js "button") [] [js "mobile-menu-toggle"] [] [] (Some 2));
               (5, mk_element (js "span") [] [] [] [] (Some 4));
               (6, mk_element (js "span") [] [] [] [] (Some 4));
               (7, mk_element (js "span") [] [] [] [] (Some 4));
               (8, mk_element (js "a") [] [] [(js "href", js "about.html")] [] (Some 3))].

Definition sample_menu_world (nav : option node) : world :=
  World sample_menu_doc ∅ (empty_queue 0) 0 0 [] []
        (Globals 1 (Some 2) [8] (Some 4) nav None None None None None [] [] [8]) [].

Lemma menu_toggle_witness :
  has_class (w_doc (exec (menu_toggle_click 4) (sample_menu_world (Some 3)))) 3 c_open = true /\
  style_of (w_doc (exec (menu_toggle_click 4) (sample_menu_world (Some 3)))) 6 p_opacity = js "0".
Proof.
  destruct (menu_toggle_spec 4 3 (sample_menu_world (Some 3))) as (_ & Hc & Hag & Hq & _);
    [apply dom_wf_b_sound; vm_compute; reflexivity | reflexivity | vm_compute; by eexists |].
  assert (Hb : has_class (w_doc (exec (menu_toggle_click 4) (sample_menu_world (Some 3)))) 3 c_open = true)
    by (rewrite Hc; vm_compute; reflexivity).
  split; [exact Hb|]. unfold menu_agrees in Hag. cbv zeta in Hag. rewrite Hb in Hag.
  apply (proj1 (proj2 Hag)). rewrite Hq. vm_compute. reflexivity.
Defined.

Lemma menu_link_witness :
  has_class (w_doc (exec (menu_link_click 4) (sample_menu_world (Some 3)))) 3 c_open = false.
Proof.
  destruct (menu_link_spec 4 3 (sample_menu_world (Some 3))) as (_ & Hc & _);
    [apply dom_wf_b_sound; vm_compute; reflexivity | reflexivity |].
  exact Hc.
Defined.

Lemma menu_without_nav_witness :
  menu_toggle_click 4 (sample_menu_world None) =
    (sample_menu_world None, inl (TypeError "nav.classList")).
Proof. apply (menu_without_nav_throws 4 (sample_menu_world None)). reflexivity. Defined.
