(* ===== verification/Nav.v ===== *)
(** * Navigation highlighting (lines 1-10 of [main.js])

    At load the script takes the last segment of
    [window.location.pathname] ([index.html] when it is empty) and adds
    the class [active] to every [nav a] whose [href] attribute is that
    segment.  [current_page] is line 2, [nav_highlight] lines 5-10.

    The theorems characterise the page name ([current_page_spec]: the
    part after the last [/]) and the classes after the loop
    ([nav_highlight_spec]: a class is added exactly to the links whose
    [href] is the page name, and none is removed). *)

From S2P Require Import Prelude JsString ClassList Dom Timers World.

Definition slash : Z := 47.
Definition c_active : token := js "active".
Definition a_href : jsstr := js "href".

(** [window.location.pathname.split("/").pop() || "index.html"] *)
Definition current_page (pathname : jsstr) : jsstr :=
  or_default (last (split_on slash pathname)) (js "index.html").

(** The [forEach] callback of lines 5-10. *)
Definition highlight_link (currentPage : jsstr) (link : node) : Page unit :=
  linkPage <- read (fun d => get_attr d link a_href) ;;
  if bool_decide (linkPage = Some currentPage) then dom (fun d => class_add c_active d link) else ret tt.

(** Lines 5-10, over the [navLinks] of line 3. *)
Definition nav_highlight (pathname : jsstr) : Page unit :=
  links <- glob g_nav_links ;;
  for_each links (highlight_link (current_page pathname)).

(** ** The page name *)

(** C17. The page name is the part of the path after its last [/]
    (all of it when there is none), or [index.html] when that part is
    empty. *)
Theorem current_page_spec pre seg :
  slash ∉ seg -> (pre = [] \/ exists p, pre = p ++ [slash]) ->
  current_page (pre ++ seg) = match seg with [] => js "index.html" | _ => seg end.
Proof.
  intros Hseg Hpre. unfold current_page.
  assert (E : last (split_on slash (pre ++ seg)) = Some seg).
  { destruct Hpre as [->|[p ->]]; [rewrite app_nil_l, (split_on_free _ _ Hseg); reflexivity|].
    rewrite <- app_assoc. change ([slash] ++ seg) with (slash :: seg).
    rewrite split_on_app_sep, (split_on_free _ _ Hseg).
    by rewrite last_app_cons. }
  rewrite E. by destruct seg.
Qed.

(** ** The highlighted links *)

Definition link_doc (cp : jsstr) (link : node) (d : document) : document :=
  if bool_decide (get_attr d link a_href = Some cp) then class_add c_active d link else d.

Lemma highlight_link_run cp link w :
  highlight_link cp link w = (set_doc (link_doc cp link (w_doc w)) w, inr tt).
Proof.
  unfold highlight_link, link_doc. page_run. case_bool_decide; [reflexivity|]. by rewrite set_doc_id.
Qed.

Lemma link_doc_attr cp link d m a : get_attr (link_doc cp link d) m a = get_attr d m a.
Proof. unfold link_doc. case_bool_decide; [apply get_attr_classes | done]. Qed.

Lemma link_doc_elem cp link d m : is_Some (elem (link_doc cp link d) m) <-> is_Some (elem d m).
Proof. unfold link_doc. case_bool_decide; [apply is_Some_class_add | done]. Qed.

Lemma link_doc_class cp x d m c :
  is_Some (elem d x) ->
  has_class (link_doc cp x d) m c = true <->
  has_class d m c = true \/ (c = c_active /\ m = x /\ get_attr d x a_href = Some cp).
Proof.
  intros Hx. unfold link_doc. case_bool_decide as Ha; [|naive_solver].
  destruct (decide (x = m)) as [<-|Hne].
  - rewrite has_class_add_same, orb_true_iff, bool_decide_eq_true by done. naive_solver.
  - unfold class_add. rewrite has_class_update_ne by done. naive_solver.
Qed.

Lemma highlight_fold cp links d m c :
  (forall l, l ∈ links -> is_Some (elem d l)) ->
  has_class (foldl (fun d l => link_doc cp l d) d links) m c = true <->
  has_class d m c = true \/ (c = c_active /\ m ∈ links /\ get_attr d m a_href = Some cp).
Proof.
  revert d. induction links as [|x links IH]; intros d Hl; simpl.
  - split; [auto|]. intros [H|(_ & H & _)]; [done|by apply not_elem_of_nil in H].
  - rewrite IH.
    2:{ intros l Hl'. apply link_doc_elem, Hl. by apply elem_of_cons; right. }
    rewrite link_doc_class, link_doc_attr by (apply Hl; by apply elem_of_cons; left).
    rewrite elem_of_cons. naive_solver.
Qed.

(** C18. Highlighting never throws and adds a class [c] to an element
    exactly when [c] is [active], the element is one of the nav links
    and its [href] is the page name; it removes no class. *)
Theorem nav_highlight_spec pathname w m c :
  (forall l, l ∈ g_nav_links (w_g w) -> is_Some (elem (w_doc w) l)) ->
  snd (nav_highlight pathname w) = inr tt /\
  (has_class (w_doc (exec (nav_highlight pathname) w)) m c = true <->
   has_class (w_doc w) m c = true \/
   (c = c_active /\ m ∈ g_nav_links (w_g w) /\ get_attr (w_doc w) m a_href = Some (current_page pathname))).
Proof.
  intros Hl. unfold exec, nav_highlight. page_run.
  rewrite (for_each_run _ _ (link_doc (current_page pathname))) by apply highlight_link_run.
  cbn [fst snd]. rewrite set_doc_doc. split; [done|]. by apply highlight_fold.
Qed.

(** ** Witnesses *)

Lemma current_page_witness : current_page (js "/projects/about.html") = js "about.html".
Proof.
  apply (current_page_spec (js "/projects/") (js "about.html")).
  - vm_compute. intros H. repeat (apply elem_of_cons in H as [H|H]; [discriminate|]).
    by apply not_elem_of_nil in H.
  - right. exists (js "/projects"). reflexivity.
Defined.

Definition sample_nav_world : world :=
  World (mk_document [(1, mk_element (js "body") [] [] [] [] None);
                      (2, mk_element (js "nav") [] [] [] [] (Some 1));
                      (3, mk_element (js "a") [] [] [(a_href, js "index.html")] [] (Some 2));
                      (4, mk_element (js "a") [] [] [(a_href, js "about.html")] [] (Some 2))])
        ∅ (empty_queue 0) 0 0 [] [] (Globals 1 None [3; 4] None (Some 2) None None None None None [] [] [3; 4]) [].

Lemma nav_highlight_witness :
  has_class (w_doc (exec (nav_highlight (js "/about.html")) sample_nav_world)) 4 c_active = true.
Proof.
  destruct (nav_highlight_spec (js "/about.html") sample_nav_world 4 c_active) as [_ H].
  - intros l Hl. repeat (apply elem_of_cons in Hl as [->|Hl]; [vm_compute; by eexists|]).
    by apply not_elem_of_nil in Hl.
  - apply H. right. split_and!; [done | by do 1 apply elem_of_cons; right; left | vm_compute; reflexivity].
Defined.
