(* ===== verification/Typewriter.v ===== *)
(** * The typewriter effect of the hero title (lines 105-128 of [main.js])

    [typewriterEffect(element, text, speed)] clears the element and
    calls [type()], which appends the character at [i], increments [i]
    and sets a timer to call itself again after [speed] ms, until [i]
    reaches [text.length].  The closure's mutable [i] is the argument
    of the timer task [TypeNext el text i speed]: each timer carries
    the value [i] has when it fires; that only one such timer is ever
    pending is [System.typewriter_single_timer].  Lines 124-128 run it
    on [#hero-title] with its own text and a speed of 80.

    [type_step_more] and [type_step_done] give one step;
    [typewriter_start_spec] shows that the first character appears at
    once, not after one delay.  That the chain of timers ends with the
    whole text is shown in [EventLoop], where the timers run. *)

From S2P Require Import Prelude JsString ClassList Dom Timers World.

(** [type()] with the closure's [i] (lines 112-118). *)
Definition type_step (element : node) (text : jsstr) (i : nat) (speed : Z) : Page unit :=
  if bool_decide (i < length text) then
    cur <- read (fun d => text_of d element) ;;
    dom (fun d => set_text (cur ++ char_at text i) d element) ;;
    schedule speed (TypeNext element text (S i) speed)
  else ret tt.

(** [typewriterEffect(element, text, speed)], lines 106-121. *)
Definition typewriter_effect (element : option node) (text : jsstr) (speed : Z) : Page unit :=
  match element with
  | None => ret tt
  | Some el => dom (fun d => set_text [] d el) ;; type_step el text 0 speed
  end.

(** Lines 124-128, run once at load. *)
Definition typewriter_init : Page unit :=
  h <- glob g_hero_title ;;
  match h with
  | Some heroTitle =>
      originalText <- read (fun d => text_of d heroTitle) ;;
      typewriter_effect (Some heroTitle) originalText 80
  | None => ret tt
  end.

(** ** One step *)

Lemma type_step_more el text i speed w :
  i < length text ->
  type_step el text i speed w =
    (set_timers (set_timeout speed (TypeNext el text (S i) speed) (w_timers w))
       (set_doc (set_text (text_of (w_doc w) el ++ char_at text i) (w_doc w) el) w), inr tt).
Proof. intros Hi. unfold type_step. rewrite bool_decide_eq_true_2 by done. reflexivity. Qed.

Lemma type_step_done el text i speed w :
  length text <= i -> type_step el text i speed w = (w, inr tt).
Proof. intros Hi. unfold type_step. rewrite bool_decide_eq_false_2 by lia. reflexivity. Qed.

(** The text grows by the next character of [text]. *)
Lemma take_S_char_at (text : jsstr) i : i < length text -> take i text ++ char_at text i = take (S i) text.
Proof.
  intros Hi. destruct (lookup_lt_is_Some_2 text i Hi) as [c Hc].
  rewrite (char_at_lt _ _ _ Hc). by rewrite (take_S_r _ _ _ Hc).
Qed.

Lemma typewriter_effect_run el text speed w :
  is_Some (elem (w_doc w) el) -> text <> [] ->
  typewriter_effect (Some el) text speed w =
    (set_timers (set_timeout speed (TypeNext el text 1 speed) (w_timers w))
       (set_doc (set_text (take 1 text) (set_text [] (w_doc w) el) el) w), inr tt).
Proof.
  intros He Ht. unfold typewriter_effect. page_run.
  rewrite type_step_more by (destruct text; [done|simpl; lia]).
  autorewrite with js_run. rewrite text_of_set_text by done.
  rewrite <- (take_S_char_at text 0) by (destruct text; [done|simpl; lia]). reflexivity.
Qed.

(** C19. At load, a hero title with a non-empty text is emptied and
    at once shows its first character; one timer is set, [80] ms
    later, to type the second.  Nothing else but the title changes. *)
Theorem typewriter_start_spec el w :
  g_hero_title (w_g w) = Some el -> is_Some (elem (w_doc w) el) -> text_of (w_doc w) el <> [] ->
  snd (typewriter_init w) = inr tt /\
  text_of (w_doc (exec typewriter_init w)) el = take 1 (text_of (w_doc w) el) /\
  w_timers (exec typewriter_init w) =
    set_timeout 80 (TypeNext el (text_of (w_doc w) el) 1 80) (w_timers w) /\
  (forall m, m <> el -> elem (w_doc (exec typewriter_init w)) m = elem (w_doc w) m).
Proof.
  intros Hg He Ht. unfold exec, typewriter_init.
  rewrite (run_bind_ok _ _ _ _ _ (run_glob _ _)), Hg. cbv beta iota.
  rewrite (run_bind_ok _ _ _ _ _ (run_read _ _)). cbv beta.
  rewrite typewriter_effect_run by done. cbn [fst snd]. autorewrite with js_run.
  split_and!; try done.
  - by rewrite text_of_set_text by (by apply is_Some_set_text).
  - intros m Hm. unfold set_text. by rewrite !elem_update_ne.
Qed.

(** ** A sample page: body 1, hero title 2 with the text [Hi] *)

Definition sample_title_world : world :=
  World (set_text (js "Hi") (mk_document [(1, mk_element (js "body") [] [] [] [] None);
                                          (2, mk_element (js "h1") (js "hero-title") [] [] [] (Some 1))]) 2)
        ∅ (empty_queue 0) 0 0 [] [] (Globals 1 None [] None None None None (Some 2) None None [] [] []) [].

Lemma typewriter_start_witness :
  text_of (w_doc (exec typewriter_init sample_title_world)) 2 = js "H".
Proof.
  destruct (typewriter_start_spec 2 sample_title_world) as (_ & H & _);
    [reflexivity | vm_compute; by eexists | vm_compute; discriminate |].
  rewrite H. vm_compute. reflexivity.
Defined.
