(* ===== verification/PageLoad.v ===== *)
(** * Page load fade-in (lines 350-357) and page transitions (389-398)

    On [load] the body's opacity is set to [0] and a timer, 100 ms
    later, sets a transition and the opacity back to [1] ([on_load],
    [fade_in]).  A click on a [nav a] or a [.btn] whose [href] is set
    and starts with none of [#], [mailto:] and [http] dims the body to
    opacity [0.9] before the browser follows the link
    ([transition_click]). *)

From S2P Require Import Prelude JsString ClassList Dom Timers World.

Definition p_opacity_body : jsstr := js "opacity".

(** The [load] listener of lines 351-357. *)
Definition on_load : Page unit :=
  body <- glob g_body ;;
  dom (fun d => set_style p_opacity_body (js "0") d body) ;;
  schedule 100 FadeIn.

(** The timer callback of lines 353-356. *)
Definition fade_in : Page unit :=
  body <- glob g_body ;;
  dom (fun d => set_style (js "transition") (js "opacity 0.5s ease-in") d body) ;;
  dom (fun d => set_style p_opacity_body (js "1") d body).

(** The condition of line 393. *)
Definition leaves_page (href : option jsstr) : bool :=
  match href with
  | Some h => bool_decide (h <> []) && negb (starts_with h (js "#")) &&
              negb (starts_with h (js "mailto:")) && negb (starts_with h (js "http"))
  | None => false
  end.

(** The click listener of lines 391-396 on [link]. *)
Definition transition_click (link : node) : Page unit :=
  href <- read (fun d => get_attr d link (js "href")) ;;
  if leaves_page href then
    body <- glob g_body ;; dom (fun d => set_style p_opacity_body (js "0.9") d body)
  else ret tt.

(** ** Theorems *)

Lemma transition_click_run link w :
  transition_click link w =
    (if leaves_page (get_attr (w_doc w) link (js "href"))
     then set_doc (set_style p_opacity_body (js "0.9") (w_doc w) (g_body (w_g w))) w
     else w, inr tt).
Proof. unfold transition_click. page_run. by destruct (leaves_page _). Qed.

(** C20. A click on a nav link or button never throws; it sets the
    body's opacity to [0.9] exactly when the link has an [href] that is
    non-empty and starts with none of [#], [mailto:] and [http], and
    changes nothing else. *)
Theorem transition_click_spec link w :
  is_Some (elem (w_doc w) (g_body (w_g w))) ->
  snd (transition_click link w) = inr tt /\
  style_of (w_doc (exec (transition_click link) w)) (g_body (w_g w)) p_opacity_body =
    match get_attr (w_doc w) link (js "href") with
    | Some h =>
        if decide (h <> [] /\ ~ js "#" `prefix_of` h /\ ~ js "mailto:" `prefix_of` h /\
                   ~ js "http" `prefix_of` h)
        then js "0.9" else style_of (w_doc w) (g_body (w_g w)) p_opacity_body
    | None => style_of (w_doc w) (g_body (w_g w)) p_opacity_body
    end /\
  (forall m, m <> g_body (w_g w) -> elem (w_doc (exec (transition_click link) w)) m = elem (w_doc w) m) /\
  w_timers (exec (transition_click link) w) = w_timers w.
Proof.
  intros Hb. unfold exec. rewrite transition_click_run. cbn [fst snd].
  assert (Hl : forall d, leaves_page (get_attr d link (js "href")) =
    match get_attr d link (js "href") with
    | Some h => bool_decide (h <> [] /\ ~ js "#" `prefix_of` h /\ ~ js "mailto:" `prefix_of` h /\
                             ~ js "http" `prefix_of` h)
    | None => false end).
  { intros d. destruct (get_attr d link _) as [h|]; [|done]. unfold leaves_page, starts_with.
    repeat case_bool_decide; simpl; tauto. }
  rewrite Hl. destruct (get_attr _ _ _) as [h|]; [case_decide|]; cbn [negb andb];
    rewrite ?bool_decide_eq_true_2, ?bool_decide_eq_false_2 by done; autorewrite with js_run; split_and!; try done.
  - rewrite style_of_set_style, bool_decide_refl by done. reflexivity.
  - intros m Hm. by apply elem_update_ne.
Qed.

(** The load listener dims the body and sets the fade-in timer. *)
Lemma on_load_run w :
  on_load w = (set_timers (set_timeout 100 FadeIn (w_timers w))
                 (set_doc (set_style p_opacity_body (js "0") (w_doc w) (g_body (w_g w))) w), inr tt).
Proof. reflexivity. Qed.

Lemma fade_in_run w :
  fade_in w = (set_doc (set_style p_opacity_body (js "1")
                          (set_style (js "transition") (js "opacity 0.5s ease-in") (w_doc w) (g_body (w_g w)))
                          (g_body (w_g w))) w, inr tt).
Proof. reflexivity. Qed.

(** ** A sample page: body 1, a nav link 2 and a mail link 3 *)

Definition sample_links_world : world :=
  World (mk_document [(1, mk_element (js "body") [] [] [] [] None);
                      (2, mk_element (js "a") [] [] [(js "href", js "projects.html")] [] (Some 1));
                      (3, mk_element (js "a") [] [js "btn"] [(js "href", js "mailto:a@b.com")] [] (Some 1))])
        ∅ (empty_queue 0) 0 0 [] [] (Globals 1 None [2] None None None None None None None [] [] [2; 3]) [].

Lemma transition_click_witness :
  style_of (w_doc (exec (transition_click 2) sample_links_world)) 1 p_opacity_body = js "0.9" /\
  style_of (w_doc (exec (transition_click 3) sample_links_world)) 1 p_opacity_body = [].
Proof.
  destruct (transition_click_spec 2 sample_links_world) as (_ & H2 & _); [vm_compute; by eexists|].
  destruct (transition_click_spec 3 sample_links_world) as (_ & H3 & _); [vm_compute; by eexists|].
  split; [etransitivity; [apply H2|] | etransitivity; [apply H3|]]; vm_compute; reflexivity.
Defined.
