(* ===== verification/Reveal.v ===== *)
(** * Reveal on scroll and the skill bars (lines 130-165 and 359-387)

    One [IntersectionObserver] (line 136) watches every [.reveal] and
    every [.skill-item] (lines 157-164).  When a watched element enters
    the viewport its callback adds [visible], and for a skill item sets
    a timer that, 200 ms later, widens the item's first [.skill-bar] to
    its [data-width] percent; then it stops watching the element
    ([reveal_entry]).  Independently [animateSkillBars] (lines 360-381)
    creates, for every [.skill-bar] inside a [.skill-item], an observer
    of that item that sets the same width 300 ms after the item enters
    the viewport and then stops watching it ([bar_entry]).

    Which elements intersect the viewport is layout, an input here: a
    delivery is a list of [entry]s, and the browser delivers entries
    only for the targets an observer watches ([deliver_main],
    [deliver_bar]).  [w_observed] holds the targets of the first
    observer, [w_bar_observed] the observers of line 367 with the bar
    and width they capture and the item they still watch. *)

From S2P Require Import Prelude JsString ClassList Dom Timers World.

Definition c_visible : token := js "visible".
Definition c_reveal : token := js "reveal".
Definition c_skill_item : token := js "skill-item".
Definition c_skill_bar : token := js "skill-bar".
Definition a_data_width : jsstr := js "data-width".

(** An [IntersectionObserverEntry]: its target and [isIntersecting]. *)
Record entry := Entry { e_target : node; e_intersecting : bool }.

(** [observer.observe(el)]: watching a watched target changes nothing. *)
Definition observe_target (el : node) : Page unit :=
  l <- get_observed ;; if bool_decide (el ∈ l) then ret tt else set_observed (l ++ [el]).

(** [observer.unobserve(el)] *)
Definition unobserve_target (el : node) : Page unit :=
  l <- get_observed ;; set_observed (filter (fun m => m <> el) l).

(** [skillBar.getAttribute("data-width") || "0"] (lines 145 and 365) *)
Definition bar_width (d : document) (bar : node) : jsstr := or_default (get_attr d bar a_data_width) (js "0").

(** The timer callback of lines 147-148 and 371-372. *)
Definition set_width (bar : node) (width : jsstr) : Page unit :=
  dom (fun d => set_style (js "width") (width ++ js "%") d bar).

(** The [forEach] callback of lines 138-152. *)
Definition reveal_entry (entry : entry) : Page unit :=
  if e_intersecting entry then
    let t := e_target entry in
    dom (fun d => class_add c_visible d t) ;;
    isSkill <- read (fun d => has_class d t c_skill_item) ;;
    (if isSkill then
       sb <- read (fun d => query_in d t (Sel None [ByClass c_skill_bar])) ;;
       match sb with
       | Some skillBar =>
           width <- read (fun d => bar_width d skillBar) ;;
           schedule 200 (SetWidth skillBar width)
       | None => ret tt
       end
     else ret tt) ;;
    unobserve_target t
  else ret tt.

(** The observer callback of lines 136-154. *)
Definition reveal_callback (entries : list entry) : Page unit := for_each entries reveal_entry.

(** The browser calls the callback with the entries of watched targets. *)
Definition deliver_main (entries : list entry) : Page unit :=
  l <- get_observed ;;
  reveal_callback (filter (fun e => e_target e ∈ l) entries).

(** Lines 157-164. *)
Definition reveal_init : Page unit :=
  rs <- read (fun d => query_all d (Sel None [ByClass c_reveal])) ;;
  for_each rs observe_target ;;
  ss <- read (fun d => query_all d (Sel None [ByClass c_skill_item])) ;;
  for_each ss observe_target.

(** ** The skill-bar observers of [animateSkillBars] *)

(** [new IntersectionObserver(...).observe(skillItem)] of lines 367-380. *)
Definition bar_observe (bar : node) (width : jsstr) (item : node) : Page unit :=
  l <- get_bar_observed ;; set_bar_observed (l ++ [(bar, width, item)]).

(** The [forEach] callback of [bar]'s observer, lines 369-375. *)
Definition bar_entry (bar : node) (width : jsstr) (entry : entry) : Page unit :=
  if e_intersecting entry then
    schedule 300 (SetWidth bar width) ;;
    l <- get_bar_observed ;;
    set_bar_observed (filter (fun o => o <> (bar, width, e_target entry)) l)
  else ret tt.

(** The browser calls [bar]'s observer with the entries of the item it
    still watches. *)
Definition deliver_bar (bar : node) (entries : list entry) : Page unit :=
  l <- get_bar_observed ;;
  match find (fun o => bool_decide (o.1.1 = bar)) l with
  | Some (_, width, item) => for_each (filter (fun e => e_target e = item) entries) (bar_entry bar width)
  | None => ret tt
  end.

(** [animateSkillBars()], lines 360-381. *)
Definition animate_skill_bars : Page unit :=
  bars <- read (fun d => query_all d (Sel None [ByClass c_skill_bar])) ;;
  for_each bars (fun bar =>
    si <- read (fun d => closest d bar (Sel None [ByClass c_skill_item])) ;;
    match si with
    | None => ret tt
    | Some skillItem =>
        width <- read (fun d => bar_width d bar) ;;
        bar_observe bar width skillItem
    end).

(** ** Run equations *)

(** The timers after the callback for an intersecting target [t]. *)
Definition reveal_timers (d : document) (t : node) (q : queue task) : queue task :=
  if has_class d t c_skill_item then
    match query_in d t (Sel None [ByClass c_skill_bar]) with
    | Some b => set_timeout 200 (SetWidth b (bar_width d b)) q
    | None => q
    end
  else q.

Lemma reveal_entry_run e w :
  e_intersecting e = true ->
  reveal_entry e w =
    (World (class_add c_visible (w_doc w) (e_target e)) (w_storage w)
           (reveal_timers (class_add c_visible (w_doc w) (e_target e)) (e_target e) (w_timers w))
           (w_scroll w) (w_last_scroll w) (filter (fun m => m <> e_target e) (w_observed w))
           (w_bar_observed w) (w_g w) (w_console w), inr tt).
Proof.
  intros He. unfold reveal_entry, reveal_timers. rewrite He. page_run.
  destruct (has_class _ (e_target e) c_skill_item); page_run; [destruct (query_in _ _ _)|]; page_run; reflexivity.
Qed.

Lemma reveal_entry_skip e w : e_intersecting e = false -> reveal_entry e w = (w, inr tt).
Proof. intros He. unfold reveal_entry. by rewrite He. Qed.

(** The callback never throws, and stops watching the targets of its
    intersecting entries. *)
Lemma reveal_callback_observed es w :
  snd (reveal_callback es w) = inr tt /\
  w_observed (exec (reveal_callback es) w) =
    filter (fun m => m ∉ e_target <$> filter (fun e => e_intersecting e = true) es) (w_observed w).
Proof.
  unfold exec, reveal_callback. revert w. induction es as [|e es IH]; intros w; cbn [for_each].
  - split; [done|]. symmetry. apply filter_all_true. intros m _. apply not_elem_of_nil.
  - unfold bind. destruct (e_intersecting e) eqn:He.
    + rewrite reveal_entry_run by done. rewrite (proj1 (IH _)), (proj2 (IH _)). split; [done|].
      cbn [w_observed]. rewrite list.filter_cons_True by done. rewrite list_filter_filter.
      apply list_filter_iff. intros m. rewrite fmap_cons, not_elem_of_cons. naive_solver.
    + rewrite reveal_entry_skip by done. rewrite (proj1 (IH _)), (proj2 (IH _)). split; [done|].
      rewrite list.filter_cons_False; [done|]. by rewrite He.
Qed.

(** ** The reveal theorems *)

(** C21. An element is revealed at most once: after a delivery of an
    intersecting entry for [t], later deliveries of entries for [t]
    change nothing, since [t] is no longer watched. *)
Theorem reveal_at_most_once t w es :
  (forall e, e ∈ es -> e_target e = t) ->
  deliver_main es (exec (deliver_main [Entry t true]) w) = (exec (deliver_main [Entry t true]) w, inr tt).
Proof.
  intros Hes.
  assert (Ht : t ∉ w_observed (exec (deliver_main [Entry t true]) w)).
  { unfold exec, deliver_main. rewrite (run_bind_ok _ _ _ _ _ (run_get_observed _)). cbv beta.
    destruct (decide (t ∈ w_observed w)) as [Hin|Hin].
    - rewrite filter_all_true by (by intros e ->%list_elem_of_singleton).
      pose proof (reveal_callback_observed [Entry t true] w) as [_ H]. unfold exec in H. rewrite H.
      intros (Hn & _)%list_elem_of_filter. apply Hn. simpl. by left.
    - rewrite filter_all_false by (intros e ->%list_elem_of_singleton; exact Hin). exact Hin. }
  unfold deliver_main at 1. page_run. rewrite filter_all_false; [reflexivity|].
  intros e He Hin. apply Ht. rewrite (Hes e He) in Hin. exact Hin.
Qed.

(** ** Two observers for one skill bar *)

Lemma visible_skill_ne : c_skill_item <> c_visible.
Proof. lit_neq. Qed.
Lemma visible_bar_ne : c_skill_bar <> c_visible.
Proof. lit_neq. Qed.

Lemma reveal_timers_skill d s b q :
  has_class d s c_skill_item = true -> query_in d s (Sel None [ByClass c_skill_bar]) = Some b ->
  reveal_timers (class_add c_visible d s) s q = set_timeout 200 (SetWidth b (bar_width d b)) q.
Proof.
  intros Hs Hq. unfold reveal_timers.
  rewrite has_class_add_ne, Hs, query_in_class_add, Hq by auto using visible_skill_ne, visible_bar_ne.
  unfold bar_width. by rewrite get_attr_class_add.
Qed.

(** A delivery of one intersecting entry for a watched target runs the
    callback on it. *)
Lemma deliver_main_one t w :
  t ∈ w_observed w -> deliver_main [Entry t true] w = reveal_entry (Entry t true) w.
Proof.
  intros Ht. unfold deliver_main. rewrite (run_bind_ok _ _ _ _ _ (run_get_observed _)). cbv beta.
  rewrite filter_all_true by (intros e ->%list_elem_of_singleton; exact Ht).
  unfold reveal_callback. cbn [for_each].
  rewrite (run_bind_ok _ _ _ _ _ (reveal_entry_run (Entry t true) w eq_refl)).
  rewrite reveal_entry_run by done. reflexivity.
Qed.

Lemma deliver_bar_one b wd s w :
  find (fun o => bool_decide (o.1.1 = b)) (w_bar_observed w) = Some (b, wd, s) ->
  w_timers (exec (deliver_bar b [Entry s true]) w) = set_timeout 300 (SetWidth b wd) (w_timers w).
Proof.
  intros Hf. unfold exec, deliver_bar. rewrite (run_bind_ok _ _ _ _ _ (run_get_bar_observed _)). cbv beta.
  rewrite Hf. rewrite filter_all_true by (by intros e ->%list_elem_of_singleton). reflexivity.
Qed.

(** C22. A skill bar's width is set twice: when its skill item enters
    the viewport, the reveal observer and then the bar's own observer
    each set a timer that writes the same width, due 200 and 300 ms
    after the delivery. *)
Theorem skill_bar_set_twice s b w :
  s ∈ w_observed w -> has_class (w_doc w) s c_skill_item = true ->
  query_in (w_doc w) s (Sel None [ByClass c_skill_bar]) = Some b ->
  find (fun o => bool_decide (o.1.1 = b)) (w_bar_observed w) = Some (b, bar_width (w_doc w) b, s) ->
  pending (w_timers (exec (deliver_bar b [Entry s true]) (exec (deliver_main [Entry s true]) w))) =
  pending (w_timers w) ++
    [Timer (now (w_timers w) + 200) (next_id (w_timers w)) (SetWidth b (bar_width (w_doc w) b));
     Timer (now (w_timers w) + 300) (S (next_id (w_timers w))) (SetWidth b (bar_width (w_doc w) b))].
Proof.
  intros Hs Hsk Hq Hf.
  assert (E : exec (deliver_main [Entry s true]) w =
              World (class_add c_visible (w_doc w) s) (w_storage w)
                    (set_timeout 200 (SetWidth b (bar_width (w_doc w) b)) (w_timers w))
                    (w_scroll w) (w_last_scroll w) (filter (fun m => m <> s) (w_observed w))
                    (w_bar_observed w) (w_g w) (w_console w)).
  { unfold exec. rewrite deliver_main_one, reveal_entry_run by done. cbn [fst e_target].
    by rewrite (reveal_timers_skill _ _ b). }
  rewrite E, (deliver_bar_one b (bar_width (w_doc w) b) s) by done. cbn [w_timers].
  unfold set_timeout. cbn [pending now next_id]. by rewrite <- app_assoc.
Qed.

(** ** A sample page: a [.reveal] section 2, a skill item 3 with its bar 4 *)

Definition sample_reveal_doc : document :=
  mk_document [(1, mk_element (js "body") [] [] [] [] None);
               (2, mk_element (js "section") [] [js "reveal"] [] [] (Some 1));
               (3, mk_element (js "div") [] [js "skill-item"] [] [] (Some 1));
               (4, mk_element (js "div") [] [js "skill-bar"] [(a_data_width, js "90")] [] (Some 3))].

Definition sample_reveal_world : world :=
  World sample_reveal_doc ∅ (empty_queue 0) 0 0 [2; 3] [(4, js "90", 3)]
        (Globals 1 None [] None None None None None None None [] [] []) [].

Lemma reveal_at_most_once_witness :
  deliver_main [Entry 2 true] (exec (deliver_main [Entry 2 true]) sample_reveal_world) =
    (exec (deliver_main [Entry 2 true]) sample_reveal_world, inr tt).
Proof. apply reveal_at_most_once. by intros e ->%list_elem_of_singleton. Defined.

Lemma skill_bar_set_twice_witness :
  pending (w_timers (exec (deliver_bar 4 [Entry 3 true])
                        (exec (deliver_main [Entry 3 true]) sample_reveal_world))) =
  [Timer 200 0 (SetWidth 4 (js "90")); Timer 300 1 (SetWidth 4 (js "90"))].
Proof.
  rewrite (skill_bar_set_twice 3 4 sample_reveal_world).
  - vm_compute. reflexivity.
  - simpl. set_solver.
  - vm_compute. reflexivity.
  - vm_compute. reflexivity.
  - vm_compute. reflexivity.
Defined.
