(* ===== verification/Console.v ===== *)
(** * The console easter egg (lines 400-402 of [main.js])

    The last two statements of the script write two styled messages to
    the console; nothing reads the console.  [easter_egg] appends the
    arguments of both [console.log] calls to [w_console], the page's
    console output.  The first message starts with U+1F44B (waving
    hand), two UTF-16 code units.  The order of these logs and
    [animateSkillBars()] depends on [document.readyState] (lines
    383-387); [System.script] models both orders. *)

From S2P Require Import Prelude JsString ClassList Dom Timers World.

Definition waving_hand : jsstr := [55357; 56395]%Z.

Definition egg_message : jsstr := js "%c" ++ waving_hand ++ js " Hi there! Interested in the code?".
Definition egg_style : jsstr := js "color: #6366f1; font-size: 16px; font-weight: bold;".
Definition source_message : jsstr :=
  js "%cCheck out the source code on GitHub: https://github.com/anthonyriccelli1/anthony-portfolio".
Definition source_style : jsstr := js "color: #8b5cf6; font-size: 12px;".

(** Lines 401-402. *)
Definition easter_egg : Page unit :=
  console_log [egg_message; egg_style] ;; console_log [source_message; source_style].

(** ** Theorems *)

Lemma easter_egg_run w :
  easter_egg w = (with_console (w_console w ++ [[egg_message; egg_style]; [source_message; source_style]]) w, inr tt).
Proof. unfold easter_egg, console_log, bind, modify. simpl. by rewrite <- app_assoc. Qed.
