(* ===== verification/Anchors.v ===== *)
(** * Smooth scrolling of same-page anchors (lines 167-182 of [main.js])

    Every [a[href^="#"]] present at load gets a click listener.  When
    its [href] is not ["#"] and longer than one character, the listener
    passes the [href] itself to [document.querySelector] as a CSS
    selector; when an element matches, it prevents the default
    navigation and scrolls the element into view.  [anchor_click]
    returns whether the default was prevented.

    How [querySelector] reads the [href] ([parse_fragment]):
    - [#] followed by CSS name characters (ASCII letters and digits,
      [-], [_], and code units above [0x7F]) is an id selector exactly
      when the name is a CSS identifier ([css_ident]: it does not start
      with a digit, nor with [-] and a digit, and is not just [-]);
      otherwise [querySelector] throws a [SyntaxError];
    - a fragment with a character that is neither a name character nor
      one that can continue a selector ([selector_char]: whitespace,
      combinators, [.], [:], [#], [*], [&], [|], square brackets, the
      escape backslash, U+0000) tokenizes to a delimiter, string or
      parenthesis that no selector
      admits there, so [querySelector] throws ([#/about], [#page=2]);
    - a fragment with a [selector_char] makes a compound, complex or
      escaped selector whose parsing is not modelled: [parse_fragment]
      returns [FragOther] and the listener is taken not to match.
    The scroll itself is layout and is not modelled. *)

From S2P Require Import Prelude JsString ClassList Dom Timers World.

Definition hash : Z := 35.

Definition is_digit (c : Z) : bool := (48 <=? c)%Z && (c <=? 57)%Z.
Definition is_letter (c : Z) : bool := ((97 <=? c)%Z && (c <=? 122)%Z) || ((65 <=? c)%Z && (c <=? 90)%Z).

(** CSS name-start and name code points, without escapes. *)
Definition name_start (c : Z) : bool := is_letter c || (c =? 95)%Z || (128 <=? c)%Z.
Definition name_char (c : Z) : bool := name_start c || is_digit c || (c =? 45)%Z.

(** A CSS identifier made of name code points. *)
Definition css_ident (s : jsstr) : bool :=
  forallb name_char s &&
  match s with
  | c :: r =>
      name_start c ||
      ((c =? 45)%Z && match r with c2 :: _ => name_start c2 || (c2 =? 45)%Z | [] => false end)
  | [] => false
  end.

(** Code units that can continue a selector after [#name]: U+0000
    (read as U+FFFD, a name character), whitespace, [#], [&], [*], [+],
    [,], [.], [:], [>], [|], [~], the square brackets of an attribute
    selector and the backslash of an escape.  Every other code
    unit outside the name characters is a token no selector admits
    without one of these before it. *)
Definition selector_char (c : Z) : bool :=
  existsb (Z.eqb c) [0; 9; 10; 12; 13; 32; 35; 38; 42; 43; 44; 46; 58; 62; 91; 92; 93; 124; 126]%Z.

Inductive fragment_sel :=
  | FragId (i : jsstr)      (** [#i], an id selector *)
  | FragInvalid             (** not a selector: [querySelector] throws *)
  | FragOther.              (** selector syntax: not modelled *)

(** How [document.querySelector] reads the [href]. *)
Definition parse_fragment (href : jsstr) : fragment_sel :=
  match href with
  | c :: name =>
      if (c =? hash)%Z then
        if forallb name_char name then (if css_ident name then FragId name else FragInvalid)
        else if existsb selector_char name then FragOther else FragInvalid
      else FragOther
  | [] => FragOther
  end.

(** The click listener of lines 169-180, on [anchor]. *)
Definition anchor_click (anchor : node) : Page bool :=
  href <- read (fun d => get_attr d anchor (js "href")) ;;
  h <- deref href "href.length" ;;
  if bool_decide (h <> js "#") && (1 <? length h) then
    match parse_fragment h with
    | FragId i =>
        target <- read (fun d => query d (Sel None [ById i])) ;;
        ret (bool_decide (is_Some target))
    | FragInvalid => throw (SyntaxError "querySelector")
    | FragOther => ret false
    end
  else ret false.

(** ** Theorems *)

Lemma parse_fragment_name name :
  forallb name_char name = true ->
  parse_fragment (hash :: name) = if css_ident name then FragId name else FragInvalid.
Proof. intros H. unfold parse_fragment. by rewrite Z.eqb_refl, H. Qed.

Lemma parse_fragment_bad_char name :
  forallb name_char name = false -> existsb selector_char name = false ->
  parse_fragment (hash :: name) = FragInvalid.
Proof. intros H1 H2. unfold parse_fragment. by rewrite Z.eqb_refl, H1, H2. Qed.

Lemma anchor_click_run anchor name w :
  get_attr (w_doc w) anchor (js "href") = Some (hash :: name) -> name <> [] ->
  anchor_click anchor w =
    match parse_fragment (hash :: name) with
    | FragId i => (w, inr (bool_decide (is_Some (query (w_doc w) (Sel None [ById i])))))
    | FragInvalid => (w, inl (SyntaxError "querySelector"))
    | FragOther => (w, inr false)
    end.
Proof.
  intros Hh Hn. unfold anchor_click. page_run. rewrite Hh. page_run.
  rewrite bool_decide_eq_true_2 by (intros E; destruct name; [done|]; discriminate E).
  replace (1 <? length (hash :: name)) with true by (destruct name; [done|]; reflexivity).
  cbn [andb]. unfold parse_fragment. rewrite Z.eqb_refl.
  destruct (forallb name_char name); [destruct (css_ident name)|destruct (existsb selector_char name)]; reflexivity.
Qed.

(** C24. A link whose fragment is not a selector makes
    [querySelector] throw, so the click neither scrolls nor prevents
    the default, and the page does not change: a fragment made of name
    characters that is not a CSS identifier ([#2024-talks], [#-1]), or
    one with a character that no selector admits and no selector syntax
    ([#/about], [#page=2]). *)
Theorem anchor_invalid_id_throws anchor name w :
  get_attr (w_doc w) anchor (js "href") = Some (hash :: name) -> name <> [] ->
  (forallb name_char name = true /\ css_ident name = false) \/
  (forallb name_char name = false /\ existsb selector_char name = false) ->
  anchor_click anchor w = (w, inl (SyntaxError "querySelector")).
Proof.
  intros Hh Hn Hbad. rewrite (anchor_click_run _ name) by done.
  destruct Hbad as [[Hc Hi] | [Hc Hs]]; [by rewrite parse_fragment_name, Hi | by rewrite parse_fragment_bad_char].
Qed.

(** C25. For a fragment that is a CSS identifier the click changes
    nothing and prevents the default exactly when an element has that
    id; a bare [#] never prevents it. *)
Theorem anchor_click_spec anchor name w :
  get_attr (w_doc w) anchor (js "href") = Some (hash :: name) -> css_ident name = true ->
  anchor_click anchor w = (w, inr (bool_decide (is_Some (get_by_id (w_doc w) name)))).
Proof.
  intros Hh Hi. assert (Hn : name <> []) by (by intros ->).
  assert (Hc : forallb name_char name = true) by (unfold css_ident in Hi; by apply andb_true_iff in Hi as [? _]).
  rewrite (anchor_click_run _ name) by done. rewrite parse_fragment_name, Hi by done.
  unfold get_by_id. by destruct name.
Qed.

Lemma anchor_bare_hash anchor w :
  get_attr (w_doc w) anchor (js "href") = Some (js "#") -> anchor_click anchor w = (w, inr false).
Proof. intros Hh. unfold anchor_click. page_run. rewrite Hh. page_run. reflexivity. Qed.

(** ** A sample page: section 2 with id [about], links 3 and 4 *)

Definition sample_anchor_world : world :=
  World (mk_document [(1, mk_element (js "body") [] [] [] [] None);
                      (2, mk_element (js "section") (js "about") [] [] [] (Some 1));
                      (3, mk_element (js "a") [] [] [(js "href", js "#about")] [] (Some 1));
                      (4, mk_element (js "a") [] [] [(js "href", js "#2024-talks")] [] (Some 1));
                      (5, mk_element (js "a") [] [] [(js "href", js "#/about")] [] (Some 1))])
        ∅ (empty_queue 0) 0 0 [] [] (Globals 1 None [] None None None None None None None [] [3; 4; 5] []) [].

Lemma anchor_invalid_id_witness :
  anchor_click 4 sample_anchor_world = (sample_anchor_world, inl (SyntaxError "querySelector")) /\
  anchor_click 5 sample_anchor_world = (sample_anchor_world, inl (SyntaxError "querySelector")).
Proof.
  split.
  - apply (anchor_invalid_id_throws 4 (js "2024-talks")); [vm_compute; reflexivity | discriminate | left; vm_compute; done].
  - apply (anchor_invalid_id_throws 5 (js "/about")); [vm_compute; reflexivity | discriminate | right; vm_compute; done].
Defined.

Lemma anchor_click_witness : anchor_click 3 sample_anchor_world = (sample_anchor_world, inr true).
Proof.
  rewrite (anchor_click_spec 3 (js "about")); [|vm_compute; reflexivity..]. vm_compute. reflexivity.
Defined.
