(* ===== verification/EventLoop.v ===== *)
(** * The event loop: timers, user events and the whole page

    The browser runs the script's handlers one at a time.  A turn of
    the loop either fires the earliest due timer ([tick]), lets time
    pass up to the next due timer ([wait]), or dispatches a user event
    to the listeners the script registered ([dispatch]).  An exception
    a listener or a timer callback throws is reported and ends only
    that callback: the state it changed before throwing stays, and the
    loop goes on ([isolate]).

    [run_task] maps each [task] to the callback of [main.js] it stands
    for; [run_timers n] runs at most [n] timers.  The listeners of a
    user event are those the script registers, one definition per
    [addEventListener], in registration order. *)

From S2P Require Import Prelude JsString ClassList Dom Timers World.
From S2P Require Import ContactForm Theme Scroll MobileMenu Nav Typewriter PageLoad Reveal Anchors.

(** The callback a timer runs. *)
Definition run_task (t : task) : Page unit :=
  match t with
  | TypeNext el text i speed => type_step el text i speed
  | SetWidth bar width => set_width bar width
  | FormSent => form_sent
  | HideMessage => hide_message
  | FadeIn => fade_in
  end.

(** A callback's exception is reported; its changes stay. *)
Definition isolate (m : Page unit) : Page unit := fun w => (fst (m w), inr tt).

(** One turn that runs a timer: the earliest one fires at its due time. *)
Definition tick (w : world) : option world :=
  match fire (w_timers w) with
  | None => None
  | Some (x, q) => Some (fst (run_task (t_task x) (set_timers q w)))
  end.

(** Run timers until none is pending, at most [fuel] of them. *)
Fixpoint run_timers (fuel : nat) (w : world) : world :=
  match fuel with
  | 0 => w
  | S n => match tick w with None => w | Some w' => run_timers n w' end
  end.

(** Time passes without a timer firing: the clock moves to [t], not
    beyond the next due timer. *)
Definition wait (t : Z) (w : world) : option world :=
  if bool_decide ((now (w_timers w) <= t)%Z /\ Forall (fun x => (t <= t_due x)%Z) (pending (w_timers w)))
  then Some (set_timers (Queue t (next_id (w_timers w)) (pending (w_timers w))) w)
  else None.

(** ** Runs of a single timer *)

Lemma fire_single {T : Type} (q : queue T) (x : timer T) :
  pending q = [x] -> fire q = Some (x, Queue (t_due x) (next_id q) []).
Proof.
  intros Hq. unfold fire, next_timer. rewrite Hq. simpl.
  rewrite list.filter_cons_False by (intros []; done). reflexivity.
Qed.

Lemma tick_single w x :
  pending (w_timers w) = [x] ->
  tick w = Some (fst (run_task (t_task x) (set_timers (Queue (t_due x) (next_id (w_timers w)) []) w))).
Proof. intros Hq. unfold tick. by rewrite (fire_single _ x Hq). Qed.

Lemma tick_none w : pending (w_timers w) = [] -> tick w = None.
Proof. intros Hq. unfold tick, fire, next_timer. by rewrite Hq. Qed.

Lemma run_timers_idle n w : pending (w_timers w) = [] -> run_timers n w = w.
Proof. intros Hq. destruct n; simpl; [done|]. by rewrite tick_none. Qed.

(** ** The typewriter types the whole text *)

(** The page while the typewriter types [text] into [el]: the only
    pending timer types position [i] at time [due], and [el] shows the
    first [i] characters. *)
Definition typing (el : node) (text : jsstr) (speed : Z) (i : nat) (due : Z) (w : world) : Prop :=
  (exists id, pending (w_timers w) = [Timer due id (TypeNext el text i speed)]) /\
  is_Some (elem (w_doc w) el) /\ text_of (w_doc w) el = take i text.

Lemma tick_typing el text speed i due w :
  i < length text -> typing el text speed i due w ->
  exists w', tick w = Some w' /\ typing el text speed (S i) (due + Z.max 0 speed) w' /\
             now (w_timers w') = due.
Proof.
  intros Hi ([id Hq] & He & Ht). rewrite (tick_single _ _ Hq). eexists. split; [reflexivity|].
  cbn [run_task t_task]. rewrite type_step_more by done. cbn [fst].
  unfold typing. autorewrite with js_run. split_and!.
  - eexists. reflexivity.
  - by apply is_Some_set_text.
  - rewrite text_of_set_text by done. rewrite Ht. by apply take_S_char_at.
  - done.
Qed.

Lemma tick_typing_done el text speed due w :
  typing el text speed (length text) due w ->
  exists w', tick w = Some w' /\ pending (w_timers w') = [] /\ w_doc w' = w_doc w /\
             now (w_timers w') = due.
Proof.
  intros ([id Hq] & He & Ht). rewrite (tick_single _ _ Hq). eexists. split; [reflexivity|].
  cbn [run_task t_task]. rewrite type_step_done by done. done.
Qed.

(** C23. Once typing has started, [length text - i + 1] timer turns
    finish it: the element shows the whole text, no timer is left, and
    the clock reads one delay per remaining character after the
    pending timer's due time. *)
Theorem typewriter_completes el text speed i due w n :
  typing el text speed i due w -> i <= length text -> length text - i < n ->
  text_of (w_doc (run_timers n w)) el = text /\ pending (w_timers (run_timers n w)) = [] /\
  now (w_timers (run_timers n w)) = (due + Z.of_nat (length text - i) * Z.max 0 speed)%Z.
Proof.
  remember (length text - i) as k eqn:Ek. revert i due w n Ek.
  induction k as [|k IH]; intros i due w n Ek Hty Hi Hn.
  - assert (i = length text) as -> by lia. destruct n as [|n]; [lia|].
    destruct (tick_typing_done _ _ _ _ _ Hty) as (w' & Ht & Hq & Hd & Hnow).
    simpl. rewrite Ht, run_timers_idle by done. split_and!; [|done|lia].
    destruct Hty as (_ & _ & Htx). by rewrite Hd, Htx, firstn_all.
  - destruct n as [|n]; [lia|].
    destruct (tick_typing el text speed i due w) as (w' & Ht & Hty' & _); [lia|done|].
    simpl. rewrite Ht. destruct (IH (S i) (due + Z.max 0 speed)%Z w' n) as (H1 & H2 & H3); [lia|done|lia|lia|].
    split_and!; [done|done|]. rewrite H3. lia.
Qed.

Lemma typewriter_completes_witness :
  text_of (w_doc (run_timers 2 (exec typewriter_init sample_title_world))) 2 = js "Hi".
Proof.
  destruct (typewriter_completes 2 (js "Hi") 80 1 80 (exec typewriter_init sample_title_world) 2)
    as (H & _ & _).
  - split; [exists 0; vm_compute; reflexivity|]. split; [vm_compute; by eexists | vm_compute; reflexivity].
  - simpl. lia.
  - simpl. lia.
  - exact H.
Defined.

(** ** User events and their listeners *)

(** [window.pageYOffset] after the user scrolls. *)
Definition set_scroll (z : Z) : Page unit :=
  modify (fun w => World (w_doc w) (w_storage w) (w_timers w) z (w_last_scroll w)
                         (w_observed w) (w_bar_observed w) (w_g w) (w_console w)).

Inductive event :=
  | EvScroll (offset : Z)                 (** the window scrolls to [offset] *)
  | EvClick (target : node)               (** a click on [target], bubbling *)
  | EvSubmit                              (** the contact form is submitted *)
  | EvBlur (field : node)                 (** a field loses the focus *)
  | EvType (field : node) (value : jsstr) (** the user edits a field *)
  | EvIntersect (entries : list entry)    (** the observer of line 136 reports *)
  | EvIntersectBar (bar : node) (entries : list entry)  (** [bar]'s observer reports *)
  | EvLoad.                               (** the window's [load] event *)

(** The click listeners the script adds to [n], one definition per
    registration, with the guard the script tests before adding it. *)

(** Line 33, inside [if (mobileMenuToggle)]. *)
Definition toggle_listeners (g : globals) (n : node) : list (Page unit) :=
  if bool_decide (g_toggle g = Some n) then [menu_toggle_click n] else [].

(** Lines 49-50: every [nav a], still inside [if (mobileMenuToggle)]. *)
Definition nav_link_listeners (g : globals) (n : node) : list (Page unit) :=
  match g_toggle g with
  | Some t => if bool_decide (n ∈ g_nav_links g) then [menu_link_click t] else []
  | None => []
  end.

(** Lines 81-82. *)
Definition theme_listeners (g : globals) (n : node) : list (Page unit) :=
  if bool_decide (g_theme_btn g = Some n) then [theme_click] else [].

(** Lines 168-169: the listener's return value is whether it prevented
    the default, which no other listener reads. *)
Definition anchor_listeners (g : globals) (n : node) : list (Page unit) :=
  if bool_decide (n ∈ g_anchors g) then [_ <- anchor_click n ;; ret tt] else [].

(** Lines 390-391. *)
Definition transition_listeners (g : globals) (n : node) : list (Page unit) :=
  if bool_decide (n ∈ g_transition_links g) then [transition_click n] else [].

(** The click listeners of [n] in the order the script adds them. *)
Definition click_listeners (g : globals) (n : node) : list (Page unit) :=
  toggle_listeners g n ++ nav_link_listeners g n ++ theme_listeners g n ++
  anchor_listeners g n ++ transition_listeners g n.

(** A click reaches the target, then each ancestor. *)
Definition dispatch_click (target : node) : Page unit :=
  path <- read (fun d => target :: ancestors d target) ;;
  g <- glob (fun g => g) ;;
  for_each path (fun n => for_each (click_listeners g n) isolate).

(** Lines 188-189: the form's [submit] listener, added when the form
    exists. *)
Definition submit_listener : Page unit :=
  f <- glob g_form ;;
  match f with Some form => isolate (submit form) | None => ret tt end.

(** Lines 251-252: a listener of the form's fields, [h] being the
    [blur] (line 253) or [input] (line 257) handler. *)
Definition field_listener (h : node -> Page unit) (n : node) : Page unit :=
  ins <- glob g_form_inputs ;;
  if bool_decide (n ∈ ins) then isolate (h n) else ret tt.

(** The window's two [scroll] listeners run in the order they were
    added: line 16, then line 341. *)
Definition dispatch (e : event) : Page unit :=
  match e with
  | EvScroll z => set_scroll z ;; isolate on_scroll_header ;; isolate on_scroll_parallax
  | EvClick t => dispatch_click t
  | EvSubmit => submit_listener
  | EvBlur n => field_listener on_blur n
  | EvType n v => dom (fun d => set_value v d n) ;; field_listener on_input n
  | EvIntersect es => isolate (deliver_main es)
  | EvIntersectBar b es => isolate (deliver_bar b es)
  | EvLoad => isolate on_load
  end.

(** ** A scroll event runs both scroll listeners *)

Lemma scroll_event w h z :
  g_header (w_g w) = Some h -> is_Some (elem (w_doc w) h) ->
  let w' := exec (dispatch (EvScroll z)) w in
  w_g w' = w_g w /\ is_Some (elem (w_doc w') h) /\ w_last_scroll w' = z /\
  has_class (w_doc w') h c_scrolled = (50 <? z)%Z /\
  (forall c, c <> c_scrolled -> has_class (w_doc w') h c = has_class (w_doc w) h c).
Proof.
  intros Hh He. unfold exec, dispatch, set_scroll, isolate, bind, modify. cbn [fst snd].
  rewrite (scroll_header_run _ h) by done.
  cbn [fst w_doc w_scroll w_g w_last_scroll w_storage w_timers w_observed w_bar_observed w_console].
  destruct (parallax_frame (World (if (50 <? z)%Z then class_add c_scrolled (w_doc w) h
                                   else class_remove c_scrolled (w_doc w) h)
                                  (w_storage w) (w_timers w) z z (w_observed w) (w_bar_observed w) (w_g w) (w_console w)))
    as (Hg & Hl & Hc & Hs).
  unfold exec in Hg, Hl, Hc, Hs. rewrite Hg, Hl, !Hc, Hs. cbn [w_doc w_g w_last_scroll].
  destruct (50 <? z)%Z; split_and!; try done; try intros c Hc'; rewrite ?Hc; cbn [w_doc];
    rewrite ?is_Some_class_add, ?is_Some_class_remove, ?has_class_add_same, ?has_class_remove_same by done;
    rewrite ?bool_decide_eq_true_2, ?bool_decide_eq_false_2 by done; done.
Qed.
