(* ===== verification/PageInvariant.v ===== *)
(** * Invariants that every handler of the script keeps

    [hoare P m Q] is a Hoare triple of the handler monad: run from a
    page satisfying [P], [m] ends, returning or throwing, on a page
    satisfying [Q]; [keeps P m] is [hoare P m P].  Triples compose with
    [bind] (a thrown exception ends the handler on the page where it
    was thrown, so the post-condition of the part that throws must
    imply the final one), [for_each] and [isolate].

    The class [PageInv] is the interface between the handlers and an
    invariant: a predicate of the page that ignores the parts no handler
    depends on, survives every document mutation that keeps class lists
    duplicate-free, and survives [setTimeout] of every callback except
    the typewriter's, with a delay up to [max_delay].  Every handler is
    shown to keep every such invariant once ([Section Handlers],
    [solve_keeps]); the delays of the handlers are checked there.
    Three instances: [page_inv t] (the timer queue is well formed, the
    clock reads [t], every class list is a token list),
    [typing_at_most n] (at most [n] typewriter timers are pending) and
    [due_within] (every pending timer is due at most [max_delay] after
    the clock, and the typewriter's carries a delay within it).  The typewriter's [type_step]
    keeps [page_inv t] and adds at most one typewriter timer.  A timer
    turn keeps both invariants and moves the clock forward ([tick_inv],
    [tick_typing_bound], [tick_due_within]); waiting moves it to a
    time no timer is due before ([wait_inv], [wait_due_within]).  [System] lifts these to every reachable page. *)

From S2P Require Import Prelude JsString ClassList Dom Timers World.
From S2P Require Import ContactForm Theme Scroll MobileMenu Nav Typewriter PageLoad Reveal Console Anchors EventLoop.

(** ** Hoare triples of the handler monad *)

Definition hoare {A} (P : world -> Prop) (m : Page A) (Q : world -> Prop) : Prop :=
  forall w, P w -> Q (fst (m w)).

Definition keeps {A} (P : world -> Prop) (m : Page A) : Prop := hoare P m P.

Create HintDb keeps discriminated.

Section Hoare.
Context (P Q R : world -> Prop).

Lemma hoare_bind {A B} (m : Page A) (k : A -> Page B) :
  hoare P m Q -> (forall a, hoare Q (k a) R) -> (forall w, Q w -> R w) -> hoare P (bind m k) R.
Proof.
  intros Hm Hk HQR w Hw. unfold bind. specialize (Hm w Hw).
  destruct (m w) as [w1 [e|a]]; simpl in *; [auto|]. by apply Hk.
Qed.

(** A program that leaves the page as it is. *)
Lemma hoare_pure {A} (m : Page A) : (forall w, fst (m w) = w) -> (forall w, P w -> Q w) -> hoare P m Q.
Proof. intros Hm HPQ w Hw. rewrite Hm. auto. Qed.

End Hoare.

Section Keeps.
Context (P : world -> Prop).

Lemma keeps_bind {A B} (m : Page A) (k : A -> Page B) :
  keeps P m -> (forall a, keeps P (k a)) -> keeps P (bind m k).
Proof. intros Hm Hk. by apply (hoare_bind P P P). Qed.

Lemma keeps_for_each {A} (l : list A) (f : A -> Page unit) :
  (forall x, x ∈ l -> keeps P (f x)) -> keeps P (for_each l f).
Proof.
  induction l as [|x l IH]; intros Hf; cbn [for_each]; [by intros w|].
  apply keeps_bind; [apply Hf; left|]. intros _. apply IH. intros y Hy. apply Hf. by right.
Qed.

Lemma keeps_isolate (m : Page unit) : keeps P m -> keeps P (isolate m).
Proof. intros Hm w Hw. apply (Hm w Hw). Qed.

Lemma keeps_ret {A} (a : A) : keeps P (ret a).
Proof. by apply hoare_pure. Qed.
Lemma keeps_throw {A} e : keeps P (A:=A) (throw e).
Proof. by apply hoare_pure. Qed.
Lemma keeps_read {A} (f : document -> A) : keeps P (read f).
Proof. by apply hoare_pure. Qed.
Lemma keeps_glob {A} (f : globals -> A) : keeps P (glob f).
Proof. by apply hoare_pure. Qed.
Lemma keeps_storage_get k : keeps P (storage_get k).
Proof. by apply hoare_pure. Qed.
Lemma keeps_page_y_offset : keeps P page_y_offset.
Proof. by apply hoare_pure. Qed.
Lemma keeps_get_observed : keeps P get_observed.
Proof. by apply hoare_pure. Qed.
Lemma keeps_get_bar_observed : keeps P get_bar_observed.
Proof. by apply hoare_pure. Qed.

End Keeps.

#[export] Hint Resolve keeps_isolate keeps_ret keeps_throw keeps_read keeps_glob keeps_storage_get
  keeps_page_y_offset keeps_get_observed keeps_get_bar_observed : keeps.

(** ** What an invariant asks of the writes *)

(** The callback of the typewriter, the one timer that sets itself again. *)
Definition is_typing (t : task) : bool :=
  match t with TypeNext _ _ _ _ => true | _ => false end.

(** The longest delay the script passes to [setTimeout]: the auto-hide
    timer of line 333. *)
Definition max_delay : Z := 5000.

Class PageInv (P : world -> Prop) := {
  inv_frame w w' : w_timers w' = w_timers w -> w_doc w' = w_doc w -> P w -> P w';
  inv_set_doc f w : (forall d, classes_wf d -> classes_wf (f d)) -> P w -> P (set_doc (f (w_doc w)) w);
  inv_schedule d x w : is_typing x = false -> (d <= max_delay)%Z ->
    P w -> P (set_timers (set_timeout d x (w_timers w)) w)
}.

Section Writes.
Context `{PageInv P}.

Lemma keeps_dom f : (forall d, classes_wf d -> classes_wf (f d)) -> keeps P (dom f).
Proof. intros Hf w Hw. by apply inv_set_doc. Qed.

Lemma keeps_create tag : keeps P (create tag).
Proof. intros w Hw. apply (inv_set_doc (fun d => (create_element tag d).1)); [apply classes_wf_create|done]. Qed.

Lemma keeps_schedule d x : is_typing x = false -> (d <= max_delay)%Z -> keeps P (schedule d x).
Proof. intros Hx Hd w Hw. by apply inv_schedule. Qed.

Lemma keeps_storage_set k v : keeps P (storage_set k v).
Proof. intros w. by apply inv_frame. Qed.
Lemma keeps_set_last_scroll z : keeps P (set_last_scroll z).
Proof. intros w. by apply inv_frame. Qed.
Lemma keeps_set_scroll z : keeps P (set_scroll z).
Proof. intros w. by apply inv_frame. Qed.
Lemma keeps_set_observed l : keeps P (set_observed l).
Proof. intros w. by apply inv_frame. Qed.
Lemma keeps_set_bar_observed l : keeps P (set_bar_observed l).
Proof. intros w. by apply inv_frame. Qed.
Lemma keeps_console_log args : keeps P (console_log args).
Proof. intros w. by apply inv_frame. Qed.

End Writes.

#[export] Hint Resolve keeps_dom keeps_create keeps_schedule keeps_storage_set keeps_set_last_scroll
  keeps_set_scroll keeps_set_observed keeps_set_bar_observed keeps_console_log : keeps.
#[export] Hint Extern 1 (is_typing _ = false) => reflexivity : keeps.
#[export] Hint Extern 1 ((_ <= max_delay)%Z) => unfold max_delay; lia : keeps.

(** Prove [keeps P m] of a program built from the primitives. *)
Ltac solve_keeps :=
  repeat match goal with
  | |- keeps _ (bind _ _) => apply keeps_bind; intros
  | |- keeps _ (for_each _ _) => apply keeps_for_each; intros
  | |- keeps _ (isolate _) => apply keeps_isolate
  | |- keeps _ (match ?x with _ => _ end) => destruct x
  | |- keeps _ (if ?b then _ else _) => destruct b
  | |- keeps _ _ => solve [eauto with keeps classes_wf]
  | |- keeps _ _ => progress cbv beta
  end.

Ltac keeps_unfold := unfold deref, for_each_i, check in *; solve_keeps.

(** ** Every handler keeps every invariant *)

Section Handlers.
Context `{PageInv P}.

Lemma keeps_field_value i : keeps P (field_value i).
Proof. unfold field_value. keeps_unfold. Qed.
Lemma keeps_add_error_div pn msg : keeps P (add_error_div pn msg).
Proof. unfold add_error_div. keeps_unfold. Qed.
#[local] Hint Resolve keeps_field_value keeps_add_error_div : keeps.

Lemma keeps_show_field_error i msg : keeps P (show_field_error i msg).
Proof. unfold show_field_error. keeps_unfold. Qed.
Lemma keeps_show_form_message msg ty : keeps P (show_form_message msg ty).
Proof. unfold show_form_message. keeps_unfold. Qed.
#[local] Hint Resolve keeps_show_field_error keeps_show_form_message : keeps.

Lemma keeps_submit form : keeps P (submit form).
Proof. unfold submit, submit_after. keeps_unfold. Qed.
Lemma keeps_form_sent : keeps P form_sent.
Proof. unfold form_sent. keeps_unfold. Qed.
Lemma keeps_hide_message : keeps P hide_message.
Proof. unfold hide_message. keeps_unfold. Qed.
Lemma keeps_validate_field n : keeps P (validate_field n).
Proof. unfold validate_field. keeps_unfold. Qed.
#[local] Hint Resolve keeps_validate_field : keeps.
Lemma keeps_on_blur n : keeps P (on_blur n).
Proof. unfold on_blur. keeps_unfold. Qed.
#[local] Hint Resolve keeps_on_blur : keeps.
Lemma keeps_on_input n : keeps P (on_input n).
Proof. unfold on_input. keeps_unfold. Qed.

Lemma keeps_theme_load : keeps P theme_load.
Proof. unfold theme_load, icon_sun, icon_moon. keeps_unfold. Qed.
Lemma keeps_theme_click : keeps P theme_click.
Proof. unfold theme_click, icon_sun, icon_moon. keeps_unfold. Qed.
Lemma keeps_scroll_header : keeps P on_scroll_header.
Proof. unfold on_scroll_header. keeps_unfold. Qed.
Lemma keeps_scroll_parallax : keeps P on_scroll_parallax.
Proof. unfold on_scroll_parallax. keeps_unfold. Qed.
Lemma keeps_menu_toggle t : keeps P (menu_toggle_click t).
Proof. unfold menu_toggle_click, span_step, span_reset. keeps_unfold. Qed.
Lemma keeps_menu_link t : keeps P (menu_link_click t).
Proof. unfold menu_link_click, span_reset. keeps_unfold. Qed.
Lemma keeps_nav_highlight p : keeps P (nav_highlight p).
Proof. unfold nav_highlight, highlight_link. keeps_unfold. Qed.
Lemma keeps_on_load : keeps P on_load.
Proof. unfold on_load. keeps_unfold. Qed.
Lemma keeps_fade_in : keeps P fade_in.
Proof. unfold fade_in. keeps_unfold. Qed.
Lemma keeps_transition t : keeps P (transition_click t).
Proof. unfold transition_click. keeps_unfold. Qed.
Lemma keeps_set_width b wd : keeps P (set_width b wd).
Proof. unfold set_width. keeps_unfold. Qed.
Lemma keeps_deliver_main es : keeps P (deliver_main es).
Proof. unfold deliver_main, reveal_callback, reveal_entry, unobserve_target, observe_target. keeps_unfold. Qed.
Lemma keeps_deliver_bar b es : keeps P (deliver_bar b es).
Proof. unfold deliver_bar, bar_entry. keeps_unfold. Qed.
Lemma keeps_anchor_click a : keeps P (anchor_click a).
Proof. unfold anchor_click. keeps_unfold. Qed.
Lemma keeps_reveal_init : keeps P reveal_init.
Proof. unfold reveal_init, observe_target. keeps_unfold. Qed.
Lemma keeps_animate_skill_bars : keeps P animate_skill_bars.
Proof. unfold animate_skill_bars, bar_observe. keeps_unfold. Qed.
Lemma keeps_easter_egg : keeps P easter_egg.
Proof. unfold easter_egg. keeps_unfold. Qed.
#[local] Hint Resolve keeps_submit keeps_form_sent keeps_hide_message keeps_on_input keeps_theme_load
  keeps_theme_click keeps_scroll_header keeps_scroll_parallax keeps_menu_toggle keeps_menu_link
  keeps_on_load keeps_fade_in keeps_transition keeps_set_width keeps_deliver_main keeps_deliver_bar
  keeps_anchor_click : keeps.

(** Every timer callback but the typewriter's. *)
Lemma keeps_run_task t : is_typing t = false -> keeps P (run_task t).
Proof. destruct t; simpl; [discriminate|..]; eauto with keeps. Qed.

Lemma keeps_click_listeners g n m : m ∈ click_listeners g n -> keeps P m.
Proof.
  revert m. apply Forall_forall.
  unfold click_listeners, toggle_listeners, nav_link_listeners, theme_listeners, anchor_listeners,
    transition_listeners.
  repeat apply Forall_app_2; repeat case_match;
    repeat first [apply Forall_nil_2 | apply Forall_cons_2]; solve_keeps.
Qed.
#[local] Hint Resolve keeps_click_listeners : keeps.

Lemma keeps_dispatch e : keeps P (dispatch e).
Proof. destruct e; unfold dispatch, dispatch_click, submit_listener, field_listener; solve_keeps. Qed.

End Handlers.

#[export] Hint Resolve keeps_nav_highlight keeps_theme_load keeps_reveal_init keeps_animate_skill_bars
  keeps_easter_egg : keeps.

(** ** The well-formed page *)

(** The timer queue is well formed, the clock reads [t] and every class
    list is a token list. *)
Definition page_inv (t : Z) (w : world) : Prop :=
  wf (w_timers w) /\ now (w_timers w) = t /\ classes_wf (w_doc w).

Lemma page_inv_schedule t d x w : page_inv t w -> page_inv t (set_timers (set_timeout d x (w_timers w)) w).
Proof.
  intros (Hq & Hn & Hc). unfold page_inv. rewrite set_timers_timers, set_timers_doc.
  split_and!; [by apply wf_set_timeout | done | done].
Qed.

#[export] Instance page_inv_inv t : PageInv (page_inv t).
Proof.
  split.
  - intros w w' Ht Hd. unfold page_inv. by rewrite Ht, Hd.
  - intros f w Hf (Hq & Hn & Hc). split_and!; [done | done | by apply Hf].
  - intros d x w _ _. apply page_inv_schedule.
Qed.

#[export] Hint Resolve page_inv_inv : keeps.

Lemma page_inv_keeps_schedule t d x : keeps (page_inv t) (schedule d x).
Proof. intros w. apply page_inv_schedule. Qed.
#[export] Hint Resolve page_inv_keeps_schedule : keeps.

Lemma page_inv_type_step t el text i speed : keeps (page_inv t) (type_step el text i speed).
Proof. unfold type_step. solve_keeps. Qed.
#[export] Hint Resolve page_inv_type_step : keeps.

Lemma page_inv_typewriter_init t : keeps (page_inv t) typewriter_init.
Proof. unfold typewriter_init, typewriter_effect. solve_keeps. Qed.
#[export] Hint Resolve page_inv_typewriter_init : keeps.

Lemma page_inv_run_task t x : keeps (page_inv t) (run_task x).
Proof. destruct x; [apply page_inv_type_step | apply keeps_run_task; reflexivity ..]. Qed.

(** ** The typewriter's timers *)

(** The pending timers that run the typewriter. *)
Definition typing_timers (q : queue task) : nat := count (fun x => is_typing (t_task x)) q.

Definition typing_at_most (n : nat) (w : world) : Prop := typing_timers (w_timers w) <= n.

#[export] Instance typing_inv n : PageInv (typing_at_most n).
Proof.
  split.
  - intros w w' Ht _. unfold typing_at_most. by rewrite Ht.
  - intros f w _ Hn. exact Hn.
  - intros d x w Hx _ Hn. unfold typing_at_most, typing_timers in *.
    rewrite set_timers_timers, count_set_timeout. simpl. rewrite Hx. lia.
Qed.
#[export] Hint Resolve typing_inv : keeps.

(** A step of the typewriter sets at most one typewriter timer. *)
Lemma type_step_typing n el text i speed : hoare (typing_at_most n) (type_step el text i speed) (typing_at_most (S n)).
Proof.
  intros w Hn. unfold typing_at_most, typing_timers in *.
  destruct (decide (i < length text)).
  - rewrite type_step_more by done. cbn [fst]. rewrite set_timers_timers, count_set_timeout. simpl. lia.
  - rewrite type_step_done by lia. cbn [fst]. lia.
Qed.

Lemma typewriter_init_typing n : hoare (typing_at_most n) typewriter_init (typing_at_most (S n)).
Proof.
  intros w Hn. unfold typewriter_init, typewriter_effect, bind, glob, read, dom, modify, ret. cbn [fst snd].
  destruct (g_hero_title (w_g w)); cbn [fst snd]; [|unfold typing_at_most in *; lia].
  by apply type_step_typing.
Qed.

(** ** The turns of the loop *)

(** A timer turn: the clock moves to the due time of the fired timer. *)
Lemma tick_inv w w' :
  wf (w_timers w) -> classes_wf (w_doc w) -> tick w = Some w' ->
  page_inv (now (w_timers w')) w' /\ (now (w_timers w) <= now (w_timers w'))%Z.
Proof.
  unfold tick. intros Hw Hc. destruct (fire _) as [[x q]|] eqn:Hf; [|done]. intros [= <-].
  destruct (page_inv_run_task (now q) (t_task x) (set_timers q w)) as (H1 & H2 & H3).
  { split_and!; rewrite ?set_timers_timers, ?set_timers_doc; [by eapply wf_fire | done | done]. }
  split; [by split_and!|]. rewrite H2. by eapply fire_now_mono.
Qed.

(** A timer turn sets no more typewriter timers than it fires. *)
Lemma tick_typing_bound n w w' :
  wf (w_timers w) -> typing_at_most n w -> tick w = Some w' -> typing_at_most n w'.
Proof.
  unfold tick. intros Hw Hn. destruct (fire _) as [[x q]|] eqn:Hf; [|done]. intros [= <-].
  pose proof (count_fire (fun x => is_typing (t_task x)) _ _ _ Hw Hf) as Hc.
  destruct (is_typing (t_task x)) eqn:Hx.
  - destruct (t_task x) as [el text i speed| | | |]; try discriminate Hx. cbn [run_task].
    assert (Hq : typing_at_most (n - 1) (set_timers q w)).
    { unfold typing_at_most, typing_timers in *. rewrite set_timers_timers. lia. }
    pose proof (type_step_typing _ el text i speed _ Hq) as H.
    unfold typing_at_most, typing_timers in *. lia.
  - apply keeps_run_task; [done|]. unfold typing_at_most, typing_timers in *.
    rewrite set_timers_timers. lia.
Qed.

Lemma wait_inv t w w' :
  wf (w_timers w) -> classes_wf (w_doc w) -> wait t w = Some w' ->
  page_inv (now (w_timers w')) w' /\ (now (w_timers w) <= now (w_timers w'))%Z /\
  pending (w_timers w') = pending (w_timers w).
Proof.
  unfold wait. intros (_ & Hid & Hnd) Hc. case_bool_decide as Ht; [|done]. intros [= <-].
  unfold page_inv. rewrite set_timers_timers, set_timers_doc. destruct Ht as [Hle Hall]. done.
Qed.

(** ** Every pending timer is due within [max_delay] *)

(** The typewriter's timer carries the delay it sets again. *)
Definition delay_ok (t : task) : Prop :=
  match t with TypeNext _ _ _ speed => (speed <= max_delay)%Z | _ => True end.

(** Every pending timer is due at most [max_delay] after the clock and
    sets, if it is the typewriter's, a delay within [max_delay]. *)
Definition due_within (w : world) : Prop :=
  Forall (fun x => (t_due x <= now (w_timers w) + max_delay)%Z /\ delay_ok (t_task x)) (pending (w_timers w)).

Lemma due_within_schedule d x w :
  (d <= max_delay)%Z -> delay_ok x -> due_within w -> due_within (set_timers (set_timeout d x (w_timers w)) w).
Proof.
  intros Hd Hx Hw. unfold due_within in *. rewrite set_timers_timers. unfold set_timeout. cbn [pending now].
  apply Forall_app_2; [done|]. apply Forall_singleton. cbn [t_due t_task]. unfold max_delay in *. split; [lia|done].
Qed.

#[export] Instance due_within_inv : PageInv due_within.
Proof.
  split.
  - intros w w' Ht _. unfold due_within. by rewrite Ht.
  - intros f w _ Hw. unfold due_within. by rewrite set_doc_timers.
  - intros d x w Hx Hd. apply due_within_schedule; [done|]. by destruct x.
Qed.
#[export] Hint Resolve due_within_inv : keeps.

Lemma due_within_type_step el text i speed : (speed <= max_delay)%Z -> keeps due_within (type_step el text i speed).
Proof. intros Hs. unfold type_step. solve_keeps. intros w. by apply due_within_schedule. Qed.
#[export] Hint Resolve due_within_type_step : keeps.

Lemma due_within_typewriter_init : keeps due_within typewriter_init.
Proof. unfold typewriter_init, typewriter_effect. solve_keeps. Qed.
#[export] Hint Resolve due_within_typewriter_init : keeps.

(** Timer turns and waits keep the bound: the clock only moves forward. *)
Lemma tick_due_within w w' : wf (w_timers w) -> due_within w -> tick w = Some w' -> due_within w'.
Proof.
  unfold tick. intros Hq Hw. destruct (fire _) as [[x q]|] eqn:Hf; [|done]. intros [= <-].
  pose proof (fire_now_mono _ _ _ Hq Hf) as Hmono. apply fire_spec in Hf as (Hx & _ & Hn & _ & Hp).
  unfold due_within in Hw. rewrite Forall_forall in Hw.
  assert (Hq' : due_within (set_timers q w)).
  { unfold due_within. rewrite set_timers_timers, Hp, Forall_forall.
    intros y [_ Hy]%list_elem_of_filter. destruct (Hw y Hy). split; [lia|done]. }
  destruct (Hw x Hx) as [_ Hd]. destruct (t_task x);
    [by apply due_within_type_step | by apply keeps_run_task ..].
Qed.

Lemma wait_due_within t w w' : due_within w -> wait t w = Some w' -> due_within w'.
Proof.
  unfold wait, due_within. intros Hw. case_bool_decide as Ht; [|done]. intros [= <-].
  rewrite set_timers_timers. cbn [pending now]. eapply Forall_impl; [exact Hw|]. intros x [? ?]. split; [lia|done].
Qed.
