(* ===== verification/System.v ===== *)
(** * The page as a transition system, and its start

    [step] is one turn of the browser's loop on the page: a timer turn
    ([tick]), time passing ([wait]) or a user event ([dispatch]);
    [reachable w0] is its closure from [w0], and [run_trace] runs an
    executable list of turns.  [start] runs the script on a document:
    [init_globals] reads the script's top-level [const]s (one
    definition each, named as in the source) and [script] runs its
    top-level statements, in an order that depends on
    [document.readyState].  The theorems lift the typewriter bound of
    [PageInvariant] to every page reachable from the start and follow a
    sequence of scroll events through both scroll listeners; an example
    replays the auto-hide bug of the contact form from the start of the
    page. *)

From S2P Require Import Prelude JsString ClassList Dom Timers World.
From S2P Require Import ContactForm Theme Scroll MobileMenu Nav Typewriter PageLoad Reveal Console Anchors EventLoop PageInvariant.

(** ** The page as a transition system *)

Inductive step : world -> world -> Prop :=
  | StepTimer w w' : tick w = Some w' -> step w w'
  | StepWait t w w' : wait t w = Some w' -> step w w'
  | StepEvent e w : step w (exec (dispatch e) w).

Inductive reachable (w0 : world) : world -> Prop :=
  | reach_start : reachable w0 w0
  | reach_step w w' : reachable w0 w -> step w w' -> reachable w0 w'.

(** An executable trace of steps. *)
Inductive action := ATick | AWait (t : Z) | AEvent (e : event).

Definition act (a : action) (w : world) : option world :=
  match a with
  | ATick => tick w
  | AWait t => wait t w
  | AEvent e => Some (exec (dispatch e) w)
  end.

Fixpoint run_trace (l : list action) (w : world) : option world :=
  match l with
  | [] => Some w
  | a :: l' => act a w ≫= run_trace l'
  end.

Lemma act_step a w w' : act a w = Some w' -> step w w'.
Proof. destruct a; simpl; [apply StepTimer | apply StepWait | intros [= <-]; apply StepEvent]. Qed.

Lemma run_trace_reachable w0 l w w' :
  reachable w0 w -> run_trace l w = Some w' -> reachable w0 w'.
Proof.
  revert w. induction l as [|a l IH]; intros w Hr; simpl; [by intros [= <-]|].
  destruct (act a w) as [w1|] eqn:E; simpl; [|done].
  intros H. apply (IH w1); [|done]. eapply reach_step; [done|]. by eapply act_step.
Qed.

Definition page_ok (w : world) : Prop := wf (w_timers w) /\ classes_wf (w_doc w).

Lemma step_inv w w' :
  page_ok w -> step w w' -> page_ok w' /\ (now (w_timers w) <= now (w_timers w'))%Z.
Proof.
  intros [Hw Hc] Hs. destruct Hs as [w1 w2 H|t w1 w2 H|e w1].
  - destruct (tick_inv w1 w2 Hw Hc H) as ((? & _ & ?) & ?). done.
  - destruct (wait_inv t w1 w2 Hw Hc H) as ((? & _ & ?) & ? & _). done.
  - destruct (keeps_dispatch (P := page_inv (now (w_timers w1))) e w1) as (? & ? & ?); [done|].
    unfold exec. split; [done | lia].
Qed.

(** No step adds a typewriter timer without firing one. *)
Lemma step_typing n w w' : page_ok w -> typing_at_most n w -> step w w' -> typing_at_most n w'.
Proof.
  intros [Hw Hc] Hn Hs. destruct Hs as [w1 w2 H|t w1 w2 H|e w1].
  - by apply (tick_typing_bound n w1).
  - destruct (wait_inv t w1 w2 Hw Hc H) as (_ & _ & Hp).
    unfold typing_at_most, typing_timers, count in *. by rewrite Hp.
  - by apply keeps_dispatch.
Qed.

(** ** The script at load *)

(** The [const]s of the script, read from the document it starts on.
    The lists of lines 168 and 390 are taken from the same document as
    that of line 3: the script changes only classes before those lines,
    and no class it sets is [btn]. *)
(** One definition per top-level [const] the handlers use, read from
    the document the script starts on. *)
Definition navLinks (d : document) : list node := query_all d (Sel (Some [ByTag (js "nav")]) [ByTag (js "a")]).
Definition header (d : document) : option node := query d (Sel None [ByTag (js "header")]).
Definition mobileMenuToggle (d : document) : option node := query d (Sel None [ByClass (js "mobile-menu-toggle")]).
Definition nav (d : document) : option node := query d (Sel None [ByTag (js "nav")]).
Definition toggleBtn (d : document) : option node := get_by_id d (js "theme-toggle").
Definition themeIcon (d : document) : option node := get_by_id d (js "theme-icon").
Definition body (d : document) : option node := query d (Sel None [ByTag (js "body")]).
Definition heroTitle (d : document) : option node := get_by_id d (js "hero-title").
Definition contactForm (d : document) : option node := get_by_id d (js "contact-form").
Definition formMessage (d : document) : option node := get_by_id d (js "form-message").
Definition inputs (d : document) (form : option node) : list node :=
  match form with
  | Some f => query_all_in d f (Union (Sel None [ByTag (js "input")]) (Sel None [ByTag (js "textarea")]))
  | None => []
  end.
Definition anchorLinks (d : document) : list node :=
  query_all d (Sel None [ByTag (js "a"); ByAttrPrefix (js "href") (js "#")]).
Definition transitionLinks (d : document) : list node :=
  query_all d (Union (Sel (Some [ByTag (js "nav")]) [ByTag (js "a")]) (Sel None [ByClass (js "btn")])).

Definition init_globals (d : document) : option globals :=
  b ← body d;
  Some (Globals b (header d) (navLinks d) (mobileMenuToggle d) (nav d) (toggleBtn d) (themeIcon d)
          (heroTitle d) (contactForm d) (formMessage d) (inputs d (contactForm d)) (anchorLinks d)
          (transitionLinks d)).

(** The statements of the script that act at once, in source order.
    Lines 383-387: while the document is still [loading],
    [animateSkillBars] waits for [DOMContentLoaded], which fires when
    the script is over, after the console messages of lines 401-402;
    otherwise it runs at once, before them. *)
Definition script (loading : bool) (pathname : jsstr) : Page unit :=
  nav_highlight pathname ;; theme_load ;; typewriter_init ;; reveal_init ;;
  if loading then easter_egg ;; animate_skill_bars else animate_skill_bars ;; easter_egg.

(** The page after the script has run on document [d], with the
    stored preferences [st], [document.readyState] [loading] or not,
    and the path [pathname]. *)
Definition start (d : document) (st : gmap jsstr jsstr) (loading : bool) (pathname : jsstr) : option world :=
  g ← init_globals d;
  Some (exec (script loading pathname) (World d st (empty_queue 0) 0 0 [] [] g [])).

(** ** A success message hidden too early *)

(** The contact page of [ContactForm] with a valid submission typed in. *)
Definition contact_page : document :=
  sample_form_doc (js "Ann") (js "a@b.com") (js "Hi") (js "1234567890").

(** What the form message shows: the clock, the message text and its
    [display]. *)
Definition message_view (w : world) : Z * jsstr * jsstr :=
  (now (w_timers w), text_of (w_doc w) 11, style_of (w_doc w) 11 (js "display")).

(** Two submissions three seconds apart, up to the second thank-you. *)
Definition two_submissions : list action :=
  [AEvent EvSubmit; ATick; AWait 3000; AEvent EvSubmit; ATick].

(** The auto-hide timer of a thank-you message is never cancelled
    ([ContactForm.thanks_timer_not_cancelled]), replayed from the
    start: submit at 0, the thank-you shows at 1500 with its hide timer
    due at 6500; submit again at 3000, the second thank-you shows at
    4500, and the next timer turn, the first hide timer, hides it at
    6500, after 2 seconds instead of 5.  The states are reachable
    ([run_trace_reachable]). *)
Example thanks_hidden_early :
  (message_view <$> (start contact_page ∅ true (js "/contact.html") ≫= run_trace two_submissions)) =
    Some (4500%Z, msg_thanks, js "block") /\
  (message_view <$> (start contact_page ∅ true (js "/contact.html") ≫= run_trace (two_submissions ++ [ATick]))) =
    Some (6500%Z, msg_thanks, js "none").
Proof. split; vm_compute; reflexivity. Qed.

(** ** The invariant of every reachable page *)

Lemma reachable_inv w0 w :
  page_ok w0 -> reachable w0 w -> page_ok w /\ (now (w_timers w0) <= now (w_timers w))%Z.
Proof.
  intros H0 Hr. induction Hr as [|w w' _ [IH1 IH2] Hs]; [split; [done|lia]|].
  destruct (step_inv w w' IH1 Hs). split; [done|lia].
Qed.

Lemma script_page_inv t ld p : keeps (page_inv t) (script ld p).
Proof. unfold script. solve_keeps. Qed.

(** The script sets at most one typewriter timer. *)
Lemma script_typing ld p : hoare (typing_at_most 0) (script ld p) (typing_at_most 1).
Proof.
  unfold script.
  apply (hoare_bind _ (typing_at_most 0)); [apply keeps_nav_highlight | | unfold typing_at_most; lia]; intros _.
  apply (hoare_bind _ (typing_at_most 0)); [apply keeps_theme_load | | unfold typing_at_most; lia]; intros _.
  apply (hoare_bind _ (typing_at_most 1)); [apply typewriter_init_typing | | done]; intros _.
  change (keeps (typing_at_most 1) (reveal_init ;;
    if ld then easter_egg ;; animate_skill_bars else animate_skill_bars ;; easter_egg)).
  solve_keeps.
Qed.

(** The page the script leaves: well formed, at time 0, with at most
    one typewriter timer. *)
Lemma start_inv d st ld p w :
  classes_wf d -> start d st ld p = Some w -> page_ok w /\ now (w_timers w) = 0%Z /\ typing_at_most 1 w.
Proof.
  unfold start. intros Hc. destruct (init_globals d) as [g|]; simpl; [|done]. intros [= <-].
  destruct (script_page_inv 0%Z ld p (World d st (empty_queue 0) 0 0 [] [] g [])) as (? & ? & ?);
    [split_and!; [apply wf_empty | done | done]|].
  split; [done|]. split; [done|]. apply script_typing. unfold typing_at_most, typing_timers, count. simpl. lia.
Qed.

Lemma step_due_within w w' : page_ok w -> due_within w -> step w w' -> due_within w'.
Proof.
  intros [Hw _] Hd Hs. destruct Hs as [w1 w2 H|t w1 w2 H|e w1];
    [by apply (tick_due_within w1) | by apply (wait_due_within t w1) | by apply keeps_dispatch].
Qed.

Lemma script_due_within ld p : keeps due_within (script ld p).
Proof. unfold script. solve_keeps. Qed.

Lemma start_due_within d st ld p w : start d st ld p = Some w -> due_within w.
Proof.
  unfold start. destruct (init_globals d) as [g|]; simpl; [|done]. intros [= <-].
  apply script_due_within. unfold due_within. simpl. constructor.
Qed.

(** C29. Every callback the page holds runs within five seconds: on
    every page reachable from the start, every pending timer is due at
    most 5000 ms after the clock.  This is the longest delay the
    script sets (the auto-hide timer of line 333); the send (1500 ms),
    the skill bars (200 and 300 ms), the fade-in (100 ms) and each
    step of the typewriter (80 ms) are shorter. *)
Theorem timers_due_within d st ld p w0 w :
  classes_wf d -> start d st ld p = Some w0 -> reachable w0 w ->
  Forall (fun x => (t_due x <= now (w_timers w) + 5000)%Z) (pending (w_timers w)).
Proof.
  intros Hc Hs Hr. destruct (start_inv d st ld p w0 Hc Hs) as (Hok & _ & _).
  assert (Hd : due_within w).
  { induction Hr as [|w w' Hr IH Hst]; [by apply (start_due_within d st ld p)|].
    apply (step_due_within w); [by apply (reachable_inv w0 w) | done | done]. }
  eapply Forall_impl; [exact Hd|]. intros x [Hx _]. exact Hx.
Qed.

(** C28. The typewriter's chain of timers never forks: on every page
    reachable from the start at most one typewriter timer is pending,
    since the script sets one and each typewriter step sets the next
    only as it runs. *)
Theorem typewriter_single_timer d st ld p w0 w :
  classes_wf d -> start d st ld p = Some w0 -> reachable w0 w -> typing_timers (w_timers w) <= 1.
Proof.
  intros Hc Hs Hr. destruct (start_inv d st ld p w0 Hc Hs) as (Hok & _ & H1).
  induction Hr as [|w w' Hr IH Hst]; [done|].
  apply (step_typing 1 w); [by apply (reachable_inv w0 w) | done | done].
Qed.

(** C27. The header's [scrolled] class is a function of the latest
    scroll position only: after any sequence of scroll events, each
    running both scroll listeners in registration order, the header has
    the class exactly when the last offset is above 50 pixels, keeps
    every other class it had, and [lastScroll] holds the last offset. *)
Theorem scroll_sequence w h zs z :
  g_header (w_g w) = Some h -> is_Some (elem (w_doc w) h) ->
  exists w', run_trace ((fun y => AEvent (EvScroll y)) <$> zs ++ [z]) w = Some w' /\
    has_class (w_doc w') h c_scrolled = (50 <? z)%Z /\ w_last_scroll w' = z /\
    (forall c, c <> c_scrolled -> has_class (w_doc w') h c = has_class (w_doc w) h c).
Proof.
  revert w. induction zs as [|y zs IH]; intros w Hh He; simpl.
  - destruct (scroll_event w h z Hh He) as (_ & _ & Hl & Hs & Hc). eexists. split; [reflexivity|done].
  - destruct (scroll_event w h y Hh He) as (Hg & He' & _ & _ & Hc).
    destruct (IH (exec (dispatch (EvScroll y)) w)) as (w' & Hr & Hs & Hl & Hc'); [by rewrite Hg | done |].
    exists w'. split_and!; [done|done|done|]. intros c Hne. by rewrite Hc', Hc.
Qed.

Lemma scroll_sequence_witness :
  exists w', run_trace ((fun y => AEvent (EvScroll y)) <$> [120; 30; 80]%Z ++ [50%Z])
                       (sample_scroll_world (Some 2) 0) = Some w' /\
    has_class (w_doc w') 2 c_scrolled = false /\ w_last_scroll w' = 50%Z /\
    (forall c, c <> c_scrolled -> has_class (w_doc w') 2 c = has_class (w_doc (sample_scroll_world (Some 2) 0)) 2 c).
Proof. apply (scroll_sequence _ 2); [reflexivity | vm_compute; by eexists]. Defined.

(** A home page whose hero title reads [Hi]. *)
Definition home_page : document :=
  set_text (js "Hi") (mk_document [(1, mk_element (js "body") [] [] [] [] None);
                                   (2, mk_element (js "h1") (js "hero-title") [] [] [] (Some 1))]) 2.

Definition home_started : world := default sample_valid_world (start home_page ∅ true (js "/index.html")).

Lemma typewriter_single_timer_witness :
  typing_timers (w_timers (default home_started (run_trace [ATick; AEvent EvLoad; ATick] home_started))) <= 1.
Proof.
  apply (typewriter_single_timer home_page ∅ true (js "/index.html") home_started).
  - apply (bool_decide_unpack _). vm_compute. reflexivity.
  - vm_compute. reflexivity.
  - apply (run_trace_reachable _ [ATick; AEvent EvLoad; ATick] home_started); [constructor|].
    vm_compute. reflexivity.
Defined.

(** The contact page as the script leaves it, and after a valid
    submission and the timer turn that shows the thank-you message,
    with its 5000 ms hide timer pending. *)
Definition contact_started : world :=
  default sample_valid_world (start contact_page ∅ true (js "/contact.html")).

Definition contact_thanked : world :=
  default contact_started (run_trace [AEvent EvSubmit; ATick] contact_started).

Lemma timers_due_within_witness :
  Forall (fun x => (t_due x <= now (w_timers contact_thanked) + 5000)%Z) (pending (w_timers contact_thanked)).
Proof.
  apply (timers_due_within contact_page ∅ true (js "/contact.html") contact_started).
  - apply (bool_decide_unpack _). vm_compute. reflexivity.
  - vm_compute. reflexivity.
  - apply (run_trace_reachable _ [AEvent EvSubmit; ATick] contact_started); [constructor|].
    vm_compute. reflexivity.
Defined.
